(** * get_python_api.py: the ZED Python API download helper

    A shallow embedding of [src/get_python_api.py] and the properties its
    specification states about it.

    The script is glue around the operating system: it asks the platform
    who it is, reads a header file, downloads one file, and shells out to
    pip.  The embedding keeps the script's control flow and string
    construction as Rocq functions and takes the operating system, the
    network and the subprocesses as a [World]: a record of oracles that say
    what each call returns.  Calls that can be repeated with different
    outcomes (a second GET, a stat after a write) take the current time as
    an argument, the time being the number of calls made so far.

    Conventions.
    - A Python [str] is a Rocq [string] whose characters are code points
      below 256; [bytes] is [list byte].
    - Python integers are [Z].  The one float of the script,
      [st_size / 1000.], is a rational [Q]: the division of an integer file
      size by 1000 is compared with the integer 150, which binary64
      represents exactly, and correctly rounded division is monotone, so
      the comparison has the same outcome on rationals.
    - Exceptions are values of [exn] carrying their class; [try]/[except]
      selects by [isinstance] along the class hierarchy.  [sys.exit n]
      raises [SystemExit], as in Python.  What the world raises is a
      [fault], an instance of [Exception]. *)

From Stdlib Require Import ZArith List String Ascii Bool Lia QArith.
From Stdlib Require Import Strings.Byte DecimalString.
Import ListNotations.

Local Open Scope Z_scope.
Local Open Scope list_scope.
Local Open Scope string_scope.

(* ===================================================================== *)
(** * Part I: definitions *)
(* ===================================================================== *)

(** ** Python strings *)

Module PyStr.

Definition code (c : ascii) : N := N_of_ascii c.

(** [str.isspace] on one character, for code points below 256. *)
Definition isspace (c : ascii) : bool :=
  let n := code c in
  ((9 <=? n) && (n <=? 13) || (28 <=? n) && (n <=? 32)
   || (n =? 133) || (n =? 160))%N.

(** The line boundaries of [str.splitlines], for code points below 256,
    apart from the two-character boundary CR LF, which [splitlines]
    treats on its own. *)
Definition islinebreak (c : ascii) : bool :=
  let n := code c in
  ((10 <=? n) && (n <=? 13) || (28 <=? n) && (n <=? 30) || (n =? 133))%N.

Definition isdigit (c : ascii) : bool :=
  let n := code c in ((48 <=? n) && (n <=? 57))%N.

Definition lower_char (c : ascii) : ascii :=
  let n := code c in
  if ((65 <=? n) && (n <=? 90)
      || (192 <=? n) && (n <=? 222) && negb (n =? 215))%N
  then ascii_of_N (n + 32) else c.

(** [s.lower()] *)
Fixpoint lower (s : string) : string :=
  match s with
  | EmptyString => EmptyString
  | String c t => String (lower_char c) (lower t)
  end.

(** [s.startswith(p)] *)
Definition startswith (p s : string) : bool := String.prefix p s.

(** [needle in hay] *)
Fixpoint contains (needle hay : string) : bool :=
  if String.prefix needle hay then true
  else match hay with
       | EmptyString => false
       | String _ t => contains needle t
       end.

(** What follows the first occurrence of [marker] in [data], if any. *)
Fixpoint after_first (marker data : string) : option string :=
  if String.prefix marker data
  then Some (substring (length marker) (length data - length marker) data)
  else match data with
       | EmptyString => None
       | String _ t => after_first marker t
       end.

(** The longest prefix without a line feed: what a greedy group of dots
    matches in a regular expression, a dot standing for any character but
    the line feed. *)
Fixpoint dot_star (s : string) : string :=
  match s with
  | EmptyString => EmptyString
  | String c t => if (code c =? 10)%N then EmptyString
                  else String c (dot_star t)
  end.

Fixpoint lstrip (s : string) : string :=
  match s with
  | EmptyString => EmptyString
  | String c t => if isspace c then lstrip t else s
  end.

Fixpoint rev_string (s acc : string) : string :=
  match s with
  | EmptyString => acc
  | String c t => rev_string t (String c acc)
  end.

Definition rstrip (s : string) : string :=
  rev_string (lstrip (rev_string s "")) "".

(** [s.strip()] *)
Definition strip (s : string) : string := rstrip (lstrip s).

(** [s[n:]] for [0 <= n] *)
Fixpoint drop (n : nat) (s : string) : string :=
  match n, s with
  | O, _ => s
  | S _, EmptyString => EmptyString
  | S n', String _ t => drop n' t
  end.

(** [s.splitlines()]: [cur] is the line being read, reversed. *)
Fixpoint splitlines_from (cur s : string) : list string :=
  match s with
  | EmptyString =>
      match cur with
      | EmptyString => []
      | _ => [rev_string cur ""]
      end
  | String c t =>
      if (code c =? 13)%N then
        match t with
        | String c' t' =>
            if (code c' =? 10)%N
            then rev_string cur "" :: splitlines_from "" t'
            else rev_string cur "" :: splitlines_from "" t
        | EmptyString => [rev_string cur ""]
        end
      else if islinebreak c
           then rev_string cur "" :: splitlines_from "" t
           else splitlines_from (String c cur) t
  end.

Definition splitlines (s : string) : list string := splitlines_from "" s.

(** [s.split(".")]: never empty. *)
Fixpoint split_from (sep : ascii) (cur s : string) : list string :=
  match s with
  | EmptyString => [rev_string cur ""]
  | String c t =>
      if Ascii.eqb c sep
      then rev_string cur "" :: split_from sep "" t
      else split_from sep (String c cur) t
  end.

Definition split (sep : ascii) (s : string) : list string :=
  split_from sep "" s.

(** The digits of [int(s)]: decimal digits, single underscores allowed
    between two digits. *)
Fixpoint int_digits (s : string) (acc : Z) (after_digit : bool)
  : option Z :=
  match s with
  | EmptyString => if after_digit then Some acc else None
  | String c t =>
      if isdigit c
      then int_digits t (10 * acc + Z.of_N (code c - 48)) true
      else if (code c =? 95)%N && after_digit
           then int_digits t acc false
           else None
  end.

(** [int(s)] in base ten; [None] stands for [ValueError]. *)
Definition int_of (s : string) : option Z :=
  match strip s with
  | String "+" t => int_digits t 0 false
  | String "-" t => option_map Z.opp (int_digits t 0 false)
  | s' => int_digits s' 0 false
  end.

(** [str(n)] for an integer *)
Definition of_int (n : Z) : string := NilZero.string_of_int (Z.to_int n).

(** [sep.join(l)] *)
Definition join (sep : string) (l : list string) : string :=
  String.concat sep l.

End PyStr.

(** ** Exceptions *)

Module PyExc.

(** The classes a run of the script can meet: the builtins it names or
    that its calls raise, those of [subprocess], and every class that the
    module [requests.exceptions] defines or imports. *)
Inductive exc_class : Type :=
| BaseException | SystemExit | KeyboardInterrupt | Exception
| AttributeError | TypeError | IndexError | RuntimeError
| ValueError | UnicodeError | UnicodeDecodeError
| OSError | FileNotFoundError | PermissionError
| IsADirectoryError | NotADirectoryError | FileExistsError
| SubprocessError | CalledProcessError
| Warning | DeprecationWarning
| json_JSONDecodeError | urllib3_HTTPError
| RequestException | InvalidJSONError | JSONDecodeError | HTTPError
| ConnectionError | ProxyError | SSLError | Timeout | ConnectTimeout
| ReadTimeout | URLRequired | TooManyRedirects | MissingSchema
| InvalidSchema | InvalidURL | InvalidHeader | InvalidProxyURL
| ChunkedEncodingError | ContentDecodingError | StreamConsumedError
| RetryError | UnrewindableBodyError
| RequestsWarning | FileModeWarning | RequestsDependencyWarning.

Definition exc_class_eq_dec (a b : exc_class) : {a = b} + {a <> b}.
Proof. decide equality. Defined.

Definition class_eqb (a b : exc_class) : bool :=
  if exc_class_eq_dec a b then true else false.

(** The direct base classes ([__bases__]). *)
Definition bases (c : exc_class) : list exc_class :=
  match c with
  | BaseException => []
  | SystemExit | KeyboardInterrupt | Exception => [BaseException]
  | AttributeError | TypeError | IndexError | RuntimeError | ValueError
  | OSError | SubprocessError | Warning | urllib3_HTTPError => [Exception]
  | UnicodeError => [ValueError]
  | UnicodeDecodeError => [UnicodeError]
  | FileNotFoundError | PermissionError | IsADirectoryError
  | NotADirectoryError | FileExistsError => [OSError]
  | CalledProcessError => [SubprocessError]
  | DeprecationWarning => [Warning]
  | json_JSONDecodeError => [ValueError]
  | RequestException => [OSError]
  | InvalidJSONError => [RequestException]
  | JSONDecodeError => [InvalidJSONError; json_JSONDecodeError]
  | HTTPError | ConnectionError | Timeout | URLRequired
  | TooManyRedirects | ChunkedEncodingError | RetryError
  | UnrewindableBodyError => [RequestException]
  | ProxyError | SSLError => [ConnectionError]
  | ConnectTimeout => [ConnectionError; Timeout]
  | ReadTimeout => [Timeout]
  | MissingSchema | InvalidSchema | InvalidURL | InvalidHeader =>
      [RequestException; ValueError]
  | InvalidProxyURL => [InvalidURL]
  | ContentDecodingError => [RequestException; urllib3_HTTPError]
  | StreamConsumedError => [RequestException; TypeError]
  | RequestsWarning => [Warning]
  | FileModeWarning => [RequestsWarning; DeprecationWarning]
  | RequestsDependencyWarning => [RequestsWarning]
  end.

(** [issubclass(c, d)]; the hierarchy is less than eight levels deep. *)
Fixpoint issubclass_upto (fuel : nat) (c d : exc_class) : bool :=
  class_eqb c d ||
  match fuel with
  | O => false
  | S fuel' => existsb (fun b => issubclass_upto fuel' b d) (bases c)
  end.

Definition issubclass (c d : exc_class) : bool := issubclass_upto 8 c d.

(** An exception instance: its class, [SystemExit]'s exit code, and the
    text [str(e)] gives. *)
Record exn : Type := Exn {
  exn_class : exc_class;
  exn_code : Z;
  exn_str : string
}.

Definition isinstance (e : exn) (c : exc_class) : bool :=
  issubclass (exn_class e) c.

(** What a call into the world raises: an instance of [Exception].  The
    asynchronous [KeyboardInterrupt] is not modelled, and no call of the
    script raises [SystemExit] but [sys.exit]. *)
Record fault : Type := Fault {
  fault_exn : exn;
  fault_is_exception : isinstance fault_exn Exception = true
}.

(** The names of the module [requests.exceptions]: the classes it defines
    and the two it imports under another name.  Attribute access on the
    module finds these and no other class. *)
Definition requests_exceptions : list (string * exc_class) :=
  [ ("BaseHTTPError", urllib3_HTTPError);
    ("CompatJSONDecodeError", json_JSONDecodeError);
    ("RequestException", RequestException);
    ("InvalidJSONError", InvalidJSONError);
    ("JSONDecodeError", JSONDecodeError);
    ("HTTPError", HTTPError);
    ("ConnectionError", ConnectionError);
    ("ProxyError", ProxyError);
    ("SSLError", SSLError);
    ("Timeout", Timeout);
    ("ConnectTimeout", ConnectTimeout);
    ("ReadTimeout", ReadTimeout);
    ("URLRequired", URLRequired);
    ("TooManyRedirects", TooManyRedirects);
    ("MissingSchema", MissingSchema);
    ("InvalidSchema", InvalidSchema);
    ("InvalidURL", InvalidURL);
    ("InvalidHeader", InvalidHeader);
    ("InvalidProxyURL", InvalidProxyURL);
    ("ChunkedEncodingError", ChunkedEncodingError);
    ("ContentDecodingError", ContentDecodingError);
    ("StreamConsumedError", StreamConsumedError);
    ("RetryError", RetryError);
    ("UnrewindableBodyError", UnrewindableBodyError);
    ("RequestsWarning", RequestsWarning);
    ("FileModeWarning", FileModeWarning);
    ("RequestsDependencyWarning", RequestsDependencyWarning) ].

Fixpoint assoc {A : Type} (k : string) (l : list (string * A))
  : option A :=
  match l with
  | [] => None
  | (k', v) :: t => if String.eqb k k' then Some v else assoc k t
  end.

End PyExc.

Export PyExc.

(** ** The world outside the script *)

(** What [requests.get] returns: the script reads [r.content] and nothing
    else; the status code is here because the specification speaks of it. *)
Record response : Type := Response {
  status_code : Z;
  content : list byte
}.

(** What [parser.parse_args()] returns: [args.path], which is [None]
    without [--path], and [args.force]. *)
Record Args : Type := {
  args_path : option string;
  args_force : bool
}.

(** A call that can fail answers [inl f] when it raises the fault [f]; a
    call made for its effect answers [Some f] when it raises and [None]
    when it succeeds.  The first argument of an oracle is the time of the
    call.

    [platform_architecture_0] is what [platform.architecture()[0]] returns.
    To find it the standard library may run [file -b] on the interpreter,
    as it does on every system but Windows; that process is the library's
    and is not an event of the trace, which holds the calls the script
    makes itself.

    [os_getcwd] and [Path_home] are what [os.getcwd()] and
    [str(Path.home())] give when they are called: [os.getcwd()] raises
    [FileNotFoundError] in a working directory that has been removed, and
    [Path.home()] raises when no home directory can be determined. *)
Record World : Type := {
  platform_machine : string;
  platform_architecture_0 : string;
  sys_platform : string;
  platform_python_version : string;
  sys_executable : string;
  os_getcwd : fault + string;
  Path_home : fault + string;
  os_environ : list (string * string);
  os_path_join : string -> string -> string;
  stat_st_size : nat -> string -> fault + Z;
  open_rb_read : nat -> string -> fault + list byte;
  open_r_read : nat -> string -> fault + string;
  open_wb_write : nat -> string -> list byte -> option fault;
  open_w_write : nat -> string -> string -> option fault;
  remove : nat -> string -> option fault;
  copy : nat -> string -> string -> option fault;
  path_exists : nat -> string -> bool;
  path_isdir : nat -> string -> bool;
  path_isfile : nat -> string -> bool;
  access_W_OK : nat -> string -> bool;
  http_get : nat -> string -> fault + response;
  (** a subprocess: its exit status and what it wrote on standard output,
      or the exception that starting it raised *)
  run_process : nat -> list string -> fault + (Z * string)
}.

(** [posixpath.join] for two components, the [os.path.join] of Linux. *)
Definition posixpath_join (a b : string) : string :=
  if PyStr.startswith "/" b then b
  else if String.eqb a "" then b
  else if String.eqb (PyStr.drop (length a - 1) a) "/" then a ++ b
  else a ++ "/" ++ b.

(** The calls the script makes into the world, in order: [print], the
    queries and operations of [os] and [shutil], [open], [requests.get]
    and the processes of [subprocess]. *)
Inductive event : Type :=
| Stdout (text : string)
| SetEnv (name value : string)
| Stat (path : string)
| OpenRead (path : string)
| Probe (path : string)
| WriteBytes (path : string) (data : list byte) (ok : bool)
| WriteText (path : string) (text : string) (ok : bool)
| Remove (path : string) (ok : bool)
| Copy (src dst : string) (ok : bool)
| HttpGet (url : string)
| Spawn (argv : list string).

Definition is_network (e : event) : bool :=
  match e with HttpGet _ => true | _ => false end.

Definition is_fs_write (e : event) : bool :=
  match e with
  | WriteBytes _ _ _ | WriteText _ _ _ | Remove _ _ | Copy _ _ _ => true
  | _ => false
  end.

Definition is_spawn (e : event) : bool :=
  match e with Spawn _ => true | _ => false end.

(** ** The interpreter state: the trace and the module's globals *)

Record State : Type := {
  log : list event;
  environ : list (string * string);
  ZED_SDK_MAJOR : string;
  ZED_SDK_MINOR : string;
  PYTHON_MAJOR : string;
  PYTHON_MINOR : string;
  OS_VERSION : string;
  whl_platform_str : string;
  dirname : string;
  zed_path : string;
  whl_file : string;
  whl_file_URL : string
}.

Definition set_log v s :=
  {| log := v; environ := environ s; ZED_SDK_MAJOR := ZED_SDK_MAJOR s;
     ZED_SDK_MINOR := ZED_SDK_MINOR s; PYTHON_MAJOR := PYTHON_MAJOR s;
     PYTHON_MINOR := PYTHON_MINOR s; OS_VERSION := OS_VERSION s;
     whl_platform_str := whl_platform_str s; dirname := dirname s;
     zed_path := zed_path s; whl_file := whl_file s;
     whl_file_URL := whl_file_URL s |}.

Definition set_environ v s :=
  {| log := log s; environ := v; ZED_SDK_MAJOR := ZED_SDK_MAJOR s;
     ZED_SDK_MINOR := ZED_SDK_MINOR s; PYTHON_MAJOR := PYTHON_MAJOR s;
     PYTHON_MINOR := PYTHON_MINOR s; OS_VERSION := OS_VERSION s;
     whl_platform_str := whl_platform_str s; dirname := dirname s;
     zed_path := zed_path s; whl_file := whl_file s;
     whl_file_URL := whl_file_URL s |}.

Definition set_ZED_SDK_MAJOR v s :=
  {| log := log s; environ := environ s; ZED_SDK_MAJOR := v;
     ZED_SDK_MINOR := ZED_SDK_MINOR s; PYTHON_MAJOR := PYTHON_MAJOR s;
     PYTHON_MINOR := PYTHON_MINOR s; OS_VERSION := OS_VERSION s;
     whl_platform_str := whl_platform_str s; dirname := dirname s;
     zed_path := zed_path s; whl_file := whl_file s;
     whl_file_URL := whl_file_URL s |}.

Definition set_ZED_SDK_MINOR v s :=
  {| log := log s; environ := environ s; ZED_SDK_MAJOR := ZED_SDK_MAJOR s;
     ZED_SDK_MINOR := v; PYTHON_MAJOR := PYTHON_MAJOR s;
     PYTHON_MINOR := PYTHON_MINOR s; OS_VERSION := OS_VERSION s;
     whl_platform_str := whl_platform_str s; dirname := dirname s;
     zed_path := zed_path s; whl_file := whl_file s;
     whl_file_URL := whl_file_URL s |}.

Definition set_PYTHON_MAJOR v s :=
  {| log := log s; environ := environ s; ZED_SDK_MAJOR := ZED_SDK_MAJOR s;
     ZED_SDK_MINOR := ZED_SDK_MINOR s; PYTHON_MAJOR := v;
     PYTHON_MINOR := PYTHON_MINOR s; OS_VERSION := OS_VERSION s;
     whl_platform_str := whl_platform_str s; dirname := dirname s;
     zed_path := zed_path s; whl_file := whl_file s;
     whl_file_URL := whl_file_URL s |}.

Definition set_PYTHON_MINOR v s :=
  {| log := log s; environ := environ s; ZED_SDK_MAJOR := ZED_SDK_MAJOR s;
     ZED_SDK_MINOR := ZED_SDK_MINOR s; PYTHON_MAJOR := PYTHON_MAJOR s;
     PYTHON_MINOR := v; OS_VERSION := OS_VERSION s;
     whl_platform_str := whl_platform_str s; dirname := dirname s;
     zed_path := zed_path s; whl_file := whl_file s;
     whl_file_URL := whl_file_URL s |}.

Definition set_OS_VERSION v s :=
  {| log := log s; environ := environ s; ZED_SDK_MAJOR := ZED_SDK_MAJOR s;
     ZED_SDK_MINOR := ZED_SDK_MINOR s; PYTHON_MAJOR := PYTHON_MAJOR s;
     PYTHON_MINOR := PYTHON_MINOR s; OS_VERSION := v;
     whl_platform_str := whl_platform_str s; dirname := dirname s;
     zed_path := zed_path s; whl_file := whl_file s;
     whl_file_URL := whl_file_URL s |}.

Definition set_whl_platform_str v s :=
  {| log := log s; environ := environ s; ZED_SDK_MAJOR := ZED_SDK_MAJOR s;
     ZED_SDK_MINOR := ZED_SDK_MINOR s; PYTHON_MAJOR := PYTHON_MAJOR s;
     PYTHON_MINOR := PYTHON_MINOR s; OS_VERSION := OS_VERSION s;
     whl_platform_str := v; dirname := dirname s;
     zed_path := zed_path s; whl_file := whl_file s;
     whl_file_URL := whl_file_URL s |}.

Definition set_dirname v s :=
  {| log := log s; environ := environ s; ZED_SDK_MAJOR := ZED_SDK_MAJOR s;
     ZED_SDK_MINOR := ZED_SDK_MINOR s; PYTHON_MAJOR := PYTHON_MAJOR s;
     PYTHON_MINOR := PYTHON_MINOR s; OS_VERSION := OS_VERSION s;
     whl_platform_str := whl_platform_str s; dirname := v;
     zed_path := zed_path s; whl_file := whl_file s;
     whl_file_URL := whl_file_URL s |}.

Definition set_zed_path v s :=
  {| log := log s; environ := environ s; ZED_SDK_MAJOR := ZED_SDK_MAJOR s;
     ZED_SDK_MINOR := ZED_SDK_MINOR s; PYTHON_MAJOR := PYTHON_MAJOR s;
     PYTHON_MINOR := PYTHON_MINOR s; OS_VERSION := OS_VERSION s;
     whl_platform_str := whl_platform_str s; dirname := dirname s;
     zed_path := v; whl_file := whl_file s;
     whl_file_URL := whl_file_URL s |}.

Definition set_whl_file v s :=
  {| log := log s; environ := environ s; ZED_SDK_MAJOR := ZED_SDK_MAJOR s;
     ZED_SDK_MINOR := ZED_SDK_MINOR s; PYTHON_MAJOR := PYTHON_MAJOR s;
     PYTHON_MINOR := PYTHON_MINOR s; OS_VERSION := OS_VERSION s;
     whl_platform_str := whl_platform_str s; dirname := dirname s;
     zed_path := zed_path s; whl_file := v;
     whl_file_URL := whl_file_URL s |}.

Definition set_whl_file_URL v s :=
  {| log := log s; environ := environ s; ZED_SDK_MAJOR := ZED_SDK_MAJOR s;
     ZED_SDK_MINOR := ZED_SDK_MINOR s; PYTHON_MAJOR := PYTHON_MAJOR s;
     PYTHON_MINOR := PYTHON_MINOR s; OS_VERSION := OS_VERSION s;
     whl_platform_str := whl_platform_str s; dirname := dirname s;
     zed_path := zed_path s; whl_file := whl_file s;
     whl_file_URL := v |}.

(** The time: how many calls the run has made. *)
Definition clock (s : State) : nat := List.length (log s).

(** The module as it is once its first lines have run: every global is the
    empty string (lines 14 to 23), the environment is the process's with
    [PYTHONIOENCODING] set (line 12), nothing has happened yet. *)
Definition initial_state (w : World) : State :=
  {| log := [];
     environ := ("PYTHONIOENCODING", "utf-8") :: os_environ w;
     ZED_SDK_MAJOR := ""; ZED_SDK_MINOR := "";
     PYTHON_MAJOR := ""; PYTHON_MINOR := "";
     OS_VERSION := ""; whl_platform_str := "";
     dirname := ""; zed_path := ""; whl_file := ""; whl_file_URL := "" |}.

Definition base_URL : string := "https://download.stereolabs.com/zedsdk/".

(** ** The monad of statements: state and exceptions *)

Inductive res (A : Type) : Type :=
| Ok (a : A)
| Err (e : exn).

Arguments Ok {A} a.
Arguments Err {A} e.

Definition M (A : Type) : Type := State -> res A * State.

Definition ret {A : Type} (a : A) : M A := fun s => (Ok a, s).

Definition raise {A : Type} (e : exn) : M A := fun s => (Err e, s).

Definition bind {A B : Type} (c : M A) (k : A -> M B) : M B :=
  fun s => match c s with
           | (Ok a, s') => k a s'
           | (Err e, s') => (Err e, s')
           end.

Declare Scope py_scope.
Delimit Scope py_scope with py.
Notation "x <- c ;; k" := (bind c (fun x => k))
  (at level 61, c at next level, right associativity) : py_scope.
Notation "c ;; k" := (bind c (fun _ => k))
  (at level 61, right associativity) : py_scope.
Local Open Scope py_scope.

Definition get {A : Type} (f : State -> A) : M A := fun s => (Ok (f s), s).

Definition modify (f : State -> State) : M unit := fun s => (Ok tt, f s).

(** [sys.exit(code)] *)
Definition sys_exit {A : Type} (code : Z) : M A :=
  raise (Exn SystemExit code "").

(** The clauses of a [try] statement, tried in order: each names its class
    by an expression, evaluated only when the clauses before it did not
    match; an expression that raises replaces the exception in flight. *)
Fixpoint select_clause {A : Type} (e : exn)
  (clauses : list (M exc_class * (exn -> M A))) : M A :=
  match clauses with
  | [] => raise e
  | (class_expr, handler) :: rest =>
      c <- class_expr ;;
      if isinstance e c then handler e else select_clause e rest
  end.

Definition try_except {A : Type} (body : M A)
  (clauses : list (M exc_class * (exn -> M A))) : M A :=
  fun s => match body s with
           | (Ok a, s') => (Ok a, s')
           | (Err e, s') => select_clause e clauses s'
           end.

(** A builtin class, named directly. *)
Definition builtin (c : exc_class) : M exc_class := ret c.

Definition no_attribute (name : string) : exn :=
  Exn AttributeError 0
    ("module 'requests.exceptions' has no attribute '" ++ name ++ "'").

(** [requests.exceptions.<name>]: attribute access on the module. *)
Definition requests_exceptions_attr (name : string) : M exc_class :=
  match assoc name requests_exceptions with
  | Some c => ret c
  | None => raise (no_attribute name)
  end.

(** [a and b] on booleans, [b] evaluated only when [a] holds. *)
Definition and_then (a b : M bool) : M bool :=
  x <- a ;; if x then b else ret false.

(** The exit status of the process for the outcome of the script. *)
Definition exit_status (r : res unit) : Z :=
  match r with
  | Ok _ => 0
  | Err e => if class_eqb (exn_class e) SystemExit then exn_code e else 1
  end.

(** ** The script *)

Section Script.

Variable w : World.

(** *** Calls into the world

    Each call is recorded in the trace, and asks the world what happens at
    the time of the call. *)

Definition now : M nat := get clock.

Definition emit (e : event) : M unit :=
  modify (fun s => set_log (log s ++ [e])%list s).

Definition of_sum {A : Type} (x : fault + A) : M A :=
  match x with
  | inl f => raise (fault_exn f)
  | inr a => ret a
  end.

Definition of_status (x : option fault) : M unit :=
  match x with
  | Some f => raise (fault_exn f)
  | None => ret tt
  end.

Definition succeeded (x : option fault) : bool :=
  match x with Some _ => false | None => true end.

Definition print (text : string) : M unit := emit (Stdout text).

(** [os.environ[name] = value] *)
Definition setenv (name value : string) : M unit :=
  emit (SetEnv name value) ;;
  modify (fun s => set_environ ((name, value) :: environ s) s).

(** [os.getenv(name)] *)
Definition getenv (name : string) : M (option string) :=
  get (fun s => assoc name (environ s)).

(** [os.stat(path).st_size] *)
Definition os_stat_st_size (path : string) : M Z :=
  t <- now ;; emit (Stat path) ;; of_sum (stat_st_size w t path).

(** [with open(path, 'rb') as f: f.read(n)] *)
Definition read_header (path : string) (n : nat) : M (list byte) :=
  t <- now ;; emit (OpenRead path) ;;
  data <- of_sum (open_rb_read w t path) ;;
  ret (firstn n data).

(** [with open(path, "r", encoding="utf-8") as f: f.read()] *)
Definition read_text (path : string) : M string :=
  t <- now ;; emit (OpenRead path) ;; of_sum (open_r_read w t path).

(** [open(path, 'wb').write(data)] *)
Definition write_bytes (path : string) (data : list byte) : M unit :=
  t <- now ;;
  let r := open_wb_write w t path data in
  emit (WriteBytes path data (succeeded r)) ;; of_status r.

(** [with open(path, 'w') as f: f.write(text)] *)
Definition write_text (path text : string) : M unit :=
  t <- now ;;
  let r := open_w_write w t path text in
  emit (WriteText path text (succeeded r)) ;; of_status r.

Definition os_remove (path : string) : M unit :=
  t <- now ;;
  let r := remove w t path in
  emit (Remove path (succeeded r)) ;; of_status r.

Definition shutil_copy (src dst : string) : M unit :=
  t <- now ;;
  let r := copy w t src dst in
  emit (Copy src dst (succeeded r)) ;; of_status r.

Definition os_path_exists (path : string) : M bool :=
  t <- now ;; emit (Probe path) ;; ret (path_exists w t path).

Definition os_path_isdir (path : string) : M bool :=
  t <- now ;; emit (Probe path) ;; ret (path_isdir w t path).

Definition os_path_isfile (path : string) : M bool :=
  t <- now ;; emit (Probe path) ;; ret (path_isfile w t path).

(** [os.access(path, os.W_OK)] *)
Definition os_access_W_OK (path : string) : M bool :=
  t <- now ;; emit (Probe path) ;; ret (access_W_OK w t path).

(** [requests.get(url, allow_redirects=True)] *)
Definition requests_get (url : string) : M response :=
  t <- now ;; emit (HttpGet url) ;; of_sum (http_get w t url).

Definition CalledProcessError_of (status : Z) : exn :=
  Exn CalledProcessError 0
    ("Command returned non-zero exit status " ++ PyStr.of_int status ++ ".").

(** [subprocess.check_call(argv)]: 0 when the process exits with status 0,
    [CalledProcessError] when it exits with another one. *)
Definition subprocess_check_call (argv : list string) : M Z :=
  t <- now ;; emit (Spawn argv) ;;
  r <- of_sum (run_process w t argv) ;;
  if Z.eqb (fst r) 0 then ret 0 else raise (CalledProcessError_of (fst r)).

(** [subprocess.check_output(argv, encoding="utf-8", errors="replace")] *)
Definition subprocess_check_output (argv : list string) : M string :=
  t <- now ;; emit (Spawn argv) ;;
  r <- of_sum (run_process w t argv) ;;
  if Z.eqb (fst r) 0 then ret (snd r) else raise (CalledProcessError_of (fst r)).

(** *** pip_install (lines 27 to 46) *)

Definition pip_install (package : string)
  (force_install ignore_install upgrade break_system_packages : bool)
  : M Z :=
  try_except
    ((if break_system_packages
      then setenv "PIP_BREAK_SYSTEM_PACKAGES" "1" else ret tt) ;;
     let call_list := [sys_executable w; "-m"; "pip"; "install"] in
     let call_list := if ignore_install
                      then (call_list ++ ["--ignore-installed"])%list
                      else call_list in
     let call_list := if force_install
                      then (call_list ++ ["--force-reinstall"])%list
                      else call_list in
     let call_list := if upgrade
                      then (call_list ++ ["--upgrade"])%list
                      else call_list in
     let call_list := if break_system_packages
                      then (call_list ++ ["--break-system-packages"])%list
                      else call_list in
     let call_list := (call_list ++ [package])%list in
     subprocess_check_call call_list)
    [ (builtin Exception, fun _ => ret 1) ].

(** *** check_valid_file (lines 49 to 76) *)

(** [b'PK\x03\x04'] *)
Definition ZIP_MAGIC : list byte := [x50; x4b; x03; x04].

Definition bytes_eqb (a b : list byte) : bool :=
  if list_eq_dec Byte.byte_eq_dec a b then true else false.

(** [x > y] on the rationals that stand for floats *)
Definition Qgt_bool (x y : Q) : bool := negb (Qle_bool x y).

Definition check_valid_file (file_path : string) : M bool :=
  file_size <-
    try_except
      (st_size <- os_stat_st_size file_path ;;
       ret (inject_Z st_size / 1000)%Q)
      [ (builtin FileNotFoundError, fun _ => ret 0%Q) ] ;;
  is_zip <-
    try_except
      (header <- read_header file_path 4 ;;
       ret (bytes_eqb header ZIP_MAGIC))
      [ (builtin Exception, fun _ => ret false) ] ;;
  ret (Qgt_bool file_size 150 && is_zip).

(** *** get_pyzed_directory (lines 100 to 119) *)

(** [print(lines)] shows the list as Python writes it, the quoting of the
    items left plain. *)
Definition repr_lines (lines : list string) : string :=
  "[" ++ PyStr.join ", " (map (fun l => "'" ++ l ++ "'") lines) ++ "]".

(** The [for] loop: [Some v] when the loop returned [v]. *)
Fixpoint scan_lines (lines : list string) : M (option string) :=
  match lines with
  | [] => ret None
  | line :: rest =>
      let key_word := "Location:" in
      if PyStr.startswith key_word line then
        let directory := PyStr.strip (PyStr.drop (length key_word) line) in
        d <- os_path_isdir directory ;;
        if d then
          print ("Pyzed directory is " ++ directory) ;;
          ret (Some (directory ++ "/pyzed"))
        else
          print ("ERROR : '" ++ directory ++ "' is not a directory") ;;
          scan_lines rest
      else scan_lines rest
  end.

(** The value is Python's: [None] is [None], [Some s] the string [s]. *)
Definition get_pyzed_directory : M (option string) :=
  try_except
    (let call_list := [sys_executable w; "-m"; "pip"; "show"; "pyzed"] in
     out <- subprocess_check_output call_list ;;
     let lines := PyStr.splitlines out in
     found <- scan_lines lines ;;
     match found with
     | Some directory => ret (Some directory)
     | None =>
         print "ERROR : Unable to find pyzed installation folder" ;;
         print (repr_lines lines) ;;
         ret None
     end)
    [ (builtin Exception,
       fun _ =>
         print "ERROR : Unable to find pyzed installation folder." ;;
         ret (Some "")) ].

(** *** check_zed_sdk_version (lines 122 to 142) *)

(** [p.search(data)] for a pattern [p] made of a marker and a greedy group
    of dots, then [.group(1)]: the markers of the script are plain text,
    so the match is the first occurrence of the marker and the group is
    the rest of its line.  No match is [None], on which [.group] raises
    [AttributeError]. *)
Definition re_search (marker data : string) : option string :=
  option_map PyStr.dot_star (PyStr.after_first marker data).

Definition no_attribute_group : exn :=
  Exn AttributeError 0 "'NoneType' object has no attribute 'group'".

Definition group_1 (m : option string) : M string :=
  match m with
  | Some g => ret g
  | None => raise no_attribute_group
  end.

Definition check_zed_sdk_version_private (file_path : string) : M unit :=
  data <- read_text file_path ;;
  major <- group_1 (re_search "ZED_SDK_MAJOR_VERSION " data) ;;
  modify (set_ZED_SDK_MAJOR major) ;;
  minor <- group_1 (re_search "ZED_SDK_MINOR_VERSION " data) ;;
  modify (set_ZED_SDK_MINOR minor).

Definition check_zed_sdk_version (file_path : string) : M unit :=
  let file_path_ := file_path ++ "/sl/Camera.hpp" in
  try_except
    (check_zed_sdk_version_private file_path_)
    [ (builtin AttributeError,
       fun _ =>
         let file_path_ := file_path ++ "/sl_zed/defines.hpp" in
         check_zed_sdk_version_private file_path_) ].

(** *** can_write_to_dir (lines 144 to 155) *)

Definition can_write_to_dir (dirname : string) : M bool :=
  usable <- and_then (os_path_exists dirname)
              (and_then (os_path_isdir dirname) (os_access_W_OK dirname)) ;;
  if negb usable then ret false
  else
    try_except
      (let testfile := os_path_join w dirname "temp_test_file.tmp" in
       write_text testfile "test" ;;
       os_remove testfile ;;
       ret true)
      [ (builtin Exception, fun _ => ret false) ].

(** *** Small pieces of Python the top level uses *)

Definition nl : string := String (ascii_of_nat 10) "".
Definition tab : string := String (ascii_of_nat 9) "".

(** [l[i]] *)
Definition item {A : Type} (l : list A) (i : nat) : M A :=
  match nth_error l i with
  | Some x => ret x
  | None => raise (Exn IndexError 0 "list index out of range")
  end.

(** [int(s)] *)
Definition int (s : string) : M Z :=
  match PyStr.int_of s with
  | Some n => ret n
  | None =>
      raise (Exn ValueError 0
               ("invalid literal for int() with base 10: '" ++ s ++ "'"))
  end.

(** [a + b] where [a] may be [None] *)
Definition concat_opt (a : option string) (b : string) : M string :=
  match a with
  | Some a' => ret (a' ++ b)
  | None =>
      raise (Exn TypeError 0
               "unsupported operand type(s) for +: 'NoneType' and 'str'")
  end.

(** *** install_win_dep (lines 79 to 97) *)

Definition install_win_dep (name : string) (py_vers : Z)
  (break_system_packages : bool) : M unit :=
  let package_vers :=
    if (py_vers <? 310)%Z then "3.1.5"
    else if ((310 <=? py_vers) && (py_vers <? 312))%Z then "3.1.6"
    else "3.1.9" in
  let whl_file := name ++ "-" ++ package_vers ++ "-cp" ++ PyStr.of_int py_vers
                  ++ "-cp" ++ PyStr.of_int py_vers in
  let whl_file := if (py_vers <=? 37)%Z then whl_file ++ "m" else whl_file in
  let whl_file := whl_file ++ "-win_amd64.whl" in
  let whl_file_URL := "https://download.stereolabs.com/py/" ++ whl_file in
  print ("-> Downloading " ++ whl_file) ;;
  d <- get dirname ;;
  let whl_file := os_path_join w d whl_file in
  r <- requests_get whl_file_URL ;;
  write_bytes whl_file (content r) ;;
  pip_install whl_file false false false break_system_packages ;;
  ret tt.

(** *** The top level (lines 157 to 286)

    The top level is cut into its stages, run one after the other by
    [script].  [args] is what [parser.parse_args()] returned. *)

Variable args : Args.

(** Lines 162 to 165 *)
Definition check_architecture : M unit :=
  let arch := platform_architecture_0 w in
  if negb (String.eqb arch "64bit") then
    print ("ERROR : Python 64bit must be used, found " ++ arch) ;;
    sys_exit 1
  else ret tt.

(** Lines 167 to 174.  [args.path or os.getcwd()] calls [os.getcwd()]
    when [args.path] is [None] or empty, and only then. *)
Definition choose_dirname : M unit :=
  wanted <- match args_path args with
            | Some p => if String.eqb p "" then of_sum (os_getcwd w)
                        else ret p
            | None => of_sum (os_getcwd w)
            end ;;
  modify (set_dirname wanted) ;;
  d <- get dirname ;;
  writable <- can_write_to_dir d ;;
  (if negb writable then
     home <- of_sum (Path_home w) ;;
     modify (set_dirname home)
   else ret tt) ;;
  d <- get dirname ;;
  print ("-> Downloading to '" ++ d ++ "'").

(** [ARCH_VERSION] is assigned once, at line 21. *)
Definition ARCH_VERSION : string := platform_machine w.

(** Lines 176 to 200 *)
Definition detect_platform : M unit :=
  if String.eqb (sys_platform w) "win32" then
    z <- getenv "ZED_SDK_ROOT_DIR" ;;
    match z with
    | None =>
        print "Error: you must install the ZED SDK." ;;
        sys_exit 1
    | Some p =>
        modify (set_zed_path p) ;;
        check_zed_sdk_version (p ++ "/include")
    end ;;
    modify (set_OS_VERSION ("win" ++ "_" ++ PyStr.lower ARCH_VERSION)) ;;
    modify (set_whl_platform_str "win")
  else if PyStr.contains "linux" (sys_platform w) then
    (if PyStr.contains "aarch64" ARCH_VERSION
     then modify (set_OS_VERSION "linux_aarch64")
     else modify (set_OS_VERSION "linux_x86_64")) ;;
    modify (set_zed_path "/usr/local/zed") ;;
    p <- get zed_path ;;
    d <- os_path_isdir p ;;
    (if negb d then
       print "Error: you must install the ZED SDK." ;;
       sys_exit 1
     else ret tt) ;;
    check_zed_sdk_version (p ++ "/include") ;;
    modify (set_whl_platform_str "linux")
  else
    print ("Unknown system.platform: " ++ sys_platform w
           ++ "  Installation failed, see setup.py.") ;;
    sys_exit 1.

(** Lines 202 to 216 *)
Definition construct_artifact : M unit :=
  major <- item (PyStr.split "." (platform_python_version w)) 0 ;;
  modify (set_PYTHON_MAJOR major) ;;
  minor <- item (PyStr.split "." (platform_python_version w)) 1 ;;
  modify (set_PYTHON_MINOR minor) ;;
  let whl_python_version :=
    "-cp" ++ major ++ minor ++ "-cp" ++ major ++ minor in
  n <- int minor ;;
  let whl_python_version :=
    if (n <? 8)%Z then whl_python_version ++ "m" else whl_python_version in
  os_version <- get OS_VERSION ;;
  sdk_major <- get ZED_SDK_MAJOR ;;
  sdk_minor <- get ZED_SDK_MINOR ;;
  let disp_str := "Detected platform: " ++ nl ++ tab ++ " " ++ os_version
                  ++ nl ++ tab ++ " Python " ++ major ++ "." ++ minor in
  let disp_str := disp_str ++ nl ++ tab ++ " ZED SDK " ++ sdk_major ++ "."
                  ++ sdk_minor in
  print disp_str ;;
  platform_str <- get whl_platform_str ;;
  let file := "pyzed-" ++ sdk_major ++ "." ++ sdk_minor ++ whl_python_version
              ++ "-" ++ platform_str ++ "_" ++ PyStr.lower ARCH_VERSION
              ++ ".whl" in
  modify (set_whl_file file) ;;
  modify (set_whl_file_URL
            (base_URL ++ sdk_major ++ "." ++ sdk_minor ++ "/whl/"
             ++ os_version ++ "/" ++ file)).

(** [r = requests.get(whl_file_URL, allow_redirects=True)] followed by
    [open(whl_file, 'wb').write(r.content)], the body of both [try]
    statements of the download. *)
Definition get_and_write : M unit :=
  url <- get whl_file_URL ;;
  file <- get whl_file ;;
  r <- requests_get url ;;
  write_bytes file (content r).

Definition msg_permission_denied : string :=
  "Permission denied: Unable to write the packages. "
  ++ "Run this script as admin or copy it in a different path and retry.".

Definition msg_download_error (e : exn) : string :=
  "Error downloading whl file (" ++ exn_str e ++ ")".

Definition msg_invalid_certificate : string :=
  "Invalid SSL certificate, trying to fix the issue by "
  ++ "reinstalling 'certifi' package".

(** Lines 229 to 237, the body of the third [except] clause *)
Definition reinstall_certifi_and_retry : M unit :=
  print msg_invalid_certificate ;;
  err <- pip_install "certifi" true false true (args_force args) ;;
  if (err =? 0)%Z then
    try_except get_and_write
      [ (builtin Exception, fun e => print (msg_download_error e)) ]
  else ret tt.

(** Lines 217 to 237 *)
Definition download : M unit :=
  d <- get dirname ;;
  file <- get whl_file ;;
  modify (set_whl_file (os_path_join w d file)) ;;
  url <- get whl_file_URL ;;
  print ("-> Checking if " ++ url ++ " exists and is available") ;;
  try_except get_and_write
    [ (builtin PermissionError,
       fun _ => print msg_permission_denied ;; sys_exit 1);
      (requests_exceptions_attr "HTTPError",
       fun e => print (msg_download_error e));
      (requests_exceptions_attr "URLError",
       fun _ => reinstall_certifi_and_retry) ].

(** The [for] loop of lines 275 to 279 *)
Fixpoint copy_dlls (source_dir : string) (pyzed_dir : option string)
  (files : list string) : M unit :=
  match files with
  | [] => ret tt
  | file :: rest =>
      present <- os_path_isfile (source_dir ++ file) ;;
      (if present then
         dst <- concat_opt pyzed_dir file ;;
         shutil_copy (source_dir ++ file) dst
       else
         print ("ERROR : An error occurred, 'pip' failed to copy dll file "
                ++ source_dir ++ file
                ++ " (pyzed was NOT correctly setup)")) ;;
      copy_dlls source_dir pyzed_dir rest
  end.

(** Lines 240 to 286.  [py_vers] is computed through [math.pow], a float;
    the integer value is exact for the digits of a version number. *)
Definition install : M unit :=
  file <- get whl_file ;;
  valid <- check_valid_file file ;;
  if valid then
    print ("-> Found ! Downloading python package into " ++ file) ;;
    print "-> Installing necessary dependencies" ;;
    err <-
      (if PyStr.contains "aarch64" ARCH_VERSION then
         err_wheel <- pip_install "wheel" false false false
                        (args_force args) ;;
         err_cython <- pip_install "cython" false false false
                         (args_force args) ;;
         ret (err_wheel + err_cython)
       else ret 0) ;;
    err_numpy <- pip_install "numpy" false false false (args_force args) ;;
    (if negb (err =? 0)%Z || negb (err_numpy =? 0)%Z then
       print ("ERROR : An error occurred, 'pip' failed to setup python "
              ++ "dependencies packages (pyzed was NOT correctly setup)") ;;
       sys_exit 1
     else ret tt) ;;
    err_pyzed <- pip_install file true false false (args_force args) ;;
    (if (err_pyzed =? 0)%Z then print "Done"
     else
       print ("ERROR : An error occurred, 'pip' failed to setup pyzed "
              ++ "package (pyzed was NOT correctly setup)") ;;
       sys_exit 1) ;;
    (if String.eqb (sys_platform w) "win32" then
       print "Installing OpenGL dependencies required to run the samples" ;;
       major <- get PYTHON_MAJOR ;;
       minor <- get PYTHON_MINOR ;;
       a <- int major ;;
       b <- int minor ;;
       let py_vers := a * 10 ^ Z.of_nat (length minor) + b in
       install_win_dep "PyOpenGL" py_vers (args_force args) ;;
       install_win_dep "PyOpenGL_accelerate" py_vers (args_force args) ;;
       pyzed_dir <- get_pyzed_directory ;;
       p <- get zed_path ;;
       let source_dir := p ++ "/bin" in
       let files := ["/sl_ai64.dll"; "/sl_zed64.dll"] in
       copy_dlls source_dir pyzed_dir files
     else
       print ("  To install it later or on a different environment run : "
              ++ nl ++ " python -m pip install --ignore-installed "
              ++ file)) ;;
    sys_exit 0
  else
    print (nl ++ "Unsupported platforms, no pyzed file available for this "
           ++ "configuration" ++ nl ++ " It can be manually installed from "
           ++ "source https://github.com/stereolabs/zed-python-api") ;;
    sys_exit 1.

Definition script : M unit :=
  check_architecture ;;
  choose_dirname ;;
  detect_platform ;;
  construct_artifact ;;
  download ;;
  install.

(** The script up to the download: lines 162 to 216. *)
Definition prepare : M unit :=
  check_architecture ;;
  choose_dirname ;;
  detect_platform ;;
  construct_artifact.

End Script.

(** A run of the script once [parser.parse_args()] has returned [args],
    from line 162 to the end: its outcome and its final state.  A command
    line that [argparse] refuses, or [--help], ends the process at line
    160, with status 2 or 0, before any of this. *)
Definition run (w : World) (args : Args) : res unit * State :=
  script w args (initial_state w).

(** The state in which the download starts. *)
Definition before_download (w : World) (args : Args) : State :=
  snd (prepare w args (initial_state w)).

(** ** Words of the specification

    The definitions below are not code of the script; they name what the
    properties speak of. *)

(** The two operating-system families of lines 176 and 186. *)
Inductive os_family : Type := Windows | Linux.

Definition family_of (w : World) : option os_family :=
  if String.eqb (sys_platform w) "win32" then Some Windows
  else if PyStr.contains "linux" (sys_platform w) then Some Linux
  else None.

(** What lines 183 to 197 make of the family and the architecture. *)
Definition os_version_of (fam : os_family) (arch : string) : string :=
  match fam with
  | Windows => "win" ++ "_" ++ PyStr.lower arch
  | Linux => if PyStr.contains "aarch64" arch
             then "linux_aarch64" else "linux_x86_64"
  end.

Definition platform_str_of (fam : os_family) : string :=
  match fam with
  | Windows => "win"
  | Linux => "linux"
  end.

(** The Python tag of the wheel, lines 205 to 207; none when the minor
    version is not a number. *)
Definition python_tag (major minor : string) : option string :=
  match PyStr.int_of minor with
  | Some n =>
      let tag := "-cp" ++ major ++ minor ++ "-cp" ++ major ++ minor in
      Some (if (n <? 8)%Z then tag ++ "m" else tag)
  | None => None
  end.

(** The file name of line 213 and the URL of line 216. *)
Definition wheel_name (sdk_major sdk_minor tag platform_str arch : string)
  : string :=
  "pyzed-" ++ sdk_major ++ "." ++ sdk_minor ++ tag ++ "-" ++ platform_str
  ++ "_" ++ PyStr.lower arch ++ ".whl".

Definition wheel_URL (sdk_major sdk_minor os_version file : string)
  : string :=
  base_URL ++ sdk_major ++ "." ++ sdk_minor ++ "/whl/" ++ os_version ++ "/"
  ++ file.

(** A header file has the version pattern when both markers occur in it. *)
Definition has_version_pattern (data : string) : bool :=
  match re_search "ZED_SDK_MAJOR_VERSION " data,
        re_search "ZED_SDK_MINOR_VERSION " data with
  | Some _, Some _ => true
  | _, _ => false
  end.

(** A line of [pip show] that names the install location. *)
Definition is_location_line (line : string) : bool :=
  PyStr.startswith "Location:" line.

Definition location_of (line : string) : string :=
  PyStr.strip (PyStr.drop (length "Location:") line).

(** 150 KB, in bytes: the script divides the size by 1000. *)
Definition KB_150 : Z := 150 * 1000.

(** The argument list [pip_install] runs. *)
Definition pip_argv (w : World) (package : string)
  (force_install ignore_install upgrade break_system_packages : bool)
  : list string :=
  ([sys_executable w; "-m"; "pip"; "install"]
   ++ (if ignore_install then ["--ignore-installed"] else [])
   ++ (if force_install then ["--force-reinstall"] else [])
   ++ (if upgrade then ["--upgrade"] else [])
   ++ (if break_system_packages then ["--break-system-packages"] else [])
   ++ [package])%list.

(** The trace [pip_install] leaves, whatever the outcome of pip. *)
Definition pip_trace (w : World) (package : string)
  (force_install ignore_install upgrade break_system_packages : bool)
  : list event :=
  ((if break_system_packages
    then [SetEnv "PIP_BREAK_SYSTEM_PACKAGES" "1"] else [])
   ++ [Spawn (pip_argv w package force_install ignore_install upgrade
                break_system_packages)])%list.

(** What the [except] clauses of the download make of an exception [e]
    raised in state [s]: a [PermissionError] ends the script, an
    [HTTPError] is reported, and for anything else the third clause is
    reached, whose class expression raises. *)
Definition after_download_failure (e : exn) (s : State)
  : res unit * State :=
  if isinstance e PermissionError then
    (Err (Exn SystemExit 1 ""),
     set_log (log s ++ [Stdout msg_permission_denied])%list s)
  else if isinstance e HTTPError then
    (Ok tt, set_log (log s ++ [Stdout (msg_download_error e)])%list s)
  else (Err (no_attribute "URLError"), s).

(** The time at which [pip_install] starts pip, and the state it leaves. *)
Definition pip_time (break_system_packages : bool) (s : State) : nat :=
  if break_system_packages then S (clock s) else clock s.

Definition pip_state (w : World) (package : string)
  (force_install ignore_install upgrade break_system_packages : bool)
  (s : State) : State :=
  set_log
    (log s ++ pip_trace w package force_install ignore_install upgrade
                break_system_packages)%list
    (if break_system_packages
     then set_environ (("PIP_BREAK_SYSTEM_PACKAGES", "1") :: environ s) s
     else s).

(** ** Sample worlds *)

Module Sample.

Definition header_4_1 : string :=
  "#define ZED_SDK_MAJOR_VERSION 4" ++ nl
  ++ "#define ZED_SDK_MINOR_VERSION 1" ++ nl.

Definition header_major_only : string :=
  "#define ZED_SDK_MAJOR_VERSION 4" ++ nl.

Definition wheel_bytes : list byte := [x50; x4b; x03; x04; x14; x00].

Definition html_bytes : list byte := [x3c; x68; x74; x6d; x6c; x3e].

(** A Linux machine described by what varies between the examples: the
    interpreter's width, the answers of the path queries, of [stat], of the
    two ways to read a file, of the network and of subprocesses.  Writing,
    removing and copying succeed. *)
Definition box (bits : string)
  (probe : nat -> string -> bool)
  (stat : nat -> string -> fault + Z)
  (rb : nat -> string -> fault + list byte)
  (text : nat -> string -> fault + string)
  (net : nat -> string -> fault + response)
  (proc : nat -> list string -> fault + (Z * string)) : World :=
  {| platform_machine := "x86_64";
     platform_architecture_0 := bits;
     sys_platform := "linux";
     platform_python_version := "3.10.12";
     sys_executable := "/usr/bin/python3";
     os_getcwd := inr "/home/user/zed";
     Path_home := inr "/home/user";
     os_environ := [("HOME", "/home/user")];
     os_path_join := posixpath_join;
     stat_st_size := stat;
     open_rb_read := rb;
     open_r_read := text;
     open_wb_write := fun _ _ _ => None;
     open_w_write := fun _ _ _ => None;
     remove := fun _ _ => None;
     copy := fun _ _ _ => None;
     path_exists := probe;
     path_isdir := probe;
     path_isfile := probe;
     access_W_OK := probe;
     http_get := net;
     run_process := proc |}.

Definition yes : nat -> string -> bool := fun _ _ => true.
Definition no : nat -> string -> bool := fun _ _ => false.

Definition raising {A B : Type} (f : fault) : nat -> A -> fault + B :=
  fun _ _ => inl f.

Definition size (n : Z) : nat -> string -> fault + Z := fun _ _ => inr n.

Definition holds (data : list byte) : nat -> string -> fault + list byte :=
  fun _ _ => inr data.

Definition reads (data : string) : nat -> string -> fault + string :=
  fun _ _ => inr data.

Definition serves (status : Z) (body : list byte)
  : nat -> string -> fault + response :=
  fun _ _ => inr (Response status body).

Definition exits (status : Z) (out : string)
  : nat -> list string -> fault + (Z * string) :=
  fun _ _ => inr (status, out).

Definition no_such_file : fault :=
  Fault (Exn FileNotFoundError 0 "[Errno 2] No such file or directory")
        eq_refl.

Definition permission_denied : fault :=
  Fault (Exn PermissionError 0 "[Errno 13] Permission denied") eq_refl.

Definition is_a_directory : fault :=
  Fault (Exn IsADirectoryError 0 "[Errno 21] Is a directory") eq_refl.

Definition ssl_error : fault :=
  Fault (Exn SSLError 0 "certificate verify failed") eq_refl.

(** Everything in place: the SDK header, a reachable wheel, a working pip. *)
Definition good : World :=
  box "64bit" yes (size 200000) (holds wheel_bytes) (reads header_4_1)
      (serves 200 wheel_bytes) (exits 0 "").

(** The wheel is not there: nothing exists at the path asked for. *)
Definition absent : World :=
  box "64bit" no (raising no_such_file) (raising no_such_file)
      (reads header_4_1) (serves 200 wheel_bytes) (exits 0 "").

(** A ZIP archive of 149 999 bytes. *)
Definition small_zip : World :=
  box "64bit" yes (size 149999) (holds wheel_bytes) (reads header_4_1)
      (serves 200 wheel_bytes) (exits 0 "").

(** An error page of 200 000 bytes. *)
Definition big_html : World :=
  box "64bit" yes (size 200000) (holds html_bytes) (reads header_4_1)
      (serves 404 html_bytes) (exits 0 "").

(** The file is in a directory the user may not search: [stat] raises
    [PermissionError], as it does for a path under [/root] when the script
    is not run as root. *)
Definition locked : World :=
  box "64bit" yes (raising permission_denied) (raising permission_denied)
      (reads header_4_1) (serves 200 wheel_bytes) (exits 0 "").

(** pip exits with status 1. *)
Definition pip_fails : World :=
  box "64bit" yes (size 200000) (holds wheel_bytes) (reads header_4_1)
      (serves 200 wheel_bytes) (exits 1 "").

(** The interpreter cannot be started. *)
Definition no_python : World :=
  box "64bit" yes (size 200000) (holds wheel_bytes) (reads header_4_1)
      (serves 200 wheel_bytes) (raising no_such_file).

(** Path queries that say yes up to a time and no from then on. *)
Definition until (n : nat) : nat -> string -> bool :=
  fun t _ => Nat.ltb t n.

(** The path exists and is not a directory (the second query says no). *)
Definition plain_file : World :=
  box "64bit" (until 1) (size 200000) (holds wheel_bytes) (reads header_4_1)
      (serves 200 wheel_bytes) (exits 0 "").

(** A directory without write permission (the third query says no). *)
Definition read_only_dir : World :=
  box "64bit" (until 2) (size 200000) (holds wheel_bytes) (reads header_4_1)
      (serves 200 wheel_bytes) (exits 0 "").

(** Two header files: [sl/Camera.hpp] and any other. *)
Definition headers (camera defines : string)
  : nat -> string -> fault + string :=
  fun _ path =>
    if String.eqb path "/usr/local/zed/include/sl/Camera.hpp"
    then inr camera else inr defines.

(** An SDK whose version is in [sl_zed/defines.hpp]. *)
Definition old_sdk : World :=
  box "64bit" yes (size 200000) (holds wheel_bytes)
      (headers header_major_only header_4_1)
      (serves 200 wheel_bytes) (exits 0 "").

(** An SDK without a version in either file. *)
Definition no_version : World :=
  box "64bit" yes (size 200000) (holds wheel_bytes)
      (headers header_major_only "#pragma once")
      (serves 200 wheel_bytes) (exits 0 "").

(** [pip show pyzed] names a directory that is not there. *)
Definition stale_location : World :=
  box "64bit" no (size 200000) (holds wheel_bytes) (reads header_4_1)
      (serves 200 wheel_bytes)
      (exits 0 ("Name: pyzed" ++ nl ++ "Version: 4.1" ++ nl
                ++ "Location: /usr/lib/python3/dist-packages" ++ nl)).

(** The certificate of the server cannot be verified. *)
Definition bad_certificates : World :=
  box "64bit" yes (size 200000) (holds wheel_bytes) (reads header_4_1)
      (raising ssl_error) (exits 0 "").

(** A 32-bit interpreter. *)
Definition narrow : World :=
  box "32bit" yes (size 200000) (holds wheel_bytes) (reads header_4_1)
      (serves 200 wheel_bytes) (exits 0 "").

(** Another Linux machine with the same four inputs as [good], and
    little else in common: another kernel name, another patch level of
    Python 3.10, another user, another layout of the header, no network. *)
Definition elsewhere : World :=
  {| platform_machine := "x86_64";
     platform_architecture_0 := "64bit";
     sys_platform := "linux2";
     platform_python_version := "3.10.4";
     sys_executable := "/opt/py/bin/python";
     os_getcwd := inr "/srv/build";
     Path_home := inr "/root";
     os_environ := [];
     os_path_join := posixpath_join;
     stat_st_size := raising no_such_file;
     open_rb_read := raising no_such_file;
     open_r_read :=
       reads ("// ZED" ++ nl ++ "#define ZED_SDK_MINOR_VERSION 1" ++ nl
              ++ "   #define ZED_SDK_MAJOR_VERSION 4" ++ nl);
     open_wb_write := fun _ _ _ => Some permission_denied;
     open_w_write := fun _ _ _ => Some permission_denied;
     remove := fun _ _ => None;
     copy := fun _ _ _ => None;
     path_exists := yes;
     path_isdir := yes;
     path_isfile := no;
     access_W_OK := yes;
     http_get := raising ssl_error;
     run_process := raising no_such_file |}.

(** [pip show pyzed] names the directory pyzed is installed in. *)
Definition installed : World :=
  box "64bit" yes (size 200000) (holds wheel_bytes) (reads header_4_1)
      (serves 200 wheel_bytes)
      (exits 0 ("Name: pyzed" ++ nl
                ++ "Location:   /usr/lib/python3/dist-packages  " ++ nl)).

Definition no_args : Args := {| args_path := None; args_force := false |}.

Definition path_args : Args :=
  {| args_path := Some "/tmp/out"; args_force := true |}.

End Sample.

(** ** Words for the properties of the whole script *)


(** The events of the stages before the download: queries, reads of the
    header, text on the terminal, and the probe file of
    [can_write_to_dir], written and removed. *)
Definition prepares (e : event) : bool :=
  match e with
  | Stdout _ | Probe _ | OpenRead _ | Remove _ _ => true
  | WriteText _ text _ => String.eqb text "test"
  | _ => false
  end.

Definition anything (e : event) : bool := true.

(** An exception that, were it to end the script, would give one of the
    exit codes [codes]: any exception but [SystemExit] gives 1. *)
Definition exits_with (codes : list Z) (e : exn) : Prop :=
  exn_class e = SystemExit -> In (exn_code e) codes.

(** A statement is tame when it only adds events that are [allowed] to
    the trace, and raises [SystemExit] with a code among [codes] only. *)
Definition tame (allowed : event -> bool) (codes : list Z) {A : Type}
  (c : M A) : Prop :=
  forall s,
    (exists l, log (snd (c s)) = (log s ++ l)%list
               /\ forallb allowed l = true)
    /\ (forall e, fst (c s) = Err e -> exits_with codes e).

(** One clause of a [try] statement is tame. *)
Definition tame_clause (allowed : event -> bool) (codes : list Z)
  {A : Type} (cl : M exc_class * (exn -> M A)) : Prop :=
  tame allowed codes (fst cl) /\ forall e, tame allowed codes (snd cl e).

(** ** More sample worlds *)

Module Cases.

(** [w] under another operating system and environment. *)
Definition on_platform (platform : string) (env : list (string * string))
  (w : World) : World :=
  {| platform_machine := platform_machine w;
     platform_architecture_0 := platform_architecture_0 w;
     sys_platform := platform;
     platform_python_version := platform_python_version w;
     sys_executable := sys_executable w;
     os_getcwd := os_getcwd w;
     Path_home := Path_home w;
     os_environ := env;
     os_path_join := os_path_join w;
     stat_st_size := stat_st_size w;
     open_rb_read := open_rb_read w;
     open_r_read := open_r_read w;
     open_wb_write := open_wb_write w;
     open_w_write := open_w_write w;
     remove := remove w;
     copy := copy w;
     path_exists := path_exists w;
     path_isdir := path_isdir w;
     path_isfile := path_isfile w;
     access_W_OK := access_W_OK w;
     http_get := http_get w;
     run_process := run_process w |}.

(** [w] where writing a binary file raises [wb] and removing a file
    raises [rm]. *)
Definition failing (wb rm : option fault) (w : World) : World :=
  {| platform_machine := platform_machine w;
     platform_architecture_0 := platform_architecture_0 w;
     sys_platform := sys_platform w;
     platform_python_version := platform_python_version w;
     sys_executable := sys_executable w;
     os_getcwd := os_getcwd w;
     Path_home := Path_home w;
     os_environ := os_environ w;
     os_path_join := os_path_join w;
     stat_st_size := stat_st_size w;
     open_rb_read := open_rb_read w;
     open_r_read := open_r_read w;
     open_wb_write := fun _ _ _ => wb;
     open_w_write := open_w_write w;
     remove := fun _ _ => rm;
     copy := copy w;
     path_exists := path_exists w;
     path_isdir := path_isdir w;
     path_isfile := path_isfile w;
     access_W_OK := access_W_OK w;
     http_get := http_get w;
     run_process := run_process w |}.

Definition http_error : fault :=
  Fault (Exn HTTPError 0 "404 Client Error: Not Found") eq_refl.

(** A header whose first file has the major version only, and another
    major version at that. *)
Definition mixed_sdk : World :=
  Sample.box "64bit" Sample.yes (Sample.size 200000)
    (Sample.holds Sample.wheel_bytes)
    (Sample.headers "#define ZED_SDK_MAJOR_VERSION 3" Sample.header_4_1)
    (Sample.serves 200 Sample.wheel_bytes) (Sample.exits 0 "").

(** A signed file of exactly 150 000 bytes. *)
Definition exactly_150_KB : World :=
  Sample.box "64bit" Sample.yes (Sample.size 150000)
    (Sample.holds Sample.wheel_bytes) (Sample.reads Sample.header_4_1)
    (Sample.serves 200 Sample.wheel_bytes) (Sample.exits 0 "").

(** A directory in which files can be created and not removed. *)
Definition sticky : World :=
  failing None (Some Sample.permission_denied) Sample.good.

(** The destination of the wheel cannot be written. *)
Definition read_only_disk : World :=
  failing (Some Sample.permission_denied) None Sample.good.

(** An SDK that has [sl_zed/defines.hpp] and no [sl/Camera.hpp]. *)
Definition legacy_sdk : World :=
  Sample.box "64bit" Sample.yes (Sample.size 200000)
    (Sample.holds Sample.wheel_bytes)
    (fun _ path =>
       if String.eqb path "/usr/local/zed/include/sl/Camera.hpp"
       then inl Sample.no_such_file else inr Sample.header_4_1)
    (Sample.serves 200 Sample.wheel_bytes) (Sample.exits 0 "").

(** Nothing can be written where the script is run. *)
Definition unwritable_cwd : World :=
  Sample.box "64bit" (Sample.until 2) (Sample.size 200000)
    (Sample.holds Sample.wheel_bytes) (Sample.reads Sample.header_4_1)
    (Sample.serves 200 Sample.wheel_bytes) (Sample.exits 0 "").



(** Windows with the SDK, where [pip show] cannot be run. *)
Definition windows_without_pip_show : World :=
  on_platform "win32" [("ZED_SDK_ROOT_DIR", "C:/ZED")]
    (Sample.box "64bit" Sample.yes (Sample.size 200000)
       (Sample.holds Sample.wheel_bytes) (Sample.reads Sample.header_4_1)
       (Sample.serves 200 Sample.wheel_bytes)
       (fun _ argv =>
          if existsb (String.eqb "show") argv
          then inl Sample.no_such_file else inr (0%Z, ""))).

(** [w] started in a working directory that has been removed, by a user
    whose home directory is [home]. *)
Definition from_removed_cwd (home : fault + string) (w : World) : World :=
  {| platform_machine := platform_machine w;
     platform_architecture_0 := platform_architecture_0 w;
     sys_platform := sys_platform w;
     platform_python_version := platform_python_version w;
     sys_executable := sys_executable w;
     os_getcwd := inl Sample.no_such_file;
     Path_home := home;
     os_environ := os_environ w;
     os_path_join := os_path_join w;
     stat_st_size := stat_st_size w;
     open_rb_read := open_rb_read w;
     open_r_read := open_r_read w;
     open_wb_write := open_wb_write w;
     open_w_write := open_w_write w;
     remove := remove w;
     copy := copy w;
     path_exists := path_exists w;
     path_isdir := path_isdir w;
     path_isfile := path_isfile w;
     access_W_OK := access_W_OK w;
     http_get := http_get w;
     run_process := run_process w |}.

(** The working directory of the script has been removed. *)
Definition removed_cwd : World :=
  from_removed_cwd (inr "/home/user") Sample.good.

Definition no_home : fault :=
  Fault (Exn RuntimeError 0 "Could not determine home directory.") eq_refl.

(** Nothing can be written where the script is run, and the user has no
    home directory. *)
Definition homeless : World :=
  {| platform_machine := platform_machine unwritable_cwd;
     platform_architecture_0 := platform_architecture_0 unwritable_cwd;
     sys_platform := sys_platform unwritable_cwd;
     platform_python_version := platform_python_version unwritable_cwd;
     sys_executable := sys_executable unwritable_cwd;
     os_getcwd := os_getcwd unwritable_cwd;
     Path_home := inl no_home;
     os_environ := os_environ unwritable_cwd;
     os_path_join := os_path_join unwritable_cwd;
     stat_st_size := stat_st_size unwritable_cwd;
     open_rb_read := open_rb_read unwritable_cwd;
     open_r_read := open_r_read unwritable_cwd;
     open_wb_write := open_wb_write unwritable_cwd;
     open_w_write := open_w_write unwritable_cwd;
     remove := remove unwritable_cwd;
     copy := copy unwritable_cwd;
     path_exists := path_exists unwritable_cwd;
     path_isdir := path_isdir unwritable_cwd;
     path_isfile := path_isfile unwritable_cwd;
     access_W_OK := access_W_OK unwritable_cwd;
     http_get := http_get unwritable_cwd;
     run_process := run_process unwritable_cwd |}.

Definition not_a_directory : fault :=
  Fault (Exn NotADirectoryError 0 "[Errno 20] Not a directory") eq_refl.

(** A path that does not exist because a component of its directory part
    is a regular file, as [setup.py/pyzed.whl] is beside a file
    [setup.py]: [os.path.exists] says no, and [os.stat] and [open] raise
    [NotADirectoryError]. *)
Definition under_a_file : World :=
  Sample.box "64bit" Sample.no (Sample.raising not_a_directory)
    (Sample.raising not_a_directory) (Sample.reads Sample.header_4_1)
    (Sample.serves 200 Sample.wheel_bytes) (Sample.exits 0 "").

(** The GET raises [HTTPError], and an older wheel is still on disk. *)
Definition stale_wheel : World :=
  Sample.box "64bit" Sample.yes (Sample.size 200000)
    (Sample.holds Sample.wheel_bytes) (Sample.reads Sample.header_4_1)
    (Sample.raising http_error) (Sample.exits 0 "").

End Cases.

(** A text without a line feed. *)
Definition one_line (text : string) : bool :=
  forallb (fun c => negb (PyStr.code c =? 10)%N)
          (list_ascii_of_string text).

(** The two markers of the version, with the space that follows them. *)
Definition MAJOR_MARKER : string := "ZED_SDK_MAJOR_VERSION ".
Definition MINOR_MARKER : string := "ZED_SDK_MINOR_VERSION ".

(** Lines 270 to 279: where pyzed is, and the copy of the two libraries of
    the SDK into it.  This is the end of the Windows branch of [install],
    as a statement of its own. *)
Definition place_dlls (w : World) : M unit :=
  bind (get_pyzed_directory w) (fun pyzed_dir =>
  bind (get zed_path) (fun p =>
  let source_dir := p ++ "/bin" in
  let files := ["/sl_ai64.dll"; "/sl_zed64.dll"] in
  copy_dlls w source_dir pyzed_dir files)).

Definition no_concatenation : exn :=
  Exn TypeError 0 "unsupported operand type(s) for +: 'NoneType' and 'str'".


(** The events of [install] off Windows: it looks at the wheel, prints,
    and runs pip. *)
Definition installs (e : event) : bool :=
  match e with
  | Stdout _ | Stat _ | OpenRead _ | SetEnv _ _ | Spawn _ => true
  | _ => false
  end.

(** The fault that the GET of the wheel, or the write that follows it,
    raises in the download started in [s], if any. *)
Definition download_fault (w : World) (s : State) : option fault :=
  match http_get w (S (clock s)) (whl_file_URL s) with
  | inl f => Some f
  | inr r =>
      open_wb_write w (S (S (clock s)))
        (os_path_join w (dirname s) (whl_file s)) (content r)
  end.

(** The directory asked for, [args.path or os.getcwd()], or the fault that
    [os.getcwd()] raises where it is called. *)
Definition wanted_dirname (w : World) (args : Args) : fault + string :=
  match args_path args with
  | Some p => if String.eqb p "" then os_getcwd w else inr p
  | None => os_getcwd w
  end.

(** A process of pip: its command line is [sys.executable -m pip ...]. *)
Definition is_pip (e : event) : bool :=
  match e with
  | Spawn (_ :: option :: module :: _) =>
      String.eqb option "-m" && String.eqb module "pip"
  | _ => false
  end.

(** An event that is no network request, no run of pip, and no write to a
    file other than the text of the probe of [can_write_to_dir]. *)
Definition quiet (e : event) : bool :=
  match e with
  | HttpGet _ | WriteBytes _ _ _ | Copy _ _ _ => false
  | WriteText _ text _ => String.eqb text "test"
  | Spawn _ => negb (is_pip e)
  | _ => true
  end.

(** A Linux machine on which everything the script needs is in place:
    a 64-bit interpreter whose version has a numeric minor part, the SDK
    with its version in [sl/Camera.hpp], a server that answers, a disk
    that takes the download, a file that then has more than 150 000 bytes
    and the ZIP signature, a pip that succeeds, a working directory that
    is still there and a home directory that can be determined. *)
Definition healthy_linux (w : World) : Prop :=
  platform_architecture_0 w = "64bit"
  /\ family_of w = Some Linux
  /\ (forall t, path_isdir w t "/usr/local/zed" = true)
  /\ (exists data,
         has_version_pattern data = true
         /\ forall t,
              open_r_read w t "/usr/local/zed/include/sl/Camera.hpp"
              = inr data)
  /\ (exists major minor rest n,
         PyStr.split "." (platform_python_version w)
         = major :: minor :: rest
         /\ PyStr.int_of minor = Some n)
  /\ (forall t url, exists r, http_get w t url = inr r)
  /\ (forall t path data, open_wb_write w t path data = None)
  /\ (forall t path,
         exists n, stat_st_size w t path = inr n /\ (KB_150 < n)%Z)
  /\ (forall t path,
         exists data,
           open_rb_read w t path = inr data /\ firstn 4 data = ZIP_MAGIC)
  /\ (forall t argv, exists out, run_process w t argv = inr (0%Z, out))
  /\ (exists cwd, os_getcwd w = inr cwd)
  /\ (exists home, Path_home w = inr home).

(** The state in which the validation starts. *)
Definition before_install (w : World) (args : Args) : State :=
  snd ((prepare w args ;; download w args)%py (initial_state w)).

(** The command that installs the wheel: line 257. *)
Definition install_pyzed_argv (w : World) (args : Args) (s : State)
  : list string :=
  pip_argv w (whl_file s) true false false (args_force args).

(* ===================================================================== *)
(** * Part II: properties *)
(* ===================================================================== *)

Local Open Scope py_scope.

(** ** The clock and the trace *)

Lemma clock_emit (s : State) (e : event) :
  clock (set_log (log s ++ [e])%list s) = S (clock s).
Proof.
  unfold clock; simpl. rewrite length_app; simpl. apply Nat.add_1_r.
Qed.

Lemma length_app_comm {A : Type} (l l' : list A) :
  List.length (l ++ l')%list = (List.length l' + List.length l)%nat.
Proof. rewrite length_app. apply Nat.add_comm. Qed.

Lemma set_log_set_log l l' s : set_log l (set_log l' s) = set_log l s.
Proof. reflexivity. Qed.

(** Projections of updated states, lengths and concatenations of traces. *)
Ltac tidy :=
  unfold clock in *;
  cbn [log environ ZED_SDK_MAJOR ZED_SDK_MINOR PYTHON_MAJOR PYTHON_MINOR
       OS_VERSION whl_platform_str dirname zed_path whl_file whl_file_URL
       set_log set_environ set_ZED_SDK_MAJOR set_ZED_SDK_MINOR
       set_PYTHON_MAJOR set_PYTHON_MINOR set_OS_VERSION set_whl_platform_str
       set_dirname set_zed_path set_whl_file set_whl_file_URL
       fst snd] in *;
  repeat rewrite set_log_set_log in *;
  repeat rewrite <- app_assoc in *;
  cbn [app] in *;
  repeat rewrite length_app_comm in *;
  cbn [List.length Nat.add] in *.

(** Runs the monad and the calls into the world as far as they go, and
    leaves the strings and the answers of the world alone. *)
Ltac mrun :=
  cbv beta iota zeta delta
    [try_except select_clause and_then builtin sys_exit bind ret raise get
     modify of_sum of_status succeeded os_stat_st_size read_header read_text
     write_bytes write_text os_remove shutil_copy os_path_exists
     os_path_isdir os_path_isfile os_access_W_OK requests_get
     subprocess_check_call subprocess_check_output print setenv getenv emit
     now group_1 item int concat_opt negb] in *;
  tidy.

(** ** The exception hierarchy *)

Lemma isinstance_Exception_not_exit (e : exn) :
  isinstance e Exception = true -> exn_class e <> SystemExit.
Proof. intros H E. unfold isinstance in H. rewrite E in H. discriminate. Qed.

(** No class of [requests.exceptions] is called [URLError]. *)
Lemma requests_has_no_URLError :
  assoc "URLError" requests_exceptions = None.
Proof. reflexivity. Qed.

(** An SSL error of [requests] is an [OSError], and neither a
    [PermissionError] nor an [HTTPError]. *)
Lemma SSLError_classes :
  issubclass SSLError OSError = true
  /\ issubclass SSLError PermissionError = false
  /\ issubclass SSLError HTTPError = false.
Proof. repeat split. Qed.

(** ** check_valid_file *)

Lemma size_test (n : Z) :
  Qgt_bool (inject_Z n / 1000) 150 = (KB_150 <? n)%Z.
Proof.
  unfold Qgt_bool, Qle_bool, Qdiv, Qmult, Qinv, inject_Z, KB_150; simpl.
  destruct (Z.leb_spec (n * 1 * 1) 150000);
    destruct (Z.ltb_spec 150000 n); simpl; try reflexivity; lia.
Qed.

Lemma bytes_eqb_true (a b : list byte) : bytes_eqb a b = true <-> a = b.
Proof.
  unfold bytes_eqb. destruct (list_eq_dec byte_eq_dec a b); split;
    intros; try assumption; try reflexivity; try discriminate; contradiction.
Qed.

Lemma bytes_eqb_false (a b : list byte) : a <> b -> bytes_eqb a b = false.
Proof.
  unfold bytes_eqb. destruct (list_eq_dec byte_eq_dec a b); intros;
    [contradiction | reflexivity].
Qed.

(** When [stat] answers, the function returns: the size test and the
    signature test, a file that cannot be read failing the second. *)
Lemma check_valid_file_sized (w : World) (path : string) (s : State)
  (n : Z) :
  stat_st_size w (clock s) path = inr n ->
  check_valid_file w path s =
  (Ok ((KB_150 <? n)%Z
       && match open_rb_read w (S (clock s)) path with
          | inr data => bytes_eqb (firstn 4 data) ZIP_MAGIC
          | inl _ => false
          end),
   set_log (log s ++ [Stat path; OpenRead path])%list s).
Proof.
  intros Hs. unfold check_valid_file. mrun. rewrite Hs. mrun.
  destruct (open_rb_read w (S (List.length (log s))) path) as [f | data].
  - mrun. rewrite (fault_is_exception f). rewrite size_test. reflexivity.
  - mrun. rewrite size_test. reflexivity.
Qed.

(** When [stat] raises [FileNotFoundError], the size is taken as 0. *)
Lemma check_valid_file_missing (w : World) (path : string) (s : State)
  (f : fault) :
  stat_st_size w (clock s) path = inl f ->
  isinstance (fault_exn f) FileNotFoundError = true ->
  check_valid_file w path s =
  (Ok false, set_log (log s ++ [Stat path; OpenRead path])%list s).
Proof.
  intros Hs Hf. unfold check_valid_file. mrun. rewrite Hs. mrun.
  rewrite Hf. mrun.
  destruct (open_rb_read w (S (List.length (log s))) path) as [f' | data].
  - mrun. rewrite (fault_is_exception f'). reflexivity.
  - mrun. reflexivity.
Qed.

(** When [stat] raises anything else, nothing catches it. *)
Lemma check_valid_file_raises (w : World) (path : string) (s : State)
  (f : fault) :
  stat_st_size w (clock s) path = inl f ->
  isinstance (fault_exn f) FileNotFoundError = false ->
  check_valid_file w path s =
  (Err (fault_exn f), set_log (log s ++ [Stat path])%list s).
Proof.
  intros Hs Hf. unfold check_valid_file. mrun. rewrite Hs. mrun.
  rewrite Hf. reflexivity.
Qed.

(** The exact condition under which the function says yes: more than
    150 000 bytes, and the signature in front. *)
Lemma check_valid_file_true_iff (w : World) (path : string) (s : State) :
  fst (check_valid_file w path s) = Ok true <->
  exists n data,
    stat_st_size w (clock s) path = inr n /\ (KB_150 < n)%Z
    /\ open_rb_read w (S (clock s)) path = inr data
    /\ firstn 4 data = ZIP_MAGIC.
Proof.
  split.
  - destruct (stat_st_size w (clock s) path) as [f | n] eqn:Hs.
    + destruct (isinstance (fault_exn f) FileNotFoundError) eqn:Hf.
      * rewrite (check_valid_file_missing _ _ _ _ Hs Hf). discriminate.
      * rewrite (check_valid_file_raises _ _ _ _ Hs Hf). discriminate.
    + rewrite (check_valid_file_sized _ _ _ _ Hs). cbn [fst].
      intros H. injection H as H. apply andb_true_iff in H as [Hn Hz].
      destruct (open_rb_read w (S (clock s)) path) as [f | data];
        [discriminate |].
      exists n, data. repeat split.
      * apply Z.ltb_lt; assumption.
      * apply bytes_eqb_true; assumption.
  - intros (n & data & Hs & Hn & Hr & Hz).
    rewrite (check_valid_file_sized _ _ _ _ Hs), Hr. cbn [fst].
    apply Z.ltb_lt in Hn. rewrite Hn.
    apply bytes_eqb_true in Hz. rewrite Hz. reflexivity.
Qed.

(** What holds of the verdict in every world: [check_valid_file] returns
    false when [stat] raises [FileNotFoundError], as it does for a path
    that is missing from a directory that is there; when the file is
    smaller than 150 KB, whatever it holds and whether or not it can be
    read; and when the file has at least 150 KB and its first four bytes
    are not the ZIP signature.  It returns true only when the size is at
    least 150 KB and the first four bytes are the signature. *)
Theorem check_valid_file_spec (w : World) (path : string) (s : State) :
  (forall f,
      stat_st_size w (clock s) path = inl f ->
      isinstance (fault_exn f) FileNotFoundError = true ->
      fst (check_valid_file w path s) = Ok false)
  /\ (forall n,
         stat_st_size w (clock s) path = inr n -> (n < KB_150)%Z ->
         fst (check_valid_file w path s) = Ok false)
  /\ (forall n data,
         stat_st_size w (clock s) path = inr n -> (KB_150 <= n)%Z ->
         open_rb_read w (S (clock s)) path = inr data ->
         firstn 4 data <> ZIP_MAGIC ->
         fst (check_valid_file w path s) = Ok false)
  /\ (fst (check_valid_file w path s) = Ok true ->
      exists n data,
        stat_st_size w (clock s) path = inr n /\ (KB_150 <= n)%Z
        /\ open_rb_read w (S (clock s)) path = inr data
        /\ firstn 4 data = ZIP_MAGIC).
Proof.
  repeat split.
  - intros f Hs Hf. rewrite (check_valid_file_missing _ _ _ _ Hs Hf).
    reflexivity.
  - intros n Hs Hn. rewrite (check_valid_file_sized _ _ _ _ Hs). cbn [fst].
    assert ((KB_150 <? n)%Z = false) as Hn' by (apply Z.ltb_ge; lia).
    rewrite Hn'. reflexivity.
  - intros n data Hs _ Hr Hz.
    rewrite (check_valid_file_sized _ _ _ _ Hs), Hr. cbn [fst].
    rewrite (bytes_eqb_false _ _ Hz). rewrite andb_false_r. reflexivity.
  - intros H. apply check_valid_file_true_iff in H
      as (n & data & Hs & Hn & Hr & Hz).
    exists n, data. repeat split; try assumption. lia.
Qed.

Lemma check_valid_file_spec_witness :
  fst (check_valid_file Sample.absent "pyzed.whl"
         (initial_state Sample.absent)) = Ok false
  /\ fst (check_valid_file Sample.small_zip "pyzed.whl"
            (initial_state Sample.small_zip)) = Ok false
  /\ fst (check_valid_file Sample.big_html "pyzed.whl"
            (initial_state Sample.big_html)) = Ok false
  /\ exists n data,
       stat_st_size Sample.good (clock (initial_state Sample.good))
         "pyzed.whl" = inr n
       /\ (KB_150 <= n)%Z
       /\ open_rb_read Sample.good (S (clock (initial_state Sample.good)))
            "pyzed.whl" = inr data
       /\ firstn 4 data = ZIP_MAGIC.
Proof.
  split; [| split; [| split]].
  - apply (proj1 (check_valid_file_spec Sample.absent "pyzed.whl"
                    (initial_state Sample.absent)) Sample.no_such_file);
      reflexivity.
  - apply (proj1 (proj2 (check_valid_file_spec Sample.small_zip "pyzed.whl"
                           (initial_state Sample.small_zip))) 149999%Z);
      reflexivity.
  - apply (proj1 (proj2 (proj2
             (check_valid_file_spec Sample.big_html "pyzed.whl"
                (initial_state Sample.big_html))))
             200000%Z Sample.html_bytes);
      try reflexivity; discriminate.
  - apply (proj2 (proj2 (proj2
             (check_valid_file_spec Sample.good "pyzed.whl"
                (initial_state Sample.good))))).
    reflexivity.
Defined.

(** C1, as the code has it: a path that does not exist is not always
    answered with false.  Beside a regular file [setup.py], nothing exists
    at [setup.py/pyzed.whl]: [os.path.exists] says no, and [os.stat]
    raises [NotADirectoryError], which is an [OSError] and no
    [FileNotFoundError].  The first [try] lets it through, and
    [check_valid_file] raises where the docstring promises [False]. *)
Theorem check_valid_file_raises_on_a_missing_path :
  let w := Cases.under_a_file in
  let path := "setup.py/pyzed.whl" in
  (forall t, path_exists w t path = false)
  /\ stat_st_size w (clock (initial_state w)) path
     = inl Cases.not_a_directory
  /\ isinstance (fault_exn Cases.not_a_directory) FileNotFoundError = false
  /\ fst (check_valid_file w path (initial_state w))
     = Err (fault_exn Cases.not_a_directory)
  /\ fst (check_valid_file w path (initial_state w)) <> Ok false.
Proof.
  cbv zeta. repeat split. discriminate.
Qed.

(** C9, as the code has it: [check_valid_file] is not total.  For a path
    under a directory that may not be searched, [stat] raises
    [PermissionError]; the first [try] catches [FileNotFoundError] only,
    and the exception leaves the function.  The three cases the claim
    lists (a directory, an unreadable file, a file that [stat] sees and
    [open] does not) do return, by [check_valid_file_sized]. *)
Theorem check_valid_file_lets_PermissionError_out :
  fst (check_valid_file Sample.locked "/root/pyzed.whl"
         (initial_state Sample.locked))
  = Err (fault_exn Sample.permission_denied)
  /\ (forall b : bool,
         fst (check_valid_file Sample.locked "/root/pyzed.whl"
                (initial_state Sample.locked)) <> Ok b).
Proof. split; [reflexivity | intros b; discriminate]. Qed.

(** Whenever [stat] answers, or raises [FileNotFoundError], the function
    returns a boolean. *)
Lemma check_valid_file_returns (w : World) (path : string) (s : State) :
  (forall f, stat_st_size w (clock s) path = inl f ->
             isinstance (fault_exn f) FileNotFoundError = true) ->
  exists b : bool, fst (check_valid_file w path s) = Ok b.
Proof.
  intros H. destruct (stat_st_size w (clock s) path) as [f | n] eqn:Hs.
  - rewrite (check_valid_file_missing _ _ _ _ Hs (H f eq_refl)).
    exists false; reflexivity.
  - rewrite (check_valid_file_sized _ _ _ _ Hs). eexists; reflexivity.
Qed.

(** ** pip_install *)

Lemma pip_install_run (w : World) (package : string)
  (force_install ignore_install upgrade break_system_packages : bool)
  (s : State) :
  pip_install w package force_install ignore_install upgrade
    break_system_packages s =
  (Ok match run_process w (pip_time break_system_packages s)
              (pip_argv w package force_install ignore_install upgrade
                 break_system_packages) with
      | inr (status, _) => if (status =? 0)%Z then 0%Z else 1%Z
      | inl _ => 1%Z
      end,
   pip_state w package force_install ignore_install upgrade
     break_system_packages s).
Proof.
  unfold pip_install, pip_state, pip_trace, pip_time, pip_argv.
  destruct break_system_packages, force_install, ignore_install, upgrade;
    mrun;
    match goal with
    | |- context [run_process w ?t ?argv] =>
        destruct (run_process w t argv) as [f | [status out]]
    end;
    mrun;
    try (rewrite (fault_is_exception f); reflexivity);
    destruct (status =? 0)%Z; mrun; reflexivity.
Qed.

(** C8: [pip_install] returns 0 when pip completes with status 0, and 1
    when pip exits with another status and when starting it raises; it
    returns no other value, and the two failures leave the caller with the
    same value and the same state. *)
Theorem pip_install_spec (w : World) (package : string)
  (force_install ignore_install upgrade break_system_packages : bool)
  (s : State) :
  let argv := pip_argv w package force_install ignore_install upgrade
                break_system_packages in
  let answer := run_process w (pip_time break_system_packages s) argv in
  let call := pip_install w package force_install ignore_install upgrade
                break_system_packages s in
  let after := pip_state w package force_install ignore_install upgrade
                 break_system_packages s in
  (forall out, answer = inr (0%Z, out) -> call = (Ok 0%Z, after))
  /\ (forall status out,
         answer = inr (status, out) -> status <> 0%Z ->
         call = (Ok 1%Z, after))
  /\ (forall f, answer = inl f -> call = (Ok 1%Z, after))
  /\ (exists v, fst call = Ok v /\ (v = 0%Z \/ v = 1%Z)).
Proof.
  cbv zeta. rewrite pip_install_run. repeat split.
  - intros out H. rewrite H. reflexivity.
  - intros status out H Hne. rewrite H.
    destruct (Z.eqb_spec status 0); [contradiction | reflexivity].
  - intros f H. rewrite H. reflexivity.
  - cbn [fst]. eexists. split; [reflexivity |].
    destruct (run_process w _ _) as [f | [status out]]; [right; reflexivity |].
    destruct (status =? 0)%Z; [left | right]; reflexivity.
Qed.

Lemma pip_install_spec_witness :
  pip_install Sample.good "numpy" false false false false
    (initial_state Sample.good)
  = (Ok 0%Z,
     pip_state Sample.good "numpy" false false false false
       (initial_state Sample.good))
  /\ pip_install Sample.pip_fails "numpy" false false false false
       (initial_state Sample.pip_fails)
     = (Ok 1%Z,
        pip_state Sample.pip_fails "numpy" false false false false
          (initial_state Sample.pip_fails))
  /\ pip_install Sample.no_python "certifi" true false true true
       (initial_state Sample.no_python)
     = (Ok 1%Z,
        pip_state Sample.no_python "certifi" true false true true
          (initial_state Sample.no_python)).
Proof.
  split; [| split].
  - apply (proj1 (pip_install_spec Sample.good "numpy" false false false
                    false (initial_state Sample.good)) "").
    reflexivity.
  - apply (proj1 (proj2 (pip_install_spec Sample.pip_fails "numpy" false
                           false false false
                           (initial_state Sample.pip_fails))) 1%Z "").
    + reflexivity.
    + discriminate.
  - apply (proj1 (proj2 (proj2
             (pip_install_spec Sample.no_python "certifi" true false true
                true (initial_state Sample.no_python))))
             Sample.no_such_file).
    reflexivity.
Defined.

(** ** can_write_to_dir *)

(** The probe file of [can_write_to_dir]. *)
Lemma can_write_to_dir_run (w : World) (d : string) (s : State) :
  let t := clock s in
  let testfile := os_path_join w d "temp_test_file.tmp" in
  can_write_to_dir w d s =
  if negb (path_exists w t d) then
    (Ok false, set_log (log s ++ [Probe d])%list s)
  else if negb (path_isdir w (S t) d) then
    (Ok false, set_log (log s ++ [Probe d; Probe d])%list s)
  else if negb (access_W_OK w (S (S t)) d) then
    (Ok false, set_log (log s ++ [Probe d; Probe d; Probe d])%list s)
  else
    match open_w_write w (S (S (S t))) testfile "test" with
    | Some _ =>
        (Ok false,
         set_log (log s ++ [Probe d; Probe d; Probe d;
                            WriteText testfile "test" false])%list s)
    | None =>
        match remove w (S (S (S (S t)))) testfile with
        | Some _ =>
            (Ok false,
             set_log (log s ++ [Probe d; Probe d; Probe d;
                                WriteText testfile "test" true;
                                Remove testfile false])%list s)
        | None =>
            (Ok true,
             set_log (log s ++ [Probe d; Probe d; Probe d;
                                WriteText testfile "test" true;
                                Remove testfile true])%list s)
        end
    end.
Proof.
  cbv zeta. unfold can_write_to_dir. mrun.
  destruct (path_exists w (List.length (log s)) d); mrun; [| reflexivity].
  destruct (path_isdir w (S (List.length (log s))) d); mrun;
    [| reflexivity].
  destruct (access_W_OK w (S (S (List.length (log s)))) d); mrun;
    [| reflexivity].
  destruct (open_w_write w (S (S (S (List.length (log s))))) _ _) as [f |];
    mrun.
  - rewrite (fault_is_exception f). reflexivity.
  - destruct (remove w (S (S (S (S (List.length (log s)))))) _) as [f |];
      mrun.
    + rewrite (fault_is_exception f). reflexivity.
    + reflexivity.
Qed.

(** C6: [can_write_to_dir] returns false when the path does not exist,
    when it exists and is not a directory, and when it is a directory
    without write permission; when it returns true, the probe file was
    written into the directory and then removed, both with success, and
    these are the last two things the call did. *)
Theorem can_write_to_dir_spec (w : World) (d : string) (s : State) :
  let t := clock s in
  let testfile := os_path_join w d "temp_test_file.tmp" in
  (path_exists w t d = false ->
   fst (can_write_to_dir w d s) = Ok false)
  /\ (path_exists w t d = true -> path_isdir w (S t) d = false ->
      fst (can_write_to_dir w d s) = Ok false)
  /\ (path_exists w t d = true -> path_isdir w (S t) d = true ->
      access_W_OK w (S (S t)) d = false ->
      fst (can_write_to_dir w d s) = Ok false)
  /\ (fst (can_write_to_dir w d s) = Ok true ->
      open_w_write w (S (S (S t))) testfile "test" = None
      /\ remove w (S (S (S (S t)))) testfile = None
      /\ log (snd (can_write_to_dir w d s))
         = (log s ++ [Probe d; Probe d; Probe d;
                      WriteText testfile "test" true;
                      Remove testfile true])%list).
Proof.
  cbv zeta. rewrite can_write_to_dir_run. cbv zeta. repeat split.
  - intros H. rewrite H. reflexivity.
  - intros H1 H2. rewrite H1, H2. reflexivity.
  - intros H1 H2 H3. rewrite H1, H2, H3. reflexivity.
  - destruct (path_exists w _ d), (path_isdir w _ d), (access_W_OK w _ d);
      cbn; try discriminate.
    destruct (open_w_write w _ _ _); [discriminate | reflexivity].
  - destruct (path_exists w _ d), (path_isdir w _ d), (access_W_OK w _ d);
      cbn; try discriminate.
    destruct (open_w_write w _ _ _); [discriminate |].
    destruct (remove w _ _); [discriminate | reflexivity].
  - destruct (path_exists w _ d), (path_isdir w _ d), (access_W_OK w _ d);
      cbn [negb fst snd]; try discriminate.
    destruct (open_w_write w _ _ _); [discriminate |].
    destruct (remove w _ _); [discriminate | reflexivity].
Qed.

Lemma can_write_to_dir_spec_witness :
  fst (can_write_to_dir Sample.absent "/tmp/out"
         (initial_state Sample.absent)) = Ok false
  /\ fst (can_write_to_dir Sample.plain_file "/tmp/out"
            (initial_state Sample.plain_file)) = Ok false
  /\ fst (can_write_to_dir Sample.read_only_dir "/tmp/out"
            (initial_state Sample.read_only_dir)) = Ok false
  /\ log (snd (can_write_to_dir Sample.good "/tmp/out"
                 (initial_state Sample.good)))
     = [Probe "/tmp/out"; Probe "/tmp/out"; Probe "/tmp/out";
        WriteText "/tmp/out/temp_test_file.tmp" "test" true;
        Remove "/tmp/out/temp_test_file.tmp" true].
Proof.
  split; [| split; [| split]].
  - apply (proj1 (can_write_to_dir_spec Sample.absent "/tmp/out"
                    (initial_state Sample.absent))).
    reflexivity.
  - apply (proj1 (proj2 (can_write_to_dir_spec Sample.plain_file "/tmp/out"
                           (initial_state Sample.plain_file))));
      reflexivity.
  - apply (proj1 (proj2 (proj2
             (can_write_to_dir_spec Sample.read_only_dir "/tmp/out"
                (initial_state Sample.read_only_dir)))));
      reflexivity.
  - apply (proj2 (proj2 (proj2
             (can_write_to_dir_spec Sample.good "/tmp/out"
                (initial_state Sample.good))))).
    reflexivity.
Defined.

(** ** check_zed_sdk_version *)

Lemma check_zed_sdk_version_private_run (w : World) (file_path : string)
  (s : State) :
  check_zed_sdk_version_private w file_path s =
  let s1 := set_log (log s ++ [OpenRead file_path])%list s in
  match open_r_read w (clock s) file_path with
  | inl f => (Err (fault_exn f), s1)
  | inr data =>
      match re_search "ZED_SDK_MAJOR_VERSION " data with
      | None => (Err no_attribute_group, s1)
      | Some major =>
          match re_search "ZED_SDK_MINOR_VERSION " data with
          | None => (Err no_attribute_group, set_ZED_SDK_MAJOR major s1)
          | Some minor =>
              (Ok tt, set_ZED_SDK_MINOR minor (set_ZED_SDK_MAJOR major s1))
          end
      end
  end.
Proof.
  unfold check_zed_sdk_version_private. mrun.
  destruct (open_r_read w (List.length (log s)) file_path) as [f | data];
    mrun; [reflexivity |].
  destruct (re_search "ZED_SDK_MAJOR_VERSION " data); mrun; [| reflexivity].
  destruct (re_search "ZED_SDK_MINOR_VERSION " data); mrun; reflexivity.
Qed.

(** A file without the pattern makes the search raise [AttributeError],
    and leaves the trace one read longer. *)
Lemma private_without_pattern (w : World) (file_path data : string)
  (s : State) :
  open_r_read w (clock s) file_path = inr data ->
  has_version_pattern data = false ->
  exists s1,
    check_zed_sdk_version_private w file_path s
    = (Err no_attribute_group, s1)
    /\ log s1 = (log s ++ [OpenRead file_path])%list.
Proof.
  intros Hr Hp. rewrite check_zed_sdk_version_private_run, Hr. cbv zeta.
  unfold has_version_pattern in Hp.
  destruct (re_search "ZED_SDK_MAJOR_VERSION " data).
  - destruct (re_search "ZED_SDK_MINOR_VERSION " data); [discriminate |].
    eexists; split; reflexivity.
  - eexists; split; reflexivity.
Qed.

(** C7: when the first candidate, [sl/Camera.hpp], is read and lacks the
    version pattern, [check_zed_sdk_version] goes on as
    [check_zed_sdk_version_private] on the second candidate,
    [sl_zed/defines.hpp]; when the second is read and lacks the pattern
    too, the call raises [AttributeError]. *)
Theorem check_zed_sdk_version_spec (w : World) (file_path : string)
  (s : State) :
  let first := file_path ++ "/sl/Camera.hpp" in
  let second := file_path ++ "/sl_zed/defines.hpp" in
  (forall data1,
      open_r_read w (clock s) first = inr data1 ->
      has_version_pattern data1 = false ->
      exists s1,
        log s1 = (log s ++ [OpenRead first])%list
        /\ check_zed_sdk_version w file_path s
           = check_zed_sdk_version_private w second s1)
  /\ (forall data1 data2,
         open_r_read w (clock s) first = inr data1 ->
         has_version_pattern data1 = false ->
         open_r_read w (S (clock s)) second = inr data2 ->
         has_version_pattern data2 = false ->
         exists e,
           fst (check_zed_sdk_version w file_path s) = Err e
           /\ exn_class e = AttributeError
           /\ log (snd (check_zed_sdk_version w file_path s))
              = (log s ++ [OpenRead first; OpenRead second])%list).
Proof.
  cbv zeta.
  assert (forall data1,
             open_r_read w (clock s) (file_path ++ "/sl/Camera.hpp")
             = inr data1 ->
             has_version_pattern data1 = false ->
             exists s1,
               log s1
               = (log s ++ [OpenRead (file_path ++ "/sl/Camera.hpp")])%list
               /\ check_zed_sdk_version w file_path s
                  = check_zed_sdk_version_private w
                      (file_path ++ "/sl_zed/defines.hpp") s1) as Hretry.
  { intros data1 Hr Hp.
    destruct (private_without_pattern _ _ _ _ Hr Hp) as (s1 & Hrun & Hlog).
    exists s1. split; [assumption |].
    unfold check_zed_sdk_version. mrun. rewrite Hrun. reflexivity. }
  split; [exact Hretry |].
  intros data1 data2 Hr1 Hp1 Hr2 Hp2.
  destruct (Hretry data1 Hr1 Hp1) as (s1 & Hlog & Heq). rewrite Heq.
  assert (clock s1 = S (clock s)) as Hclock.
  { unfold clock. rewrite Hlog, length_app_comm. reflexivity. }
  rewrite <- Hclock in Hr2.
  destruct (private_without_pattern _ _ _ _ Hr2 Hp2) as (s2 & Hrun & Hlog2).
  rewrite Hrun. exists no_attribute_group. cbn [fst snd].
  repeat split. rewrite Hlog2, Hlog, <- app_assoc. reflexivity.
Qed.

Lemma check_zed_sdk_version_spec_witness :
  (exists s1,
      log s1 = [OpenRead "/usr/local/zed/include/sl/Camera.hpp"]
      /\ check_zed_sdk_version Sample.old_sdk "/usr/local/zed/include"
           (initial_state Sample.old_sdk)
         = check_zed_sdk_version_private Sample.old_sdk
             "/usr/local/zed/include/sl_zed/defines.hpp" s1)
  /\ (exists e,
         fst (check_zed_sdk_version Sample.no_version
                "/usr/local/zed/include"
                (initial_state Sample.no_version)) = Err e
         /\ exn_class e = AttributeError
         /\ log (snd (check_zed_sdk_version Sample.no_version
                        "/usr/local/zed/include"
                        (initial_state Sample.no_version)))
            = [OpenRead "/usr/local/zed/include/sl/Camera.hpp";
               OpenRead "/usr/local/zed/include/sl_zed/defines.hpp"]).
Proof.
  split.
  - apply (proj1 (check_zed_sdk_version_spec Sample.old_sdk
                    "/usr/local/zed/include"
                    (initial_state Sample.old_sdk))
             Sample.header_major_only); reflexivity.
  - apply (proj2 (check_zed_sdk_version_spec Sample.no_version
                    "/usr/local/zed/include"
                    (initial_state Sample.no_version))
             Sample.header_major_only "#pragma once"); reflexivity.
Defined.

(** The second candidate decides: with the pattern in it, the version is
    the one it gives. *)
Example old_sdk_version :
  let r := check_zed_sdk_version Sample.old_sdk "/usr/local/zed/include"
             (initial_state Sample.old_sdk) in
  fst r = Ok tt /\ ZED_SDK_MAJOR (snd r) = "4" /\ ZED_SDK_MINOR (snd r) = "1".
Proof. repeat split. Qed.

(** ** get_pyzed_directory *)

(** The loop ends without a value when no [Location:] line names a
    directory. *)
Lemma scan_lines_none (w : World) (lines : list string) :
  (forall t line,
      In line lines -> is_location_line line = true ->
      path_isdir w t (location_of line) = false) ->
  forall s, fst (scan_lines w lines s) = Ok None.
Proof.
  induction lines as [| line rest IH]; intros H s.
  - reflexivity.
  - cbn [scan_lines]. cbv zeta.
    change (PyStr.startswith "Location:" line) with (is_location_line line).
    destruct (is_location_line line) eqn:Hl.
    + change (PyStr.strip (PyStr.drop (length "Location:") line))
        with (location_of line).
      mrun.
      rewrite (H _ line (or_introl eq_refl) Hl). mrun.
      apply IH. intros t l Hin. apply H. right; assumption.
    + apply IH. intros t l Hin. apply H. right; assumption.
Qed.

(** C10: [get_pyzed_directory] has two ways to find nothing.  It returns
    [None] when [pip show pyzed] succeeds and no [Location:] line of its
    output names an existing directory; it returns the empty string when
    running the subprocess raises, be it that the process could not be
    started or that it exited with a status other than 0. *)
Theorem get_pyzed_directory_spec (w : World) (s : State) :
  let argv := [sys_executable w; "-m"; "pip"; "show"; "pyzed"] in
  (forall out,
      run_process w (clock s) argv = inr (0%Z, out) ->
      (forall t line,
          In line (PyStr.splitlines out) -> is_location_line line = true ->
          path_isdir w t (location_of line) = false) ->
      fst (get_pyzed_directory w s) = Ok None)
  /\ (forall f,
         run_process w (clock s) argv = inl f ->
         fst (get_pyzed_directory w s) = Ok (Some ""))
  /\ (forall status out,
         run_process w (clock s) argv = inr (status, out) ->
         status <> 0%Z ->
         fst (get_pyzed_directory w s) = Ok (Some "")).
Proof.
  cbv zeta. repeat split.
  - intros out Hrun Hdirs. unfold get_pyzed_directory. mrun.
    rewrite Hrun. mrun. cbn [Z.eqb]. mrun.
    match goal with
    | |- context [scan_lines w ?l ?st] =>
        pose proof (scan_lines_none w l Hdirs st) as Hscan;
        destruct (scan_lines w l st) as [r st']
    end.
    cbn [fst] in Hscan. subst r. mrun. reflexivity.
  - intros f Hrun. unfold get_pyzed_directory. mrun.
    rewrite Hrun. mrun. rewrite (fault_is_exception f). reflexivity.
  - intros status out Hrun Hne. unfold get_pyzed_directory. mrun.
    rewrite Hrun. mrun.
    destruct (Z.eqb_spec status 0); [contradiction |]. mrun. reflexivity.
Qed.

Lemma get_pyzed_directory_spec_witness :
  fst (get_pyzed_directory Sample.stale_location
         (initial_state Sample.stale_location)) = Ok None
  /\ fst (get_pyzed_directory Sample.no_python
            (initial_state Sample.no_python)) = Ok (Some "")
  /\ fst (get_pyzed_directory Sample.pip_fails
            (initial_state Sample.pip_fails)) = Ok (Some "").
Proof.
  split; [| split].
  - apply (proj1 (get_pyzed_directory_spec Sample.stale_location
                    (initial_state Sample.stale_location))
             ("Name: pyzed" ++ nl ++ "Version: 4.1" ++ nl
              ++ "Location: /usr/lib/python3/dist-packages" ++ nl)).
    + reflexivity.
    + intros t line _ _. reflexivity.
  - apply (proj1 (proj2 (get_pyzed_directory_spec Sample.no_python
                           (initial_state Sample.no_python)))
             Sample.no_such_file).
    reflexivity.
  - apply (proj2 (proj2 (get_pyzed_directory_spec Sample.pip_fails
                           (initial_state Sample.pip_fails)))
             1%Z "").
    + reflexivity.
    + discriminate.
Defined.

(** With a [Location:] line that names a directory, the value is that
    directory followed by [/pyzed]. *)
Example pyzed_directory_found :
  fst (get_pyzed_directory Sample.installed
         (initial_state Sample.installed))
  = Ok (Some "/usr/lib/python3/dist-packages/pyzed").
Proof. reflexivity. Qed.

(** ** The architecture check *)

(** C5: when the architecture of the interpreter is anything but ["64bit"],
    the script prints the architecture error and exits with status 1, and
    that line is all it does: no network request and no write to the file
    system comes before the exit. *)
Theorem architecture_check_spec (w : World) (args : Args) :
  platform_architecture_0 w <> "64bit" ->
  let r := run w args in
  fst r = Err (Exn SystemExit 1 "")
  /\ exit_status (fst r) = 1%Z
  /\ log (snd r)
     = [Stdout ("ERROR : Python 64bit must be used, found "
               ++ platform_architecture_0 w)]
  /\ (forall e, In e (log (snd r)) ->
                is_network e = false /\ is_fs_write e = false).
Proof.
  intros Harch. cbv zeta. unfold run, script, check_architecture.
  destruct (String.eqb_spec (platform_architecture_0 w) "64bit") as [E | _];
    [contradiction |].
  mrun. repeat split.
  - destruct H as [<- | []]. reflexivity.
  - destruct H as [<- | []]. reflexivity.
Qed.

Lemma architecture_check_spec_witness :
  platform_architecture_0 Sample.narrow <> "64bit"
  /\ fst (run Sample.narrow Sample.no_args) = Err (Exn SystemExit 1 "")
  /\ exit_status (fst (run Sample.narrow Sample.no_args)) = 1%Z
  /\ log (snd (run Sample.narrow Sample.no_args))
     = [Stdout "ERROR : Python 64bit must be used, found 32bit"].
Proof.
  split; [discriminate |].
  destruct (architecture_check_spec Sample.narrow Sample.no_args)
    as (H1 & H2 & H3 & _); [discriminate |].
  repeat split; assumption.
Defined.

(** With a 64-bit interpreter the script goes on to the network. *)
Example wide_interpreter_downloads :
  existsb is_network (log (snd (run Sample.good Sample.no_args))) = true
  /\ exit_status (fst (run Sample.good Sample.no_args)) = 0%Z.
Proof. split; reflexivity. Qed.

(** ** The download *)

Lemma attr_HTTPError : requests_exceptions_attr "HTTPError" = ret HTTPError.
Proof. reflexivity. Qed.

Lemma attr_URLError :
  requests_exceptions_attr "URLError" = raise (no_attribute "URLError").
Proof. reflexivity. Qed.

(** The GET and the write that follows it. *)
Lemma get_and_write_run (w : World) (s : State) :
  get_and_write w s =
  let url := whl_file_URL s in
  let s1 := set_log (log s ++ [HttpGet url])%list s in
  match http_get w (clock s) url with
  | inl f => (Err (fault_exn f), s1)
  | inr r =>
      let written := open_wb_write w (S (clock s)) (whl_file s) (content r) in
      (match written with
       | Some f => Err (fault_exn f)
       | None => Ok tt
       end,
       set_log (log s1 ++ [WriteBytes (whl_file s) (content r)
                             (succeeded written)])%list s1)
  end.
Proof.
  unfold get_and_write. mrun.
  destruct (http_get w (List.length (log s)) (whl_file_URL s)) as [f | r];
    mrun; [reflexivity |].
  destruct (open_wb_write w _ _ _); mrun; reflexivity.
Qed.

(** The clauses of the first [try], on an exception [e] raised in [s]. *)
Lemma download_clauses (w : World) (args : Args) (e : exn) (s : State) :
  select_clause e
    [ (builtin PermissionError,
       fun _ => print msg_permission_denied ;; sys_exit 1);
      (requests_exceptions_attr "HTTPError",
       fun e => print (msg_download_error e));
      (requests_exceptions_attr "URLError",
       fun _ => reinstall_certifi_and_retry w args) ] s
  = after_download_failure e s.
Proof.
  unfold after_download_failure. rewrite attr_HTTPError, attr_URLError.
  mrun. destruct (isinstance e PermissionError); mrun; [reflexivity |].
  destruct (isinstance e HTTPError); mrun; reflexivity.
Qed.

Lemma download_run (w : World) (args : Args) (s : State) :
  download w args s =
  let url := whl_file_URL s in
  let file := os_path_join w (dirname s) (whl_file s) in
  let s1 :=
    set_log (log s ++ [Stdout ("-> Checking if " ++ url
                              ++ " exists and is available");
                       HttpGet url])%list
      (set_whl_file file s) in
  match http_get w (S (clock s)) url with
  | inl f => after_download_failure (fault_exn f) s1
  | inr r =>
      let written := open_wb_write w (S (S (clock s))) file (content r) in
      let s2 :=
        set_log (log s1 ++ [WriteBytes file (content r)
                              (succeeded written)])%list s1 in
      match written with
      | Some f => after_download_failure (fault_exn f) s2
      | None => (Ok tt, s2)
      end
  end.
Proof.
  unfold download.
  cbv beta iota zeta delta [bind get modify print emit try_except].
  rewrite get_and_write_run. tidy. cbv zeta. tidy.
  destruct (http_get w (S (List.length (log s))) (whl_file_URL s))
    as [f | r].
  - rewrite download_clauses. reflexivity.
  - destruct (open_wb_write w _ _ _) as [f |].
    + rewrite download_clauses. reflexivity.
    + reflexivity.
Qed.

(** A failure of the download adds no call to the trace but a line of
    text. *)
Lemma after_download_failure_log (e : exn) (s : State) :
  exists text,
    log (snd (after_download_failure e s)) = log s
    \/ log (snd (after_download_failure e s))
       = (log s ++ [Stdout text])%list.
Proof.
  unfold after_download_failure.
  destruct (isinstance e PermissionError);
    [eexists; right; reflexivity |].
  destruct (isinstance e HTTPError);
    [eexists; right; reflexivity |].
  exists ""; left; reflexivity.
Qed.

(** C3: whenever the GET of the wheel URL returns a response, whatever
    its status code, the next thing the script does is write the body of
    the response to the destination file; when that write succeeds the
    download ends normally.  Nothing reads the status code. *)
Theorem download_writes_any_response (w : World) (args : Args) (s : State)
  (r : response) :
  let url := whl_file_URL s in
  let file := os_path_join w (dirname s) (whl_file s) in
  let written := open_wb_write w (S (S (clock s))) file (content r) in
  http_get w (S (clock s)) url = inr r ->
  (exists rest,
      log (snd (download w args s))
      = (log s ++ [Stdout ("-> Checking if " ++ url
                          ++ " exists and is available");
                   HttpGet url;
                   WriteBytes file (content r) (succeeded written)]
               ++ rest)%list)
  /\ (written = None -> fst (download w args s) = Ok tt).
Proof.
  cbv zeta. intros Hget. rewrite download_run. cbv zeta. rewrite Hget.
  split.
  - destruct (open_wb_write w _ _ _) as [f |].
    + match goal with
      | |- context [after_download_failure ?e ?st] =>
          destruct (after_download_failure_log e st) as (text & [H | H])
      end; rewrite H; tidy.
      * exists []. reflexivity.
      * exists [Stdout text]. reflexivity.
    + exists []. tidy. reflexivity.
  - intros Hw. rewrite Hw. reflexivity.
Qed.

Lemma download_writes_any_response_witness :
  let w := Sample.big_html in
  let s := before_download w Sample.path_args in
  http_get w (S (clock s)) (whl_file_URL s)
  = inr (Response 404 Sample.html_bytes)
  /\ exists rest,
       log (snd (download w Sample.path_args s))
       = (log s
          ++ [Stdout ("-> Checking if " ++ whl_file_URL s
                     ++ " exists and is available");
              HttpGet (whl_file_URL s);
              WriteBytes "/tmp/out/pyzed-4.1-cp310-cp310-linux_x86_64.whl"
                Sample.html_bytes true]
          ++ rest)%list.
Proof.
  cbv zeta. split; [reflexivity |].
  apply (proj1 (download_writes_any_response Sample.big_html
                  Sample.path_args
                  (before_download Sample.big_html Sample.path_args)
                  (Response 404 Sample.html_bytes) eq_refl)).
Defined.

(** The error page of a 404 is on disk when the validation starts. *)
Example error_page_is_written :
  In (WriteBytes "/tmp/out/pyzed-4.1-cp310-cp310-linux_x86_64.whl"
        Sample.html_bytes true)
     (log (snd (run Sample.big_html Sample.path_args)))
  /\ exit_status (fst (run Sample.big_html Sample.path_args)) = 1%Z.
Proof. split; [vm_compute; tauto | reflexivity]. Qed.

(** *** The SSL error *)

(** An exception of the GET that is neither a [PermissionError] nor an
    [HTTPError] reaches the third clause, and the name of its class,
    [requests.exceptions.URLError], does not exist: the [AttributeError]
    of the lookup is what leaves the download. *)
Lemma download_unmatched (w : World) (args : Args) (s : State) (f : fault) :
  http_get w (S (clock s)) (whl_file_URL s) = inl f ->
  isinstance (fault_exn f) PermissionError = false ->
  isinstance (fault_exn f) HTTPError = false ->
  fst (download w args s) = Err (no_attribute "URLError")
  /\ log (snd (download w args s))
     = (log s ++ [Stdout ("-> Checking if " ++ whl_file_URL s
                         ++ " exists and is available");
                  HttpGet (whl_file_URL s)])%list.
Proof.
  intros Hget Hp Hh. rewrite download_run. cbv zeta. rewrite Hget.
  unfold after_download_failure. rewrite Hp, Hh. split; reflexivity.
Qed.

(** The download never starts pip, and asks for the wheel once: the body
    of the third clause is not reached in any world. *)
Lemma download_never_repairs (w : World) (args : Args) (s : State) :
  exists l,
    log (snd (download w args s)) = (log s ++ l)%list
    /\ existsb is_spawn l = false
    /\ List.length (filter is_network l) = 1%nat.
Proof.
  rewrite download_run. cbv zeta.
  destruct (http_get w (S (clock s)) (whl_file_URL s)) as [f | r].
  - match goal with
    | |- context [after_download_failure ?e ?st] =>
        destruct (after_download_failure_log e st) as (text & [H | H])
    end; rewrite H; tidy; eexists; (split; [reflexivity |]);
      split; reflexivity.
  - destruct (open_wb_write w _ _ _) as [f |].
    + match goal with
      | |- context [after_download_failure ?e ?st] =>
          destruct (after_download_failure_log e st) as (text & [H | H])
      end; rewrite H; tidy; eexists; (split; [reflexivity |]);
        split; reflexivity.
    + tidy. eexists. split; [reflexivity |]. split; reflexivity.
Qed.

(** What the third clause would do, were it reached: it runs
    [pip install --force-reinstall --upgrade certifi], and asks for the
    wheel again, once, exactly when pip returned 0. *)
Lemma reinstall_certifi_and_retry_run (w : World) (args : Args)
  (s : State) :
  let s1 := set_log (log s ++ [Stdout msg_invalid_certificate])%list s in
  let argv := pip_argv w "certifi" true false true (args_force args) in
  let repaired :=
    match run_process w (pip_time (args_force args) s1) argv with
    | inr (status, _) => (status =? 0)%Z
    | inl _ => false
    end in
  exists l,
    log (snd (reinstall_certifi_and_retry w args s))
    = (log s ++ [Stdout msg_invalid_certificate]
       ++ pip_trace w "certifi" true false true (args_force args)
       ++ l)%list
    /\ existsb is_spawn l = false
    /\ List.length (filter is_network l)
       = (if repaired then 1%nat else 0%nat).
Proof.
  cbv zeta. unfold reinstall_certifi_and_retry.
  cbv beta iota zeta delta [bind print emit modify].
  rewrite pip_install_run.
  set (s1 := set_log (log s ++ [Stdout msg_invalid_certificate])%list s).
  destruct (run_process w (pip_time (args_force args) s1)
              (pip_argv w "certifi" true false true (args_force args)))
    as [f | [status out]].
  - cbn [Z.eqb]. exists []. unfold pip_state, s1. tidy. mrun.
    repeat split. rewrite app_nil_r. reflexivity.
  - destruct (status =? 0)%Z.
    + cbn [Z.eqb]. cbv beta iota delta [try_except].
      rewrite get_and_write_run. cbv zeta.
      set (s2 := pip_state w "certifi" true false true (args_force args) s1).
      assert (log s2
              = (log s ++ [Stdout msg_invalid_certificate]
                 ++ pip_trace w "certifi" true false true
                      (args_force args))%list) as Hlog.
      { unfold s2, pip_state, s1. tidy. reflexivity. }
      destruct (http_get w (clock s2) (whl_file_URL s2)) as [f | r].
      * mrun. rewrite (fault_is_exception f). mrun.
        exists [HttpGet (whl_file_URL s2);
                Stdout (msg_download_error (fault_exn f))].
        rewrite Hlog. tidy. repeat split.
      * destruct (open_wb_write w _ _ _) as [f |].
        -- mrun. rewrite (fault_is_exception f). mrun.
           exists [HttpGet (whl_file_URL s2);
                   WriteBytes (whl_file s2) (content r) false;
                   Stdout (msg_download_error (fault_exn f))].
           rewrite Hlog. tidy. repeat split.
        -- mrun.
           exists [HttpGet (whl_file_URL s2);
                   WriteBytes (whl_file s2) (content r) true].
           rewrite Hlog. tidy. repeat split.
    + cbn [Z.eqb]. exists []. unfold pip_state, s1. tidy. mrun.
      repeat split. rewrite app_nil_r. reflexivity.
Qed.

(** C2, as the code has it: when the GET fails with an SSL error of
    [requests], the script does not reinstall [certifi] and does not retry.
    The clause meant for the case names [requests.exceptions.URLError], a
    class that module does not have; looking it up raises
    [AttributeError], which ends the script with status 1 after one GET
    and no call to pip. *)
Theorem ssl_error_is_not_repaired :
  let r := run Sample.bad_certificates Sample.no_args in
  fst r = Err (no_attribute "URLError")
  /\ exit_status (fst r) = 1%Z
  /\ existsb is_spawn (log (snd r)) = false
  /\ List.length (filter is_network (log (snd r))) = 1%nat
  /\ ~ In (Stdout msg_invalid_certificate) (log (snd r)).
Proof.
  cbv zeta. repeat split.
  vm_compute. intuition discriminate.
Qed.

(** ** The file name and the URL *)

(** Reading the version touches neither the platform strings nor
    anything but the trace and the two version globals. *)
Lemma check_zed_sdk_version_private_frame (w : World) (file_path : string)
  (s : State) :
  let s' := snd (check_zed_sdk_version_private w file_path s) in
  OS_VERSION s' = OS_VERSION s /\ whl_platform_str s' = whl_platform_str s.
Proof.
  cbv zeta. rewrite check_zed_sdk_version_private_run. cbv zeta.
  destruct (open_r_read w (clock s) file_path) as [f | data];
    [split; reflexivity |].
  destruct (re_search "ZED_SDK_MAJOR_VERSION " data);
    [| split; reflexivity].
  destruct (re_search "ZED_SDK_MINOR_VERSION " data); split; reflexivity.
Qed.

Lemma check_zed_sdk_version_frame (w : World) (file_path : string)
  (s : State) :
  let s' := snd (check_zed_sdk_version w file_path s) in
  OS_VERSION s' = OS_VERSION s /\ whl_platform_str s' = whl_platform_str s.
Proof.
  cbv zeta. unfold check_zed_sdk_version. mrun.
  pose proof (check_zed_sdk_version_private_frame w
                (file_path ++ "/sl/Camera.hpp") s) as H1.
  cbv zeta in H1.
  destruct (check_zed_sdk_version_private w
              (file_path ++ "/sl/Camera.hpp") s) as [[u | e] s1];
    cbn [snd] in *; [exact H1 |].
  destruct (isinstance e AttributeError); cbn [snd]; [| exact H1].
  pose proof (check_zed_sdk_version_private_frame w
                (file_path ++ "/sl_zed/defines.hpp") s1) as H2.
  cbv zeta in H2. destruct H1 as [H1a H1b], H2 as [H2a H2b].
  split; congruence.
Qed.

(** When the platform stage ends normally, the family is one of the two
    supported, and the platform strings are those of the family and the
    architecture. *)
Lemma detect_platform_ok (w : World) (s s' : State) :
  detect_platform w s = (Ok tt, s') ->
  exists fam,
    family_of w = Some fam
    /\ OS_VERSION s' = os_version_of fam (platform_machine w)
    /\ whl_platform_str s' = platform_str_of fam.
Proof.
  unfold detect_platform, family_of, ARCH_VERSION.
  destruct (String.eqb (sys_platform w) "win32").
  - intros H. exists Windows. split; [reflexivity |]. revert H. mrun.
    destruct (assoc "ZED_SDK_ROOT_DIR" (environ s)) as [p |];
      [| discriminate].
    destruct (check_zed_sdk_version w (p ++ "/include") (set_zed_path p s))
      as [[u | e] s1]; [| discriminate].
    intros H. injection H as <-. split; reflexivity.
  - destruct (PyStr.contains "linux" (sys_platform w)); [| discriminate].
    intros H. exists Linux. split; [reflexivity |]. revert H.
    unfold os_version_of, platform_str_of.
    destruct (PyStr.contains "aarch64" (platform_machine w)); mrun.
    + destruct (path_isdir w (List.length (log s)) "/usr/local/zed");
        [| discriminate].
      match goal with
      | |- context [check_zed_sdk_version w ?p ?st] =>
          pose proof (check_zed_sdk_version_frame w p st) as [Ho Hp];
          destruct (check_zed_sdk_version w p st) as [[u | e] s1];
          [| discriminate]
      end.
      cbn [snd] in Ho, Hp. intros H. injection H as <-.
      tidy. split; [rewrite Ho |]; reflexivity.
    + destruct (path_isdir w (List.length (log s)) "/usr/local/zed");
        [| discriminate].
      match goal with
      | |- context [check_zed_sdk_version w ?p ?st] =>
          pose proof (check_zed_sdk_version_frame w p st) as [Ho Hp];
          destruct (check_zed_sdk_version w p st) as [[u | e] s1];
          [| discriminate]
      end.
      cbn [snd] in Ho, Hp. intros H. injection H as <-.
      tidy. split; [rewrite Ho |]; reflexivity.
Qed.

(** When the construction ends normally, the file name and the URL are
    the ones [wheel_name] and [wheel_URL] give for the globals it read. *)
Lemma construct_artifact_ok (w : World) (s s' : State) :
  construct_artifact w s = (Ok tt, s') ->
  exists tag,
    python_tag (PYTHON_MAJOR s') (PYTHON_MINOR s') = Some tag
    /\ ZED_SDK_MAJOR s' = ZED_SDK_MAJOR s
    /\ ZED_SDK_MINOR s' = ZED_SDK_MINOR s
    /\ whl_file s'
       = wheel_name (ZED_SDK_MAJOR s) (ZED_SDK_MINOR s) tag
           (whl_platform_str s) (platform_machine w)
    /\ whl_file_URL s'
       = wheel_URL (ZED_SDK_MAJOR s) (ZED_SDK_MINOR s) (OS_VERSION s)
           (whl_file s').
Proof.
  unfold construct_artifact, ARCH_VERSION. mrun.
  destruct (nth_error (PyStr.split "." (platform_python_version w)) 0)
    as [major |]; mrun; [| discriminate].
  destruct (nth_error (PyStr.split "." (platform_python_version w)) 1)
    as [minor |]; mrun; [| discriminate].
  destruct (PyStr.int_of minor) as [n |] eqn:Hn; mrun; [| discriminate].
  intros H. injection H as <-. tidy.
  unfold python_tag. rewrite Hn. cbv zeta.
  eexists. split; [reflexivity |]. repeat split.
Qed.

(** The stages before the download, one after the other. *)
Lemma prepare_ok (w : World) (args : Args) (s s' : State) :
  prepare w args s = (Ok tt, s') ->
  exists s0 s1,
    detect_platform w s0 = (Ok tt, s1)
    /\ construct_artifact w s1 = (Ok tt, s').
Proof.
  unfold prepare. cbv beta iota zeta delta [bind].
  destruct (check_architecture w s) as [[u | e] sa]; [| discriminate].
  destruct (choose_dirname w args sa) as [[u' | e] sb]; [| discriminate].
  destruct (detect_platform w sb) as [[[] | e] sc] eqn:Hd; [| discriminate].
  intros Hc. exists sb, sc. split; [assumption |].
  destruct (construct_artifact w sc) as [[[] | e] sd]; [| discriminate].
  assumption.
Qed.

(** The script is its preparation, then the download, then the install. *)
Lemma script_prepare (w : World) (args : Args) (s : State) :
  script w args s = (prepare w args ;; download w args ;; install w args) s.
Proof.
  unfold script, prepare. cbv beta iota zeta delta [bind].
  destruct (check_architecture w s) as [[u | e] sa]; [| reflexivity].
  destruct (choose_dirname w args sa) as [[u' | e] sb]; [| reflexivity].
  destruct (detect_platform w sb) as [[u'' | e] sc]; [| reflexivity].
  destruct (construct_artifact w sc) as [[u''' | e] sd]; reflexivity.
Qed.

(** C4: the file name and the URL are functions of the four inputs.  Take
    two runs of the script up to the download, in any two worlds, with any
    arguments, from any states: when both get through, and the families of
    operating system, the architecture strings, the SDK versions and the
    major and minor versions of the interpreter are the same, so are the
    file names and the URLs. *)
Theorem artifact_depends_on_four_inputs (w1 w2 : World) (args1 args2 : Args)
  (s1 s2 s1' s2' : State) :
  prepare w1 args1 s1 = (Ok tt, s1') ->
  prepare w2 args2 s2 = (Ok tt, s2') ->
  family_of w1 = family_of w2 ->
  platform_machine w1 = platform_machine w2 ->
  ZED_SDK_MAJOR s1' = ZED_SDK_MAJOR s2' ->
  ZED_SDK_MINOR s1' = ZED_SDK_MINOR s2' ->
  PYTHON_MAJOR s1' = PYTHON_MAJOR s2' ->
  PYTHON_MINOR s1' = PYTHON_MINOR s2' ->
  whl_file s1' = whl_file s2' /\ whl_file_URL s1' = whl_file_URL s2'.
Proof.
  intros H1 H2 Hfam Harch HM Hm HPM HPm.
  destruct (prepare_ok _ _ _ _ H1) as (a1 & b1 & Hd1 & Hc1).
  destruct (prepare_ok _ _ _ _ H2) as (a2 & b2 & Hd2 & Hc2).
  destruct (detect_platform_ok _ _ _ Hd1) as (f1 & Hf1 & Ho1 & Hp1).
  destruct (detect_platform_ok _ _ _ Hd2) as (f2 & Hf2 & Ho2 & Hp2).
  destruct (construct_artifact_ok _ _ _ Hc1)
    as (t1 & Ht1 & HM1 & Hm1 & Hfile1 & Hurl1).
  destruct (construct_artifact_ok _ _ _ Hc2)
    as (t2 & Ht2 & HM2 & Hm2 & Hfile2 & Hurl2).
  assert (f1 = f2) as -> by congruence.
  assert (t1 = t2) as -> by congruence.
  assert (whl_file s1' = whl_file s2') as Hfile.
  { rewrite Hfile1, Hfile2, Hp1, Hp2. congruence. }
  split; [exact Hfile |].
  rewrite Hurl1, Hurl2, Ho1, Ho2, Hfile. congruence.
Qed.

Lemma artifact_depends_on_four_inputs_witness :
  let s1 := before_download Sample.good Sample.no_args in
  let s2 := before_download Sample.elsewhere Sample.path_args in
  whl_file s1 = whl_file s2 /\ whl_file_URL s1 = whl_file_URL s2.
Proof.
  cbv zeta.
  apply (artifact_depends_on_four_inputs Sample.good Sample.elsewhere
           Sample.no_args Sample.path_args
           (initial_state Sample.good) (initial_state Sample.elsewhere));
    reflexivity.
Defined.

(** The name and the URL for SDK 4.1 and Python 3.10 on Linux x86_64. *)
Example artifact_of_good :
  let s := before_download Sample.good Sample.no_args in
  whl_file s = "pyzed-4.1-cp310-cp310-linux_x86_64.whl"
  /\ whl_file_URL s
     = "https://download.stereolabs.com/zedsdk/4.1/whl/linux_x86_64/pyzed-4.1-cp310-cp310-linux_x86_64.whl".
Proof. split; reflexivity. Qed.

(* ===================================================================== *)
(** * Part III: further properties of the code *)
(* ===================================================================== *)

(** ** check_valid_file, lines 49 to 76 *)

(** X1: [check_valid_file] says yes exactly when the file has more than
    150 000 bytes and starts with the ZIP signature.  The bound is strict:
    a file of exactly 150 000 bytes is refused, signature or not. *)
Theorem check_valid_file_verdict (w : World) (path : string) (s : State) :
  (fst (check_valid_file w path s) = Ok true <->
   exists n data,
     stat_st_size w (clock s) path = inr n /\ (KB_150 < n)%Z
     /\ open_rb_read w (S (clock s)) path = inr data
     /\ firstn 4 data = ZIP_MAGIC)
  /\ (stat_st_size w (clock s) path = inr KB_150 ->
      fst (check_valid_file w path s) = Ok false).
Proof.
  split.
  - apply check_valid_file_true_iff.
  - intros Hs. rewrite (check_valid_file_sized _ _ _ _ Hs). reflexivity.
Qed.

Lemma check_valid_file_verdict_witness :
  fst (check_valid_file Cases.exactly_150_KB "pyzed.whl"
         (initial_state Cases.exactly_150_KB)) = Ok false
  /\ fst (check_valid_file Sample.good "pyzed.whl"
            (initial_state Sample.good)) = Ok true.
Proof.
  split.
  - apply (proj2 (check_valid_file_verdict Cases.exactly_150_KB "pyzed.whl"
                    (initial_state Cases.exactly_150_KB))).
    reflexivity.
  - apply (proj1 (check_valid_file_verdict Sample.good "pyzed.whl"
                    (initial_state Sample.good))).
    exists 200000%Z, Sample.wheel_bytes. repeat split.
Defined.

(** X2: [check_valid_file] only looks.  It leaves the globals and the
    environment alone and adds to the trace one [stat] and at most one
    [open] for reading, of the path it was given.  When [stat] raises
    anything but [FileNotFoundError], that exception is the outcome and the
    file is not opened; in every other case the outcome is a boolean. *)
Theorem check_valid_file_only_looks (w : World) (path : string)
  (s : State) :
  (exists f,
      stat_st_size w (clock s) path = inl f
      /\ isinstance (fault_exn f) FileNotFoundError = false
      /\ check_valid_file w path s
         = (Err (fault_exn f), set_log (log s ++ [Stat path])%list s))
  \/ (exists b : bool,
         check_valid_file w path s
         = (Ok b, set_log (log s ++ [Stat path; OpenRead path])%list s)).
Proof.
  destruct (stat_st_size w (clock s) path) as [f | n] eqn:Hs.
  - destruct (isinstance (fault_exn f) FileNotFoundError) eqn:Hf.
    + right. exists false. apply (check_valid_file_missing _ _ _ _ Hs Hf).
    + left. exists f. split; [reflexivity |]. split; [exact Hf |].
      apply (check_valid_file_raises _ _ _ _ Hs Hf).
  - right. eexists. apply (check_valid_file_sized _ _ _ _ Hs).
Qed.

(** ** pip_install, lines 27 to 46 *)

(** X3: [pip_install] sets [PIP_BREAK_SYSTEM_PACKAGES] and never unsets
    it.  After a call with [break_system_packages=True], a later call with
    [break_system_packages=False] still runs pip with the variable set to
    ["1"]; a call with [False] alone leaves the environment as it was. *)
Theorem pip_install_keeps_the_override (w : World) (a b : string)
  (fa ia ua fb ib ub : bool) (s : State) :
  let s1 := snd (pip_install w a fa ia ua true s) in
  let s2 := snd (pip_install w b fb ib ub false s1) in
  assoc "PIP_BREAK_SYSTEM_PACKAGES" (environ s1) = Some "1"
  /\ assoc "PIP_BREAK_SYSTEM_PACKAGES" (environ s2) = Some "1"
  /\ environ (snd (pip_install w b fb ib ub false s)) = environ s.
Proof.
  cbv zeta. rewrite !pip_install_run. cbn [snd].
  unfold pip_state. tidy. repeat split.
Qed.

(** X4: [pip_install] never raises, starts exactly one process, and
    touches neither the network nor the file system: its trace is the
    assignment of the variable, when asked for, and the one [Spawn]. *)
Theorem pip_install_runs_one_process (w : World) (package : string)
  (force_install ignore_install upgrade break_system_packages : bool)
  (s : State) :
  let r := pip_install w package force_install ignore_install upgrade
             break_system_packages s in
  (exists v, fst r = Ok v)
  /\ (exists l,
         log (snd r) = (log s ++ l)%list
         /\ List.length (filter is_spawn l) = 1%nat
         /\ existsb is_network l = false
         /\ existsb is_fs_write l = false).
Proof.
  cbv zeta. rewrite pip_install_run. cbn [fst snd]. split.
  - eexists; reflexivity.
  - unfold pip_state, pip_trace.
    destruct break_system_packages; tidy; eexists;
      (split; [reflexivity |]); repeat split.
Qed.

(** ** can_write_to_dir, lines 144 to 155 *)

(** X5: [can_write_to_dir] always returns a boolean, and the boolean is
    true exactly when the three queries say yes, the probe file is
    written and the probe file is removed. *)
Theorem can_write_to_dir_verdict (w : World) (d : string) (s : State) :
  let t := clock s in
  let testfile := os_path_join w d "temp_test_file.tmp" in
  exists b : bool,
    fst (can_write_to_dir w d s) = Ok b
    /\ (b = true <->
        path_exists w t d = true
        /\ path_isdir w (S t) d = true
        /\ access_W_OK w (S (S t)) d = true
        /\ open_w_write w (S (S (S t))) testfile "test" = None
        /\ remove w (S (S (S (S t)))) testfile = None).
Proof.
  cbv zeta. rewrite can_write_to_dir_run. cbv zeta.
  destruct (path_exists w _ d); cbn [negb];
    [| exists false; split; [reflexivity | split; intros H;
         [discriminate | destruct H as (H & _); discriminate]]].
  destruct (path_isdir w _ d); cbn [negb];
    [| exists false; split; [reflexivity | split; intros H;
         [discriminate | destruct H as (_ & H & _); discriminate]]].
  destruct (access_W_OK w _ d); cbn [negb];
    [| exists false; split; [reflexivity | split; intros H;
         [discriminate | destruct H as (_ & _ & H & _); discriminate]]].
  destruct (open_w_write w _ _ _);
    [exists false; split; [reflexivity | split; intros H;
       [discriminate | destruct H as (_ & _ & _ & H & _); discriminate]] |].
  destruct (remove w _ _);
    [exists false; split; [reflexivity | split; intros H;
       [discriminate | destruct H as (_ & _ & _ & _ & H); discriminate]] |].
  exists true. repeat split.
Qed.

(** X6: [can_write_to_dir] writes nothing unless the three queries said
    yes: when the path is missing, is not a directory or is not writable,
    the trace gets queries and nothing else. *)
Theorem can_write_to_dir_asks_first (w : World) (d : string) (s : State) :
  let t := clock s in
  path_exists w t d && path_isdir w (S t) d && access_W_OK w (S (S t)) d
  = false ->
  exists l,
    log (snd (can_write_to_dir w d s)) = (log s ++ l)%list
    /\ existsb is_fs_write l = false.
Proof.
  cbv zeta. intros H. rewrite can_write_to_dir_run. cbv zeta.
  destruct (path_exists w _ d); cbn [negb];
    [| eexists; split; [reflexivity | reflexivity]].
  destruct (path_isdir w _ d); cbn [negb];
    [| eexists; split; [reflexivity | reflexivity]].
  destruct (access_W_OK w _ d); cbn [negb];
    [discriminate | eexists; split; [reflexivity | reflexivity]].
Qed.

Lemma can_write_to_dir_asks_first_witness :
  exists l,
    log (snd (can_write_to_dir Sample.read_only_dir "/tmp/out"
                (initial_state Sample.read_only_dir)))
    = (log (initial_state Sample.read_only_dir) ++ l)%list
    /\ existsb is_fs_write l = false.
Proof.
  apply (can_write_to_dir_asks_first Sample.read_only_dir "/tmp/out"
           (initial_state Sample.read_only_dir)).
  reflexivity.
Defined.

(** X7: the probe file can stay behind.  When the three queries say yes
    and the file is written but cannot be removed, [can_write_to_dir]
    returns false and the last two events are the successful write and
    the failed removal. *)
Theorem can_write_to_dir_leaves_the_probe (w : World) (d : string)
  (s : State) (f : fault) :
  let t := clock s in
  let testfile := os_path_join w d "temp_test_file.tmp" in
  path_exists w t d = true ->
  path_isdir w (S t) d = true ->
  access_W_OK w (S (S t)) d = true ->
  open_w_write w (S (S (S t))) testfile "test" = None ->
  remove w (S (S (S (S t)))) testfile = Some f ->
  can_write_to_dir w d s
  = (Ok false,
     set_log (log s ++ [Probe d; Probe d; Probe d;
                        WriteText testfile "test" true;
                        Remove testfile false])%list s).
Proof.
  cbv zeta. intros H1 H2 H3 H4 H5. rewrite can_write_to_dir_run. cbv zeta.
  rewrite H1, H2, H3, H4, H5. reflexivity.
Qed.

Lemma can_write_to_dir_leaves_the_probe_witness :
  can_write_to_dir Cases.sticky "/tmp/out" (initial_state Cases.sticky)
  = (Ok false,
     set_log [Probe "/tmp/out"; Probe "/tmp/out"; Probe "/tmp/out";
              WriteText "/tmp/out/temp_test_file.tmp" "test" true;
              Remove "/tmp/out/temp_test_file.tmp" false]
       (initial_state Cases.sticky)).
Proof.
  apply (can_write_to_dir_leaves_the_probe Cases.sticky "/tmp/out"
           (initial_state Cases.sticky) Sample.permission_denied);
    reflexivity.
Defined.

(** ** The version reader, lines 122 to 142 *)

Lemma substring_0_all (s : string) : substring 0 (length s) s = s.
Proof. induction s as [| c s IH]; simpl; [| rewrite IH]; reflexivity. Qed.

Lemma prefix_app (m r : string) : String.prefix m (m ++ r) = true.
Proof.
  induction m as [| a m IH]; simpl.
  - destruct r; reflexivity.
  - destruct (ascii_dec a a); [assumption | contradiction].
Qed.

Lemma substring_after (m r : string) :
  substring (length m) (length (m ++ r) - length m) (m ++ r) = r.
Proof.
  induction m as [| a m IH]; simpl.
  - rewrite Nat.sub_0_r. apply substring_0_all.
  - exact IH.
Qed.

Lemma dot_star_line (g post : string) :
  one_line g = true ->
  post = "" \/ (exists rest, post = nl ++ rest) ->
  PyStr.dot_star (g ++ post) = g.
Proof.
  unfold one_line. induction g as [| c g IH]; simpl; intros Hg Hpost.
  - destruct Hpost as [-> | (rest & ->)]; reflexivity.
  - apply andb_true_iff in Hg as [Hc Hg].
    destruct (PyStr.code c =? 10)%N; [discriminate |].
    rewrite (IH Hg Hpost). reflexivity.
Qed.

Lemma after_first_here (marker rest : string) :
  PyStr.after_first marker (marker ++ rest) = Some rest.
Proof.
  destruct (marker ++ rest) as [| c t] eqn:E.
  - simpl. destruct marker; [| discriminate]. simpl in E. subst rest.
    reflexivity.
  - cbn [PyStr.after_first]. rewrite <- E, prefix_app, substring_after.
    reflexivity.
Qed.

Lemma after_first_skips (marker pre rest : string) :
  (forall k, (k < length pre)%nat ->
             String.prefix marker (PyStr.drop k (pre ++ marker ++ rest))
             = false) ->
  PyStr.after_first marker (pre ++ marker ++ rest) = Some rest.
Proof.
  induction pre as [| c pre IH]; intros H.
  - change ("" ++ marker ++ rest) with (marker ++ rest).
    apply after_first_here.
  - change (String c pre ++ marker ++ rest)
      with (String c (pre ++ marker ++ rest)).
    cbn [PyStr.after_first].
    pose proof (H 0%nat (Nat.lt_0_succ _)) as H0. cbn [PyStr.drop] in H0.
    change (String c pre ++ marker ++ rest)
      with (String c (pre ++ marker ++ rest)) in H0.
    rewrite H0. apply IH. intros k Hk.
    apply (H (S k)). simpl. lia.
Qed.

(** X8: the reader extracts exactly the text that follows the marker on
    its line.  In a file made of [pre], the marker, a text [g] without
    line feed, and then the end of the file or a line feed, where the
    marker does not occur earlier, the group of the search is [g],
    whatever [pre] and the rest of the file hold. *)
Theorem re_search_extracts (marker pre g post : string) :
  one_line g = true ->
  post = "" \/ (exists rest, post = nl ++ rest) ->
  (forall k, (k < length pre)%nat ->
             String.prefix marker
               (PyStr.drop k (pre ++ marker ++ g ++ post)) = false) ->
  re_search marker (pre ++ marker ++ g ++ post) = Some g.
Proof.
  intros Hg Hpost Hfirst. unfold re_search.
  rewrite (after_first_skips _ _ _ Hfirst). cbn [option_map].
  rewrite (dot_star_line _ _ Hg Hpost). reflexivity.
Qed.

Lemma re_search_extracts_witness :
  re_search MAJOR_MARKER
    ("#define " ++ MAJOR_MARKER ++ "4"
     ++ (nl ++ "#define ZED_SDK_MINOR_VERSION 1" ++ nl))
  = Some "4".
Proof.
  apply (re_search_extracts MAJOR_MARKER "#define " "4"
           (nl ++ "#define ZED_SDK_MINOR_VERSION 1" ++ nl)).
  - reflexivity.
  - right. eexists. reflexivity.
  - intros k Hk.
    do 8 (destruct k as [| k]; [reflexivity |]).
    simpl in Hk. lia.
Defined.

(** The search finds nothing exactly when the marker does not occur. *)
Lemma re_search_none_iff (marker data : string) :
  re_search marker data = None <-> PyStr.contains marker data = false.
Proof.
  unfold re_search.
  induction data as [| c t IH]; cbn [PyStr.after_first PyStr.contains].
  - destruct (String.prefix marker ""); cbn; split; intros; congruence.
  - destruct (String.prefix marker (String c t)); cbn.
    + split; intros; congruence.
    + exact IH.
Qed.

(** X9: on a file it can read, [check_zed_sdk_version_private] raises
    [AttributeError] exactly when one of the two markers does not occur in
    the file, and returns normally otherwise. *)
Theorem private_raises_iff_a_marker_is_missing (w : World)
  (file_path data : string) (s : State) :
  open_r_read w (clock s) file_path = inr data ->
  (fst (check_zed_sdk_version_private w file_path s)
   = Err no_attribute_group
   <-> PyStr.contains MAJOR_MARKER data = false
       \/ PyStr.contains MINOR_MARKER data = false)
  /\ (fst (check_zed_sdk_version_private w file_path s) = Ok tt
      <-> PyStr.contains MAJOR_MARKER data = true
          /\ PyStr.contains MINOR_MARKER data = true).
Proof.
  intros Hr. rewrite check_zed_sdk_version_private_run, Hr. cbv zeta.
  unfold MAJOR_MARKER, MINOR_MARKER.
  pose proof (re_search_none_iff "ZED_SDK_MAJOR_VERSION " data) as HM.
  pose proof (re_search_none_iff "ZED_SDK_MINOR_VERSION " data) as Hm.
  destruct (re_search "ZED_SDK_MAJOR_VERSION " data) as [major |].
  - assert (PyStr.contains "ZED_SDK_MAJOR_VERSION " data = true) as HM'.
    { destruct (PyStr.contains "ZED_SDK_MAJOR_VERSION " data);
        [reflexivity |]. destruct HM as [_ HM].
      specialize (HM eq_refl). discriminate. }
    rewrite HM'.
    destruct (re_search "ZED_SDK_MINOR_VERSION " data) as [minor |].
    + assert (PyStr.contains "ZED_SDK_MINOR_VERSION " data = true) as Hm'.
      { destruct (PyStr.contains "ZED_SDK_MINOR_VERSION " data);
          [reflexivity |]. destruct Hm as [_ Hm].
        specialize (Hm eq_refl). discriminate. }
      rewrite Hm'. cbn [fst]. split; split; intros H.
      * discriminate.
      * destruct H; discriminate.
      * split; reflexivity.
      * reflexivity.
    + rewrite (proj1 Hm eq_refl). cbn [fst]. split; split; intros H.
      * right; reflexivity.
      * reflexivity.
      * discriminate.
      * destruct H; discriminate.
  - rewrite (proj1 HM eq_refl). cbn [fst]. split; split; intros H.
    + left; reflexivity.
    + reflexivity.
    + discriminate.
    + destruct H; discriminate.
Qed.

Lemma private_raises_iff_a_marker_is_missing_witness :
  fst (check_zed_sdk_version_private Sample.no_version
         "/usr/local/zed/include/sl/Camera.hpp"
         (initial_state Sample.no_version))
  = Err no_attribute_group.
Proof.
  apply (proj1 (private_raises_iff_a_marker_is_missing Sample.no_version
                  "/usr/local/zed/include/sl/Camera.hpp"
                  Sample.header_major_only
                  (initial_state Sample.no_version) eq_refl)).
  right. reflexivity.
Defined.

(** X10: the fallback is for a file without the pattern, not for a file
    that is not there.  When [sl/Camera.hpp] cannot be opened, the error
    leaves [check_zed_sdk_version] and [sl_zed/defines.hpp] is never
    tried. *)
Theorem check_zed_sdk_version_needs_the_first_file (w : World)
  (file_path : string) (s : State) (f : fault) :
  let first := file_path ++ "/sl/Camera.hpp" in
  open_r_read w (clock s) first = inl f ->
  isinstance (fault_exn f) AttributeError = false ->
  check_zed_sdk_version w file_path s
  = (Err (fault_exn f), set_log (log s ++ [OpenRead first])%list s).
Proof.
  cbv zeta. intros Hr Hf. unfold check_zed_sdk_version. mrun.
  rewrite check_zed_sdk_version_private_run. cbv zeta. unfold clock.
  rewrite Hr. mrun. rewrite Hf. reflexivity.
Qed.

Lemma check_zed_sdk_version_needs_the_first_file_witness :
  check_zed_sdk_version Cases.legacy_sdk "/usr/local/zed/include"
    (initial_state Cases.legacy_sdk)
  = (Err (fault_exn Sample.no_such_file),
     set_log [OpenRead "/usr/local/zed/include/sl/Camera.hpp"]
       (initial_state Cases.legacy_sdk))
  /\ open_r_read Cases.legacy_sdk 1
       "/usr/local/zed/include/sl_zed/defines.hpp"
     = inr Sample.header_4_1.
Proof.
  split; [| reflexivity].
  apply (check_zed_sdk_version_needs_the_first_file Cases.legacy_sdk
           "/usr/local/zed/include" (initial_state Cases.legacy_sdk)
           Sample.no_such_file); reflexivity.
Defined.

(** X11: the two parts of the version come from one file.  When the first
    candidate has both markers, the version is the one it gives and the
    second candidate is not opened.  When the first candidate lacks a
    marker, even if it has the other one, and the second candidate has
    both, the major and the minor version are both those of the second
    candidate. *)
Theorem check_zed_sdk_version_one_file (w : World) (file_path : string)
  (s : State) (data1 : string) :
  let first := file_path ++ "/sl/Camera.hpp" in
  let second := file_path ++ "/sl_zed/defines.hpp" in
  let r := check_zed_sdk_version w file_path s in
  open_r_read w (clock s) first = inr data1 ->
  (has_version_pattern data1 = true ->
   fst r = Ok tt
   /\ re_search MAJOR_MARKER data1 = Some (ZED_SDK_MAJOR (snd r))
   /\ re_search MINOR_MARKER data1 = Some (ZED_SDK_MINOR (snd r))
   /\ log (snd r) = (log s ++ [OpenRead first])%list)
  /\ (has_version_pattern data1 = false ->
      forall data2,
        open_r_read w (S (clock s)) second = inr data2 ->
        has_version_pattern data2 = true ->
        fst r = Ok tt
        /\ re_search MAJOR_MARKER data2 = Some (ZED_SDK_MAJOR (snd r))
        /\ re_search MINOR_MARKER data2 = Some (ZED_SDK_MINOR (snd r))
        /\ log (snd r) = (log s ++ [OpenRead first; OpenRead second])%list).
Proof.
  cbv zeta. intros Hr1. split.
  - intros Hp. unfold check_zed_sdk_version. mrun.
    rewrite check_zed_sdk_version_private_run. cbv zeta. unfold clock.
    rewrite Hr1. unfold has_version_pattern in Hp.
    unfold MAJOR_MARKER, MINOR_MARKER.
    destruct (re_search "ZED_SDK_MAJOR_VERSION " data1); [| discriminate].
    destruct (re_search "ZED_SDK_MINOR_VERSION " data1); [| discriminate].
    tidy. repeat split.
  - intros Hp data2 Hr2 Hp2.
    destruct (private_without_pattern _ _ _ _ Hr1 Hp) as (s1 & Hrun & Hlog).
    unfold check_zed_sdk_version. mrun. rewrite Hrun.
    change (isinstance no_attribute_group AttributeError) with true.
    cbv beta iota.
    rewrite check_zed_sdk_version_private_run. cbv zeta.
    assert (clock s1 = S (List.length (log s))) as Hclock.
    { unfold clock. rewrite Hlog, length_app_comm. reflexivity. }
    rewrite Hclock, Hr2. unfold has_version_pattern in Hp2.
    unfold MAJOR_MARKER, MINOR_MARKER.
    destruct (re_search "ZED_SDK_MAJOR_VERSION " data2); [| discriminate].
    destruct (re_search "ZED_SDK_MINOR_VERSION " data2); [| discriminate].
    tidy. rewrite Hlog. tidy. repeat split.
Qed.

Lemma check_zed_sdk_version_one_file_witness :
  let r := check_zed_sdk_version Cases.mixed_sdk "/usr/local/zed/include"
             (initial_state Cases.mixed_sdk) in
  fst r = Ok tt
  /\ re_search MAJOR_MARKER Sample.header_4_1 = Some (ZED_SDK_MAJOR (snd r))
  /\ re_search MINOR_MARKER Sample.header_4_1 = Some (ZED_SDK_MINOR (snd r))
  /\ log (snd r)
     = [OpenRead "/usr/local/zed/include/sl/Camera.hpp";
        OpenRead "/usr/local/zed/include/sl_zed/defines.hpp"].
Proof.
  cbv zeta.
  apply (proj2 (check_zed_sdk_version_one_file Cases.mixed_sdk
                  "/usr/local/zed/include" (initial_state Cases.mixed_sdk)
                  "#define ZED_SDK_MAJOR_VERSION 3" eq_refl));
    reflexivity.
Defined.

(** ** get_pyzed_directory, lines 100 to 119 *)

Lemma scan_lines_found (w : World) (pre : list string) (line : string)
  (post : list string) (s : State) :
  (forall l, In l pre -> is_location_line l = false) ->
  is_location_line line = true ->
  path_isdir w (clock s) (location_of line) = true ->
  scan_lines w (pre ++ line :: post)%list s
  = (Ok (Some (location_of line ++ "/pyzed")),
     set_log (log s ++ [Probe (location_of line);
                        Stdout ("Pyzed directory is " ++ location_of line)])
             %list s).
Proof.
  induction pre as [| l pre IH]; intros Hpre Hline Hdir.
  - cbn [app scan_lines]. cbv zeta.
    change (PyStr.startswith "Location:" line) with (is_location_line line).
    rewrite Hline.
    change (PyStr.strip (PyStr.drop (length "Location:") line))
      with (location_of line).
    mrun. rewrite Hdir. mrun. reflexivity.
  - cbn [app scan_lines]. cbv zeta.
    change (PyStr.startswith "Location:" l) with (is_location_line l).
    rewrite (Hpre l (or_introl eq_refl)).
    apply IH; try assumption.
    intros l' Hin. apply Hpre. right; assumption.
Qed.

(** X12: when [pip show pyzed] succeeds and the first [Location:] line of
    its output names an existing directory, [get_pyzed_directory] returns
    that directory, stripped of the white space around it, followed by
    [/pyzed]. *)
Theorem get_pyzed_directory_finds (w : World) (s : State) (out : string)
  (pre : list string) (line : string) (post : list string) :
  run_process w (clock s) [sys_executable w; "-m"; "pip"; "show"; "pyzed"]
  = inr (0%Z, out) ->
  PyStr.splitlines out = (pre ++ line :: post)%list ->
  (forall l, In l pre -> is_location_line l = false) ->
  is_location_line line = true ->
  path_isdir w (S (clock s)) (location_of line) = true ->
  fst (get_pyzed_directory w s) = Ok (Some (location_of line ++ "/pyzed")).
Proof.
  intros Hrun Hlines Hpre Hline Hdir. unfold get_pyzed_directory. mrun.
  rewrite Hrun. mrun. cbn [Z.eqb]. mrun. rewrite Hlines.
  rewrite (scan_lines_found w pre line post _ Hpre Hline);
    [reflexivity |].
  unfold clock. tidy. exact Hdir.
Qed.

Lemma get_pyzed_directory_finds_witness :
  fst (get_pyzed_directory Sample.installed
         (initial_state Sample.installed))
  = Ok (Some (location_of "Location:   /usr/lib/python3/dist-packages  "
              ++ "/pyzed"))
  /\ location_of "Location:   /usr/lib/python3/dist-packages  "
     = "/usr/lib/python3/dist-packages".
Proof.
  split; [| reflexivity].
  apply (get_pyzed_directory_finds Sample.installed
           (initial_state Sample.installed)
           ("Name: pyzed" ++ nl
            ++ "Location:   /usr/lib/python3/dist-packages  " ++ nl)
           ["Name: pyzed"]
           "Location:   /usr/lib/python3/dist-packages  " []).
  - reflexivity.
  - reflexivity.
  - intros l [<- | []]. reflexivity.
  - reflexivity.
  - reflexivity.
Defined.

(** ** install_win_dep, lines 79 to 97 *)

(** X13: [install_win_dep] does not look at what pip returns.  Once the
    wheel of the dependency is downloaded and written, the call returns
    normally whether pip installs it or fails; when the GET raises, the
    exception leaves the call, nothing is written and pip is not
    started. *)
Theorem install_win_dep_ignores_pip (w : World) (name : string)
  (py_vers : Z) (break_system_packages : bool) (s : State) :
  (forall r,
      (forall url, http_get w (S (clock s)) url = inr r) ->
      (forall path, open_wb_write w (S (S (clock s))) path (content r)
                    = None) ->
      fst (install_win_dep w name py_vers break_system_packages s) = Ok tt)
  /\ (forall f,
         (forall url, http_get w (S (clock s)) url = inl f) ->
         fst (install_win_dep w name py_vers break_system_packages s)
         = Err (fault_exn f)
         /\ exists text url,
              log (snd (install_win_dep w name py_vers
                          break_system_packages s))
              = (log s ++ [Stdout text; HttpGet url])%list).
Proof.
  split.
  - intros r Hget Hwrite. unfold install_win_dep. cbv zeta. mrun.
    rewrite Hget. mrun. rewrite Hwrite. mrun.
    rewrite pip_install_run. reflexivity.
  - intros f Hget. unfold install_win_dep. cbv zeta. mrun.
    rewrite Hget. mrun. split; [reflexivity |].
    eexists. eexists. reflexivity.
Qed.

Lemma install_win_dep_ignores_pip_witness :
  fst (install_win_dep Sample.pip_fails "PyOpenGL" 310 false
         (initial_state Sample.pip_fails)) = Ok tt
  /\ fst (install_win_dep Sample.bad_certificates "PyOpenGL" 310 false
            (initial_state Sample.bad_certificates))
     = Err (fault_exn Sample.ssl_error).
Proof.
  split.
  - apply (proj1 (install_win_dep_ignores_pip Sample.pip_fails "PyOpenGL"
                    310 false (initial_state Sample.pip_fails))
             (Response 200 Sample.wheel_bytes));
      intros; reflexivity.
  - apply (proj2 (install_win_dep_ignores_pip Sample.bad_certificates
                    "PyOpenGL" 310 false
                    (initial_state Sample.bad_certificates))
             Sample.ssl_error).
    intros; reflexivity.
Defined.

(** The wheels of the dependency, by version of Python. *)
Example install_win_dep_names :
  let asked w v :=
    filter is_network
      (log (snd (install_win_dep w "PyOpenGL" v false (initial_state w)))) in
  asked Sample.good 37%Z
  = [HttpGet "https://download.stereolabs.com/py/PyOpenGL-3.1.5-cp37-cp37m-win_amd64.whl"]
  /\ asked Sample.good 39%Z
     = [HttpGet "https://download.stereolabs.com/py/PyOpenGL-3.1.5-cp39-cp39-win_amd64.whl"]
  /\ asked Sample.good 311%Z
     = [HttpGet "https://download.stereolabs.com/py/PyOpenGL-3.1.6-cp311-cp311-win_amd64.whl"]
  /\ asked Sample.good 312%Z
     = [HttpGet "https://download.stereolabs.com/py/PyOpenGL-3.1.9-cp312-cp312-win_amd64.whl"].
Proof. repeat split. Qed.

(** ** The copy of the libraries, lines 270 to 279 *)

(** X14: when [get_pyzed_directory] returned [None] and a library of the
    SDK is there to copy, building the destination raises [TypeError]:
    the copy loop stops at the first library it finds, and nothing is
    copied. *)
Theorem copy_dlls_needs_a_directory (w : World) (source_dir file : string)
  (rest : list string) (s : State) :
  path_isfile w (clock s) (source_dir ++ file) = true ->
  copy_dlls w source_dir None (file :: rest) s
  = (Err no_concatenation,
     set_log (log s ++ [Probe (source_dir ++ file)])%list s).
Proof.
  intros H. cbn [copy_dlls]. mrun. rewrite H. mrun. reflexivity.
Qed.

Lemma copy_dlls_needs_a_directory_witness :
  copy_dlls Sample.good "C:/ZED/bin" None ["/sl_ai64.dll"; "/sl_zed64.dll"]
    (initial_state Sample.good)
  = (Err no_concatenation,
     set_log [Probe "C:/ZED/bin/sl_ai64.dll"] (initial_state Sample.good)).
Proof.
  apply (copy_dlls_needs_a_directory Sample.good "C:/ZED/bin" "/sl_ai64.dll"
           ["/sl_zed64.dll"] (initial_state Sample.good)).
  reflexivity.
Defined.

(** X15: when [pip show pyzed] cannot be run, [get_pyzed_directory]
    returns the empty string, and the two libraries that are there are
    copied to [/sl_ai64.dll] and [/sl_zed64.dll], at the root of the file
    system. *)
Theorem place_dlls_at_the_root (w : World) (s : State) (f : fault) :
  run_process w (clock s) [sys_executable w; "-m"; "pip"; "show"; "pyzed"]
  = inl f ->
  (forall t path, path_isfile w t path = true) ->
  (forall t src dst, copy w t src dst = None) ->
  place_dlls w s
  = (Ok tt,
     set_log
       (log s
        ++ [Spawn [sys_executable w; "-m"; "pip"; "show"; "pyzed"];
            Stdout "ERROR : Unable to find pyzed installation folder.";
            Probe ((zed_path s ++ "/bin") ++ "/sl_ai64.dll");
            Copy ((zed_path s ++ "/bin") ++ "/sl_ai64.dll") "/sl_ai64.dll"
              true;
            Probe ((zed_path s ++ "/bin") ++ "/sl_zed64.dll");
            Copy ((zed_path s ++ "/bin") ++ "/sl_zed64.dll") "/sl_zed64.dll"
              true])%list s).
Proof.
  intros Hrun Hfile Hcopy. unfold place_dlls, get_pyzed_directory.
  cbv zeta. cbn [copy_dlls]. mrun. rewrite Hrun. mrun.
  rewrite (fault_is_exception f). mrun.
  rewrite !Hfile. mrun. rewrite !Hcopy. mrun.
  rewrite !Hfile. mrun. rewrite !Hcopy. mrun. reflexivity.
Qed.

Lemma place_dlls_at_the_root_witness :
  let w := Cases.windows_without_pip_show in
  let s := set_zed_path "C:/ZED" (initial_state w) in
  In (Copy "C:/ZED/bin/sl_ai64.dll" "/sl_ai64.dll" true)
     (log (snd (place_dlls w s))).
Proof.
  cbv zeta.
  rewrite (place_dlls_at_the_root Cases.windows_without_pip_show
             (set_zed_path "C:/ZED"
                (initial_state Cases.windows_without_pip_show))
             Sample.no_such_file);
    [| reflexivity | intros; reflexivity | intros; reflexivity].
  cbn. right. right. right. left. reflexivity.
Defined.

(** ** What a statement can add to the trace, and how it can exit *)

Lemma forallb_app_true {A : Type} (p : A -> bool) (l l' : list A) :
  forallb p l = true -> forallb p l' = true ->
  forallb p (l ++ l')%list = true.
Proof. intros H H'. rewrite forallb_app, H, H'. reflexivity. Qed.

Lemma exits_with_fault (codes : list Z) (f : fault) :
  exits_with codes (fault_exn f).
Proof.
  intros H. exfalso.
  apply (isinstance_Exception_not_exit _ (fault_is_exception f) H).
Qed.

Section Tame.

Variable allowed : event -> bool.
Variable codes : list Z.

Lemma tame_ret {A : Type} (a : A) : tame allowed codes (ret a).
Proof.
  intros s. split; [exists []; split; [symmetry; apply app_nil_r |] |];
    [reflexivity | discriminate].
Qed.

Lemma tame_raise {A : Type} (e : exn) :
  exits_with codes e -> tame allowed codes (@raise A e).
Proof.
  intros He s. split.
  - exists []. split; [symmetry; apply app_nil_r | reflexivity].
  - intros e' H. injection H as <-. exact He.
Qed.

Lemma tame_sys_exit {A : Type} (code : Z) :
  In code codes -> tame allowed codes (@sys_exit A code).
Proof. intros H. apply tame_raise. intros _. exact H. Qed.

Lemma tame_get {A : Type} (f : State -> A) : tame allowed codes (get f).
Proof.
  intros s. split; [exists []; split; [symmetry; apply app_nil_r |] |];
    [reflexivity | discriminate].
Qed.

Lemma tame_modify (f : State -> State) :
  (forall s, log (f s) = log s) -> tame allowed codes (modify f).
Proof.
  intros Hf s. split.
  - exists []. cbn. rewrite Hf, app_nil_r. split; reflexivity.
  - discriminate.
Qed.

Lemma tame_emit (e : event) : allowed e = true -> tame allowed codes (emit e).
Proof.
  intros He s. split.
  - exists [e]. cbn. rewrite He. split; reflexivity.
  - discriminate.
Qed.

Lemma tame_bind {A B : Type} (c : M A) (k : A -> M B) :
  tame allowed codes c -> (forall a, tame allowed codes (k a)) ->
  tame allowed codes (bind c k).
Proof.
  intros Hc Hk s. unfold bind.
  destruct (Hc s) as [(l & Hl & Hal) He].
  destruct (c s) as [[a | e] s1]; cbn [fst snd] in *.
  - destruct (Hk a s1) as [(l2 & Hl2 & Hal2) He2]. split.
    + exists (l ++ l2)%list. rewrite Hl2, Hl, app_assoc. split;
        [reflexivity | apply forallb_app_true; assumption].
    + exact He2.
  - split.
    + exists l. split; assumption.
    + intros e' H. injection H as <-. apply He. reflexivity.
Qed.

Lemma tame_of_sum {A : Type} (x : fault + A) : tame allowed codes (of_sum x).
Proof.
  destruct x as [f | a]; [apply tame_raise, exits_with_fault | apply tame_ret].
Qed.

Lemma tame_of_status (x : option fault) : tame allowed codes (of_status x).
Proof.
  destruct x as [f |]; [apply tame_raise, exits_with_fault | apply tame_ret].
Qed.

Lemma tame_select {A : Type} (e : exn)
  (clauses : list (M exc_class * (exn -> M A))) :
  exits_with codes e ->
  Forall (tame_clause allowed codes) clauses ->
  tame allowed codes (select_clause e clauses).
Proof.
  intros He H. induction H as [| [ce h] rest [Hce Hh] _ IH];
    cbn [select_clause].
  - apply tame_raise. exact He.
  - apply tame_bind; [exact Hce |]. intros c.
    destruct (isinstance e c); [apply Hh | exact IH].
Qed.

Lemma tame_try_except {A : Type} (body : M A)
  (clauses : list (M exc_class * (exn -> M A))) :
  tame allowed codes body ->
  Forall (tame_clause allowed codes) clauses ->
  tame allowed codes (try_except body clauses).
Proof.
  intros Hb Hc s. unfold try_except.
  destruct (Hb s) as [(l & Hl & Hal) He].
  destruct (body s) as [[a | e] s1]; cbn [fst snd] in *.
  - split; [exists l; split; assumption | discriminate].
  - destruct (tame_select e clauses (He e eq_refl) Hc s1)
      as [(l2 & Hl2 & Hal2) He2].
    split; [| exact He2].
    exists (l ++ l2)%list. rewrite Hl2, Hl, app_assoc. split;
      [reflexivity | apply forallb_app_true; assumption].
Qed.

Lemma tame_builtin (c : exc_class) : tame allowed codes (builtin c).
Proof. apply tame_ret. Qed.

Lemma tame_requests_exceptions_attr (name : string) :
  tame allowed codes (requests_exceptions_attr name).
Proof.
  unfold requests_exceptions_attr.
  destruct (assoc name requests_exceptions);
    [apply tame_ret | apply tame_raise; intros H; discriminate H].
Qed.

(** The trace only grows. *)
Lemma tame_keeps {A : Type} (c : M A) (s : State) (e : event) :
  tame allowed codes c -> In e (log s) -> In e (log (snd (c s))).
Proof.
  intros Hc Hin. destruct (Hc s) as [(l & Hl & _) _]. rewrite Hl.
  apply in_or_app. left; exact Hin.
Qed.

End Tame.

Lemma tame_weaken (allowed allowed' : event -> bool) (codes codes' : list Z)
  {A : Type} (c : M A) :
  (forall e, allowed e = true -> allowed' e = true) ->
  (forall n, In n codes -> In n codes') ->
  tame allowed codes c -> tame allowed' codes' c.
Proof.
  intros Ha Hc H s. destruct (H s) as [(l & Hl & Hal) He]. split.
  - exists l. split; [exact Hl |].
    rewrite forallb_forall in *. intros e Hin. apply Ha, Hal, Hin.
  - intros e Hr Hcls. apply Hc. apply (He e Hr Hcls).
Qed.

(** One step of a proof that a statement is tame. *)
Ltac tame_step :=
  match goal with
  | |- forall _, _ => intro
  | |- tame _ _ (bind _ _) => apply tame_bind
  | |- tame _ _ (ret _) => apply tame_ret
  | |- tame _ _ (get _) => apply tame_get
  | |- tame _ _ (sys_exit _) => apply tame_sys_exit; cbn; tauto
  | |- tame _ _ (raise _) =>
      let H := fresh "H" in apply tame_raise; intros H; discriminate H
  | |- tame _ _ (of_sum _) => apply tame_of_sum
  | |- tame _ _ (of_status _) => apply tame_of_status
  | |- tame _ _ (builtin _) => apply tame_builtin
  | |- tame _ _ (requests_exceptions_attr _) =>
      apply tame_requests_exceptions_attr
  | |- tame _ _ (modify _) => apply tame_modify; intros; reflexivity
  | |- tame _ _ (emit _) => apply tame_emit; solve [auto | reflexivity]
  | |- tame _ _ (try_except _ _) => apply tame_try_except
  | |- Forall _ [] => apply Forall_nil
  | |- Forall _ (_ :: _) => apply Forall_cons
  | |- tame_clause _ _ _ => split; cbn [fst snd]
  | |- tame _ _ (if ?b then _ else _) => destruct b
  | |- tame _ _ (match ?x with _ => _ end) => destruct x
  | |- tame _ _ (let _ := _ in _) => cbv zeta
  end.

Ltac tame := repeat tame_step.

Section TameCode.

Variable w : World.
Variable allowed : event -> bool.
Variable codes : list Z.

Hypothesis exit_1 : In 1%Z codes.

Lemma tame_print (text : string) :
  (forall t, allowed (Stdout t) = true) -> tame allowed codes (print text).
Proof. intros H. unfold print. tame. Qed.

Lemma tame_pip_install (package : string) (f i u b : bool) :
  (forall n v, allowed (SetEnv n v) = true) ->
  (forall argv, allowed (Spawn argv) = true) ->
  tame allowed codes (pip_install w package f i u b).
Proof.
  intros Henv Hspawn.
  unfold pip_install, setenv, subprocess_check_call, now. tame.
Qed.

Lemma tame_check_valid_file (path : string) :
  (forall p, allowed (Stat p) = true) ->
  (forall p, allowed (OpenRead p) = true) ->
  tame allowed codes (check_valid_file w path).
Proof.
  intros Hstat Hread.
  unfold check_valid_file, os_stat_st_size, read_header, now. tame.
Qed.

Lemma tame_can_write_to_dir (d : string) :
  (forall p, allowed (Probe p) = true) ->
  (forall p ok, allowed (WriteText p "test" ok) = true) ->
  (forall p ok, allowed (Remove p ok) = true) ->
  tame allowed codes (can_write_to_dir w d).
Proof.
  intros Hprobe Hwrite Hremove.
  unfold can_write_to_dir, and_then, os_path_exists, os_path_isdir,
    os_access_W_OK, write_text, os_remove, now.
  tame.
Qed.

Lemma tame_check_zed_sdk_version_private (path : string) :
  (forall p, allowed (OpenRead p) = true) ->
  tame allowed codes (check_zed_sdk_version_private w path).
Proof.
  intros Hread.
  unfold check_zed_sdk_version_private, read_text, group_1, now. tame.
Qed.

Lemma tame_check_zed_sdk_version (path : string) :
  (forall p, allowed (OpenRead p) = true) ->
  tame allowed codes (check_zed_sdk_version w path).
Proof.
  intros Hread. unfold check_zed_sdk_version. cbv zeta.
  apply tame_try_except;
    [apply tame_check_zed_sdk_version_private; assumption |].
  tame. apply tame_check_zed_sdk_version_private; assumption.
Qed.

Lemma tame_scan_lines (lines : list string) :
  (forall p, allowed (Probe p) = true) ->
  (forall t, allowed (Stdout t) = true) ->
  tame allowed codes (scan_lines w lines).
Proof.
  intros Hprobe Hout. induction lines as [| line rest IH];
    cbn [scan_lines]; [apply tame_ret |].
  cbv zeta. destruct (PyStr.startswith "Location:" line); [| exact IH].
  unfold os_path_isdir, now, print. tame. exact IH.
Qed.

Lemma tame_get_pyzed_directory :
  (forall argv, allowed (Spawn argv) = true) ->
  (forall p, allowed (Probe p) = true) ->
  (forall t, allowed (Stdout t) = true) ->
  tame allowed codes (get_pyzed_directory w).
Proof.
  intros Hspawn Hprobe Hout.
  unfold get_pyzed_directory, subprocess_check_output, now. cbv zeta.
  apply tame_try_except.
  - apply tame_bind; [tame |]. intros out.
    apply tame_bind; [apply tame_scan_lines; assumption |].
    intros [d |]; unfold print; tame.
  - unfold print. tame.
Qed.

Lemma tame_install_win_dep (name : string) (py_vers : Z) (b : bool) :
  (forall t, allowed (Stdout t) = true) ->
  (forall u, allowed (HttpGet u) = true) ->
  (forall p d ok, allowed (WriteBytes p d ok) = true) ->
  (forall n v, allowed (SetEnv n v) = true) ->
  (forall argv, allowed (Spawn argv) = true) ->
  tame allowed codes (install_win_dep w name py_vers b).
Proof.
  intros Hout Hget Hwrite Henv Hspawn.
  unfold install_win_dep, requests_get, write_bytes, print, now. cbv zeta.
  repeat (apply tame_bind; [solve [tame] | intro]).
  apply tame_bind; [apply tame_pip_install; assumption | tame].
Qed.

Lemma tame_copy_dlls (source_dir : string) (pyzed_dir : option string)
  (files : list string) :
  (forall p, allowed (Probe p) = true) ->
  (forall a b ok, allowed (Copy a b ok) = true) ->
  (forall t, allowed (Stdout t) = true) ->
  tame allowed codes (copy_dlls w source_dir pyzed_dir files).
Proof.
  intros Hprobe Hcopy Hout. induction files as [| file rest IH];
    cbn [copy_dlls]; [apply tame_ret |].
  unfold os_path_isfile, concat_opt, shutil_copy, print, now.
  apply tame_bind; [tame |]. intros present.
  apply tame_bind; [| intros _; exact IH].
  destruct present; [| tame].
  destruct pyzed_dir; tame.
Qed.

Lemma tame_check_architecture :
  (forall t, allowed (Stdout t) = true) ->
  tame allowed codes (check_architecture w).
Proof. intros Hout. unfold check_architecture, print. tame. Qed.

Lemma tame_choose_dirname (args : Args) :
  (forall t, allowed (Stdout t) = true) ->
  (forall p, allowed (Probe p) = true) ->
  (forall p ok, allowed (WriteText p "test" ok) = true) ->
  (forall p ok, allowed (Remove p ok) = true) ->
  tame allowed codes (choose_dirname w args).
Proof.
  intros Hout Hprobe Hwrite Hremove. unfold choose_dirname, print.
  apply tame_bind.
  { destruct (args_path args) as [p |]; [destruct (String.eqb p "") |];
      tame. }
  intros wanted.
  apply tame_bind; [tame |]. intros _.
  apply tame_bind; [tame |]. intros d.
  apply tame_bind; [apply tame_can_write_to_dir; assumption |].
  intros writable.
  apply tame_bind; [destruct writable; cbn [negb]; tame | tame].
Qed.

Lemma tame_detect_platform :
  (forall t, allowed (Stdout t) = true) ->
  (forall p, allowed (Probe p) = true) ->
  (forall p, allowed (OpenRead p) = true) ->
  tame allowed codes (detect_platform w).
Proof.
  intros Hout Hprobe Hread.
  unfold detect_platform, getenv, os_path_isdir, print, now.
  destruct (String.eqb (sys_platform w) "win32").
  - apply tame_bind; [tame |]. intros [p |].
    + apply tame_bind; [| tame].
      apply tame_bind; [tame |]. intros _.
      apply tame_check_zed_sdk_version; assumption.
    + tame.
  - destruct (PyStr.contains "linux" (sys_platform w)); [| tame].
    apply tame_bind; [tame |]. intros _.
    apply tame_bind; [tame |]. intros _.
    apply tame_bind; [tame |]. intros p.
    apply tame_bind; [tame |]. intros d.
    apply tame_bind; [tame |]. intros _.
    apply tame_bind; [apply tame_check_zed_sdk_version; assumption | tame].
Qed.

Lemma tame_construct_artifact :
  (forall t, allowed (Stdout t) = true) ->
  tame allowed codes (construct_artifact w).
Proof.
  intros Hout. unfold construct_artifact, item, int, print. tame.
Qed.

Lemma tame_prepare (args : Args) :
  (forall t, allowed (Stdout t) = true) ->
  (forall p, allowed (Probe p) = true) ->
  (forall p, allowed (OpenRead p) = true) ->
  (forall p ok, allowed (WriteText p "test" ok) = true) ->
  (forall p ok, allowed (Remove p ok) = true) ->
  tame allowed codes (prepare w args).
Proof.
  intros Hout Hprobe Hread Hwrite Hremove. unfold prepare.
  apply tame_bind; [apply tame_check_architecture; assumption |].
  intros _.
  apply tame_bind; [apply tame_choose_dirname; assumption |]. intros _.
  apply tame_bind; [apply tame_detect_platform; assumption |]. intros _.
  apply tame_construct_artifact; assumption.
Qed.

Lemma tame_get_and_write :
  (forall u, allowed (HttpGet u) = true) ->
  (forall p d ok, allowed (WriteBytes p d ok) = true) ->
  tame allowed codes (get_and_write w).
Proof.
  intros Hget Hwrite. unfold get_and_write, requests_get, write_bytes, now.
  tame.
Qed.

Lemma tame_download (args : Args) :
  (forall t, allowed (Stdout t) = true) ->
  (forall u, allowed (HttpGet u) = true) ->
  (forall p d ok, allowed (WriteBytes p d ok) = true) ->
  (forall n v, allowed (SetEnv n v) = true) ->
  (forall argv, allowed (Spawn argv) = true) ->
  tame allowed codes (download w args).
Proof.
  intros Hout Hget Hwrite Henv Hspawn.
  unfold download, reinstall_certifi_and_retry, print.
  repeat (apply tame_bind; [solve [tame] | intro]).
  apply tame_try_except; [apply tame_get_and_write; assumption |].
  repeat (apply Forall_cons || apply Forall_nil);
    split; cbn [fst snd]; try solve [tame].
  intros e.
  apply tame_bind; [tame |]. intros _.
  apply tame_bind; [apply tame_pip_install; assumption |]. intros err.
  destruct (err =? 0)%Z; [| tame].
  apply tame_try_except; [apply tame_get_and_write; assumption | tame].
Qed.

End TameCode.

(** ** The whole script *)

Lemma bind_raises {A B : Type} (c : M A) (k : A -> M B) :
  (forall a s, exists e, fst (k a s) = Err e) ->
  forall s, exists e, fst (bind c k s) = Err e.
Proof.
  intros Hk s. unfold bind. destruct (c s) as [[a | e] s1].
  - apply Hk.
  - exists e. reflexivity.
Qed.

Lemma sys_exit_raises {A : Type} (code : Z) (s : State) :
  exists e, fst (@sys_exit A code s) = Err e.
Proof. eexists. reflexivity. Qed.

(** [install] ends in [sys.exit] on every path that does not raise. *)
Lemma install_raises (w : World) (args : Args) (s : State) :
  exists e, fst (install w args s) = Err e.
Proof.
  unfold install. revert s.
  apply bind_raises. intros file.
  apply bind_raises. intros [|]; repeat (apply bind_raises; intros);
    apply sys_exit_raises.
Qed.

Lemma script_raises (w : World) (args : Args) (s : State) :
  exists e, fst (script w args s) = Err e.
Proof.
  unfold script. revert s. do 5 (apply bind_raises; intros _).
  intros s. apply install_raises.
Qed.

Lemma exit_status_of (codes : list Z) (e : exn) :
  exits_with codes e ->
  exit_status (Err e) = 1%Z \/ In (exit_status (Err e)) codes.
Proof.
  intros H. unfold exit_status, class_eqb.
  destruct (exc_class_eq_dec (exn_class e) SystemExit) as [E | _];
    [right; apply H, E | left; reflexivity].
Qed.

Section TameInstall.

Variable w : World.
Variable args : Args.
Variable allowed : event -> bool.
Variable codes : list Z.

Hypothesis exit_0 : In 0%Z codes.
Hypothesis exit_1 : In 1%Z codes.
Hypothesis allowed_Stdout : forall t, allowed (Stdout t) = true.
Hypothesis allowed_Stat : forall p, allowed (Stat p) = true.
Hypothesis allowed_OpenRead : forall p, allowed (OpenRead p) = true.
Hypothesis allowed_SetEnv : forall n v, allowed (SetEnv n v) = true.
Hypothesis allowed_Spawn : forall argv, allowed (Spawn argv) = true.
Hypothesis allowed_on_Windows :
  String.eqb (sys_platform w) "win32" = true ->
  (forall u, allowed (HttpGet u) = true)
  /\ (forall p d ok, allowed (WriteBytes p d ok) = true)
  /\ (forall p, allowed (Probe p) = true)
  /\ (forall a b ok, allowed (Copy a b ok) = true).

Lemma tame_install : tame allowed codes (install w args).
Proof.
  unfold install, print.
  apply tame_bind; [tame |]. intros file.
  apply tame_bind; [apply tame_check_valid_file; assumption |].
  intros [|]; [| tame].
  apply tame_bind; [tame |]. intros _.
  apply tame_bind; [tame |]. intros _.
  apply tame_bind.
  { destruct (PyStr.contains "aarch64" (ARCH_VERSION w)); [| tame].
    apply tame_bind; [apply tame_pip_install; assumption |]. intros a.
    apply tame_bind; [apply tame_pip_install; assumption | tame]. }
  intros err.
  apply tame_bind; [apply tame_pip_install; assumption |]. intros err_numpy.
  apply tame_bind; [tame |]. intros _.
  apply tame_bind; [apply tame_pip_install; assumption |]. intros err_pyzed.
  apply tame_bind; [tame |]. intros _.
  apply tame_bind; [| tame].
  destruct (String.eqb (sys_platform w) "win32") eqn:Hwin; [| tame].
  destruct (allowed_on_Windows eq_refl) as (Hget & Hwrite & Hprobe & Hcopy).
  unfold int.
  repeat (apply tame_bind; [solve [tame] | intro]).
  apply tame_bind; [apply tame_install_win_dep; assumption |]. intros _.
  apply tame_bind; [apply tame_install_win_dep; assumption |]. intros _.
  apply tame_bind; [apply tame_get_pyzed_directory; assumption |].
  intros pyzed_dir.
  apply tame_bind; [tame |]. intros p. cbv zeta.
  apply tame_copy_dlls; assumption.
Qed.

End TameInstall.

Lemma tame_script (w : World) (args : Args) :
  tame anything [0%Z; 1%Z] (script w args).
Proof.
  unfold script.
  apply tame_bind; [apply tame_check_architecture; cbn; auto |]. intros _.
  apply tame_bind; [apply tame_choose_dirname; cbn; auto |]. intros _.
  apply tame_bind; [apply tame_detect_platform; cbn; auto |]. intros _.
  apply tame_bind; [apply tame_construct_artifact; cbn; auto |]. intros _.
  apply tame_bind; [apply tame_download; cbn; auto |]. intros _.
  apply tame_install; cbn; auto.
Qed.

(** X16: once [parser.parse_args()] has returned, whatever it returned
    and in every world, the script never falls off its end and its exit
    status is 0 or 1: lines 162 to 286 end by [sys.exit(0)], by
    [sys.exit(1)], or by an exception that nothing catches, which the
    interpreter turns into status 1. *)
Theorem script_exit_status (w : World) (args : Args) :
  (exists e, fst (run w args) = Err e)
  /\ (exit_status (fst (run w args)) = 0%Z
      \/ exit_status (fst (run w args)) = 1%Z).
Proof.
  unfold run. destruct (script_raises w args (initial_state w)) as (e & He).
  split; [exists e; exact He |].
  destruct (tame_script w args (initial_state w)) as [_ Hexit].
  rewrite He.
  destruct (exit_status_of _ _ (Hexit e He)) as [H | [H | [H | []]]];
    rewrite <- ?H; auto.
Qed.

Lemma filter_none {A : Type} (p q : A -> bool) (l : list A) :
  (forall x, p x = true -> q x = false) ->
  forallb p l = true -> filter q l = [].
Proof.
  intros Hpq. induction l as [| x l IH]; cbn; [reflexivity |].
  intros H. apply andb_true_iff in H as [Hx Hl].
  rewrite (Hpq x Hx). apply IH, Hl.
Qed.

Lemma existsb_filter {A : Type} (q : A -> bool) (l : list A) :
  filter q l = [] -> existsb q l = false.
Proof.
  induction l as [| x l IH]; cbn; [reflexivity |].
  destruct (q x); [discriminate | exact IH].
Qed.

Lemma forallb_weaken {A : Type} (p q : A -> bool) (l : list A) :
  (forall x, p x = true -> q x = true) ->
  forallb p l = true -> forallb q l = true.
Proof.
  intros Hpq H. apply forallb_forall. intros x Hx. apply Hpq.
  exact (proj1 (forallb_forall p l) H x Hx).
Qed.

Lemma prepares_quiet (e : event) : prepares e = true -> quiet e = true.
Proof. destruct e; cbn; intros; try assumption; discriminate. Qed.

(** X17: before the download the script is quiet.  From the architecture
    check to the construction of the URL it makes no network request, does
    not run pip, and writes nothing to a file but the text of the probe of
    [can_write_to_dir].  If it exits there, it is with status 1. *)
Theorem prepare_is_quiet (w : World) (args : Args) (s : State) :
  (exists l,
      log (snd (prepare w args s)) = (log s ++ l)%list
      /\ forallb quiet l = true)
  /\ (forall e,
         fst (prepare w args s) = Err e ->
         exit_status (Err e) = 1%Z).
Proof.
  assert (tame prepares [1%Z] (prepare w args)) as H
    by (apply tame_prepare; cbn; auto).
  destruct (H s) as [(l & Hl & Hal) Hexit]. split.
  - exists l. split; [exact Hl |].
    exact (forallb_weaken _ _ _ prepares_quiet Hal).
  - intros e He.
    destruct (exit_status_of _ _ (Hexit e He)) as [E | [E | []]];
      [exact E | symmetry; exact E].
Qed.

(** *** The destination directory, lines 167 to 174 *)

Lemma choose_dirname_nowhere (w : World) (args : Args) (s : State)
  (f : fault) :
  wanted_dirname w args = inl f ->
  choose_dirname w args s = (Err (fault_exn f), s).
Proof.
  unfold wanted_dirname, choose_dirname. intros H.
  destruct (args_path args) as [p |]; [destruct (String.eqb p "") |];
    try discriminate; rewrite H; reflexivity.
Qed.

Lemma choose_dirname_run (w : World) (args : Args) (s : State)
  (wanted : string) :
  wanted_dirname w args = inr wanted ->
  let r := can_write_to_dir w wanted (set_dirname wanted s) in
  let chosen d :=
    (Ok tt,
     set_log (log (snd r) ++ [Stdout ("-> Downloading to '" ++ d ++ "'")])
             %list (set_dirname d s)) in
  exists b : bool,
    fst r = Ok b
    /\ choose_dirname w args s
       = if b then chosen wanted
         else match Path_home w with
              | inr home => chosen home
              | inl f =>
                  (Err (fault_exn f),
                   set_log (log (snd r)) (set_dirname wanted s))
              end.
Proof.
  cbv zeta. unfold wanted_dirname, choose_dirname. intros H.
  assert (forall k : string -> M unit,
             bind match args_path args with
                  | Some p => if String.eqb p "" then of_sum (os_getcwd w)
                              else ret p
                  | None => of_sum (os_getcwd w)
                  end k s = k wanted s) as ->.
  { intros k.
    destruct (args_path args) as [p |]; [destruct (String.eqb p "") |];
      try rewrite H; try (injection H as ->); reflexivity. }
  mrun. rewrite can_write_to_dir_run. cbv zeta. tidy.
  destruct (path_exists w _ _); cbn [negb];
    [| exists false; split; [reflexivity |];
       destruct (Path_home w); reflexivity].
  destruct (path_isdir w _ _); cbn [negb];
    [| exists false; split; [reflexivity |];
       destruct (Path_home w); reflexivity].
  destruct (access_W_OK w _ _); cbn [negb];
    [| exists false; split; [reflexivity |];
       destruct (Path_home w); reflexivity].
  destruct (open_w_write w _ _ _);
    [exists false; split; [reflexivity |];
     destruct (Path_home w); reflexivity |].
  destruct (remove w _ _);
    [exists false; split; [reflexivity |];
     destruct (Path_home w); reflexivity |].
  exists true; split; reflexivity.
Qed.

(** X18: the choice of the directory.  When [--path] is absent or empty
    and [os.getcwd()] raises, that exception leaves the script before
    anything is probed or printed.  Otherwise the directory is
    [args.path], or the current directory, if [can_write_to_dir] accepts
    it, and the home directory if not; the home directory is taken as it
    is: after [can_write_to_dir] the stage only prints its choice, or
    raises what [Path.home()] raised, without a line on the terminal. *)
Theorem choose_dirname_spec (w : World) (args : Args) (s : State) :
  let out := choose_dirname w args s in
  match wanted_dirname w args with
  | inl f => out = (Err (fault_exn f), s)
  | inr wanted =>
      let r := can_write_to_dir w wanted (set_dirname wanted s) in
      exists b : bool,
        fst r = Ok b
        /\ match (if b then inr wanted else Path_home w) with
           | inr d =>
               fst out = Ok tt
               /\ dirname (snd out) = d
               /\ log (snd out)
                  = (log (snd r)
                     ++ [Stdout ("-> Downloading to '" ++ d ++ "'")])%list
           | inl f =>
               fst out = Err (fault_exn f)
               /\ log (snd out) = log (snd r)
           end
  end.
Proof.
  cbv zeta. destruct (wanted_dirname w args) as [f | wanted] eqn:Hw.
  - apply choose_dirname_nowhere, Hw.
  - destruct (choose_dirname_run w args s wanted Hw) as (b & Hb & Hrun).
    exists b. split; [exact Hb |]. rewrite Hrun.
    destruct b; [repeat split |].
    destruct (Path_home w); repeat split.
Qed.

Example choose_dirname_cases :
  dirname (snd (choose_dirname Sample.good Sample.no_args
                  (initial_state Sample.good))) = "/home/user/zed"
  /\ dirname (snd (choose_dirname Sample.good Sample.path_args
                     (initial_state Sample.good))) = "/tmp/out"
  /\ dirname (snd (choose_dirname Sample.good
                     {| args_path := Some ""; args_force := false |}
                     (initial_state Sample.good))) = "/home/user/zed"
  /\ dirname (snd (choose_dirname Cases.unwritable_cwd Sample.no_args
                     (initial_state Cases.unwritable_cwd))) = "/home/user"
  /\ dirname (snd (choose_dirname Cases.removed_cwd Sample.path_args
                     (initial_state Cases.removed_cwd))) = "/tmp/out"
  /\ choose_dirname Cases.removed_cwd Sample.no_args
       (initial_state Cases.removed_cwd)
     = (Err (fault_exn Sample.no_such_file),
        initial_state Cases.removed_cwd)
  /\ fst (choose_dirname Cases.homeless Sample.no_args
            (initial_state Cases.homeless))
     = Err (fault_exn Cases.no_home).
Proof. repeat split. Qed.

(** *** The outcomes of the download, lines 217 to 237 *)

(** X19: what becomes of a failure of the download.  When neither the GET
    nor the write raises, the download ends normally.  A
    [PermissionError] ends the script with status 1; an [HTTPError] is
    printed and the script goes on; any other exception, be it a
    connection error, a timeout or a full disk, is replaced by the
    [AttributeError] of the third clause. *)
Theorem download_outcomes (w : World) (args : Args) (s : State) :
  fst (download w args s)
  = match download_fault w s with
    | None => Ok tt
    | Some f =>
        if isinstance (fault_exn f) PermissionError
        then Err (Exn SystemExit 1 "")
        else if isinstance (fault_exn f) HTTPError
             then Ok tt
             else Err (no_attribute "URLError")
    end.
Proof.
  rewrite download_run. cbv zeta. unfold download_fault.
  destruct (http_get w (S (clock s)) (whl_file_URL s)) as [f | r].
  - unfold after_download_failure.
    destruct (isinstance (fault_exn f) PermissionError); [reflexivity |].
    destruct (isinstance (fault_exn f) HTTPError); reflexivity.
  - destruct (open_wb_write w _ _ _) as [f |]; [| reflexivity].
    unfold after_download_failure.
    destruct (isinstance (fault_exn f) PermissionError); [reflexivity |].
    destruct (isinstance (fault_exn f) HTTPError); reflexivity.
Qed.

Example download_outcomes_cases :
  let outcome w := fst (download w Sample.no_args
                          (before_download w Sample.no_args)) in
  outcome Sample.good = Ok tt
  /\ outcome Cases.read_only_disk = Err (Exn SystemExit 1 "")
  /\ outcome Cases.stale_wheel = Ok tt
  /\ outcome Sample.bad_certificates = Err (no_attribute "URLError").
Proof. repeat split. Qed.

(** *** Platforms without a wheel, lines 176 to 200 *)

Lemma check_architecture_ok (w : World) (s : State) :
  platform_architecture_0 w = "64bit" ->
  check_architecture w s = (Ok tt, s).
Proof. intros H. unfold check_architecture. rewrite H. reflexivity. Qed.










(** In a working directory that has been removed, and without [--path],
    the script ends at line 168 with the exception of [os.getcwd()]: it
    prints nothing, whatever the platform. *)
Example removed_cwd_ends_the_script :
  run (Cases.on_platform "darwin" [] Cases.removed_cwd) Sample.no_args
  = (Err (fault_exn Sample.no_such_file),
     initial_state (Cases.on_platform "darwin" [] Cases.removed_cwd)).
Proof. reflexivity. Qed.

(** *** Exit status 0 *)

(** A statement that can only exit with 1 and is followed by more: when
    the whole exits with 0, the statement returned. *)
Lemma exit_0_bind {A : Type} (c : M A) (k : A -> M unit) (s : State) :
  tame anything [1%Z] c ->
  exit_status (fst (bind c k s)) = 0%Z ->
  exists a s1, c s = (Ok a, s1) /\ bind c k s = k a s1.
Proof.
  intros Hc H. unfold bind in *. destruct (Hc s) as [_ He].
  destruct (c s) as [[a | e] s1]; [exists a, s1; split; reflexivity |].
  exfalso. cbn [fst] in *.
  destruct (exit_status_of _ _ (He e eq_refl)) as [E | [E | []]];
    rewrite H in E; discriminate.
Qed.

Lemma tame_keeps_result {A : Type} (allowed : event -> bool)
  (codes : list Z) (c : M A) (s s1 : State) (r : res A) (e : event) :
  tame allowed codes c -> c s = (r, s1) -> In e (log s) -> In e (log s1).
Proof.
  intros Hc Hr Hin. pose proof (tame_keeps allowed codes c s e Hc Hin) as H.
  rewrite Hr in H. exact H.
Qed.

(** Peels the first statement off a sequence that exits with 0. *)
Ltac peel H tac a s1 Hc :=
  match type of H with
  | exit_status (fst (bind ?c ?k ?s)) = _ =>
      let Ht := fresh "Ht" in
      let Heq := fresh "Heq" in
      assert (Ht : tame anything [1%Z] c) by tac;
      destruct (exit_0_bind c k s Ht H) as (a & s1 & Hc & Heq);
      rewrite Heq in *; clear Heq
  end.

Lemma pip_install_zero (w : World) (package : string) (f i u b : bool)
  (s s' : State) :
  pip_install w package f i u b s = (Ok 0%Z, s') ->
  (exists t out,
      run_process w t (pip_argv w package f i u b) = inr (0%Z, out))
  /\ In (Spawn (pip_argv w package f i u b)) (log s').
Proof.
  rewrite pip_install_run. intros H. injection H as Hv Hs. split.
  - destruct (run_process w (pip_time b s) (pip_argv w package f i u b))
      as [flt | [status out]] eqn:E; [discriminate |].
    destruct (Z.eqb_spec status 0); [| discriminate].
    subst status. eauto.
  - subst s'. unfold pip_state, pip_trace. cbn [log set_log].
    apply in_or_app. right. apply in_or_app. right. left. reflexivity.
Qed.

Lemma install_exit_0 (w : World) (args : Args) (s : State) :
  exit_status (fst (install w args s)) = 0%Z ->
  let argv := pip_argv w (whl_file s) true false false (args_force args) in
  fst (check_valid_file w (whl_file s) s) = Ok true
  /\ (exists t out, run_process w t argv = inr (0%Z, out))
  /\ In (Spawn argv) (log (snd (install w args s))).
Proof.
  intros H. cbv zeta. unfold install in *.
  peel H ltac:(tame) file s0 Hfile.
  injection Hfile as <- <-.
  peel H ltac:(apply tame_check_valid_file; cbn; auto) valid s1 Hvalid.
  destruct valid.
  2: { exfalso. revert H.
       cbv beta iota zeta delta [bind print emit modify sys_exit raise].
       cbn. discriminate. }
  rewrite Hvalid. split; [reflexivity |].
  peel H ltac:(unfold print; tame) u1 s2 H1.
  peel H ltac:(unfold print; tame) u2 s3 H2.
  peel H ltac:(destruct (PyStr.contains "aarch64" (ARCH_VERSION w));
               [| tame];
               apply tame_bind; [apply tame_pip_install; cbn; auto |];
               intros; apply tame_bind;
               [apply tame_pip_install; cbn; auto | tame])
       err s4 H3.
  peel H ltac:(apply tame_pip_install; cbn; auto) err_numpy s5 H4.
  peel H ltac:(unfold print; tame) u3 s6 H5.
  peel H ltac:(apply tame_pip_install; cbn; auto) err_pyzed s7 Hpip.
  peel H ltac:(unfold print; tame) u4 s8 H6.
  assert (err_pyzed = 0%Z) as ->.
  { destruct (Z.eqb_spec err_pyzed 0); [assumption |]. exfalso. revert H6.
    cbv beta iota zeta delta [bind print emit modify sys_exit raise].
    discriminate. }
  destruct (pip_install_zero _ _ _ _ _ _ _ _ Hpip) as [Hrun Hin].
  split; [exact Hrun |].
  assert (In (Spawn (pip_argv w (whl_file s) true false false
                       (args_force args))) (log s8)) as Hin8.
  { revert H6. cbn [Z.eqb]. unfold print. intros H6.
    eapply tame_keeps_result; [| exact H6 | exact Hin].
    apply (tame_emit anything [1%Z]). reflexivity. }
  match type of H with
  | exit_status (fst (bind ?c ?k ?st)) = _ =>
      assert (tame anything [1%Z] c) as Htail
  end.
  { destruct (String.eqb (sys_platform w) "win32"); [| unfold print; tame].
    unfold print, int.
    repeat (apply tame_bind; [solve [tame] | intro]).
    apply tame_bind; [apply tame_install_win_dep; cbn; auto |]. intros _.
    apply tame_bind; [apply tame_install_win_dep; cbn; auto |]. intros _.
    apply tame_bind; [apply tame_get_pyzed_directory; cbn; auto |].
    intros pyzed_dir.
    apply tame_bind; [tame |]. intros p. cbv zeta.
    apply tame_copy_dlls; cbn; auto. }
  destruct (exit_0_bind _ _ _ Htail H) as (u5 & s9 & H7 & Heq).
  rewrite Heq. cbn [snd sys_exit raise].
  eapply tame_keeps_result; [exact Htail | exact H7 | exact Hin8].
Qed.

(** X22: exit status 0 means the wheel was installed.  In every world,
    when [parser.parse_args()] has returned and the script then exits with
    status 0, [check_valid_file] accepted the file at the destination, and
    [pip install --force-reinstall] of that file was run and exited with
    status 0. *)
Theorem exit_0_means_installed (w : World) (args : Args) :
  exit_status (fst (run w args)) = 0%Z ->
  let s := before_install w args in
  fst (check_valid_file w (whl_file s) s) = Ok true
  /\ (exists t out,
         run_process w t (install_pyzed_argv w args s) = inr (0%Z, out))
  /\ In (Spawn (install_pyzed_argv w args s)) (log (snd (run w args))).
Proof.
  unfold run, before_install, install_pyzed_argv. rewrite script_prepare.
  intros H. cbv zeta.
  peel H ltac:(apply tame_prepare; cbn; auto) u1 s1 Hprep.
  peel H ltac:(apply tame_download; cbn; auto) u2 s2 Hdl.
  assert (snd ((prepare w args ;; download w args) (initial_state w)) = s2)
    as ->.
  { cbv beta iota delta [bind]. rewrite Hprep, Hdl. reflexivity. }
  apply install_exit_0. exact H.
Qed.

Lemma exit_0_means_installed_witness :
  let s := before_install Sample.good Sample.no_args in
  fst (check_valid_file Sample.good (whl_file s) s) = Ok true
  /\ In (Spawn ["/usr/bin/python3"; "-m"; "pip"; "install";
               "--force-reinstall";
               "/home/user/zed/pyzed-4.1-cp310-cp310-linux_x86_64.whl"])
        (log (snd (run Sample.good Sample.no_args))).
Proof.
  cbv zeta.
  destruct (exit_0_means_installed Sample.good Sample.no_args eq_refl)
    as (Hvalid & _ & Hin).
  split; [exact Hvalid | exact Hin].
Defined.

(** *** The run that succeeds *)

(** Where the working directory is there and the home directory is
    known, the choice of the directory returns. *)
Lemma choose_dirname_returns (w : World) (args : Args) (s : State) :
  (exists cwd, os_getcwd w = inr cwd) ->
  (exists home, Path_home w = inr home) ->
  exists s1, choose_dirname w args s = (Ok tt, s1).
Proof.
  intros (cwd & Hcwd) (home & Hhome).
  assert (exists wanted, wanted_dirname w args = inr wanted)
    as (wanted & Hw).
  { unfold wanted_dirname. rewrite Hcwd.
    destruct (args_path args) as [p |]; [destruct (String.eqb p "") |];
      eexists; reflexivity. }
  destruct (choose_dirname_run w args s wanted Hw) as (b & _ & ->).
  rewrite Hhome. destruct b; eexists; reflexivity.
Qed.

Lemma prepare_healthy (w : World) (args : Args) (s : State) :
  healthy_linux w -> exists s1, prepare w args s = (Ok tt, s1).
Proof.
  intros (Harch & Hfam & Hdir & (data & Hpat & Hread)
          & (major & minor & rest & n & Hsplit & Hint)
          & _ & _ & _ & _ & _ & Hcwd & Hhome).
  unfold prepare. cbv beta iota delta [bind].
  rewrite (check_architecture_ok _ _ Harch).
  destruct (choose_dirname_returns w args s Hcwd Hhome) as (s1 & ->).
  assert (exists s2, detect_platform w s1 = (Ok tt, s2)) as (s2 & ->).
  { unfold detect_platform, family_of in *.
    destruct (String.eqb (sys_platform w) "win32"); [discriminate |].
    destruct (PyStr.contains "linux" (sys_platform w)); [| discriminate].
    assert (forall st, exists st',
               check_zed_sdk_version w ("/usr/local/zed" ++ "/include") st
               = (Ok tt, st')) as Hcheck.
    { intros st. unfold check_zed_sdk_version. mrun.
      rewrite check_zed_sdk_version_private_run. cbv zeta.
      change (("/usr/local/zed" ++ "/include") ++ "/sl/Camera.hpp")
        with "/usr/local/zed/include/sl/Camera.hpp".
      rewrite Hread. unfold has_version_pattern in Hpat.
      destruct (re_search "ZED_SDK_MAJOR_VERSION " data); [| discriminate].
      destruct (re_search "ZED_SDK_MINOR_VERSION " data); [| discriminate].
      eexists. reflexivity. }
    destruct (PyStr.contains "aarch64" (ARCH_VERSION w)); mrun;
      rewrite Hdir; mrun;
      match goal with
      | |- context [check_zed_sdk_version w ?p ?st] =>
          destruct (Hcheck st) as (st' & ->)
      end;
      eexists; reflexivity. }
  unfold construct_artifact. mrun. rewrite Hsplit.
  cbn [nth_error]. mrun. rewrite Hint. mrun. eexists. reflexivity.
Qed.

Lemma download_healthy (w : World) (args : Args) (s : State) :
  healthy_linux w -> exists s1, download w args s = (Ok tt, s1).
Proof.
  intros (_ & _ & _ & _ & _ & Hget & Hwrite & _).
  rewrite download_run. cbv zeta.
  destruct (Hget (S (clock s)) (whl_file_URL s)) as (r & ->).
  rewrite Hwrite. eexists. reflexivity.
Qed.

Lemma install_healthy (w : World) (args : Args) (s : State) :
  healthy_linux w -> fst (install w args s) = Err (Exn SystemExit 0 "").
Proof.
  intros (_ & Hfam & _ & _ & _ & _ & _ & Hstat & Hread & Hpip & _).
  assert (String.eqb (sys_platform w) "win32" = false) as Hwin.
  { unfold family_of in Hfam.
    destruct (String.eqb (sys_platform w) "win32");
      [discriminate | reflexivity]. }
  assert (fst (check_valid_file w (whl_file s) s) = Ok true) as Hvalid.
  { apply check_valid_file_true_iff.
    destruct (Hstat (clock s) (whl_file s)) as (n & Hn & Hbig).
    destruct (Hread (S (clock s)) (whl_file s)) as (data & Hd & Hz).
    exists n, data. repeat split; assumption. }
  assert (forall package f i u b st,
             pip_install w package f i u b st
             = (Ok 0%Z, pip_state w package f i u b st)) as Hzero.
  { intros. rewrite pip_install_run.
    destruct (Hpip (pip_time b st) (pip_argv w package f i u b))
      as (out & ->).
    reflexivity. }
  unfold install. cbv beta iota delta [bind get].
  destruct (check_valid_file w (whl_file s) s) as [r s1].
  cbn [fst] in Hvalid. subst r. unfold print. mrun.
  destruct (PyStr.contains "aarch64" (ARCH_VERSION w)); mrun;
    rewrite !Hzero; cbn [Z.eqb Z.add orb]; mrun;
    rewrite ?Hzero; cbn [Z.eqb Z.add orb]; mrun;
    rewrite Hwin; mrun; reflexivity.
Qed.

(** X23: the run that succeeds.  On a Linux machine where everything is
    in place, whatever [parser.parse_args()] returned, the script exits
    with status 0 by its final [sys.exit(0)]. *)
Theorem healthy_linux_exits_0 (w : World) (args : Args) :
  healthy_linux w ->
  fst (run w args) = Err (Exn SystemExit 0 "")
  /\ exit_status (fst (run w args)) = 0%Z.
Proof.
  intros Hw. unfold run. rewrite script_prepare.
  cbv beta iota delta [bind].
  destruct (prepare_healthy w args (initial_state w) Hw) as (s1 & ->).
  destruct (download_healthy w args s1 Hw) as (s2 & ->).
  rewrite (install_healthy w args s2 Hw). split; reflexivity.
Qed.

Lemma healthy_linux_exits_0_witness :
  healthy_linux Sample.good
  /\ fst (run Sample.good Sample.path_args) = Err (Exn SystemExit 0 "")
  /\ exit_status (fst (run Sample.good Sample.path_args)) = 0%Z.
Proof.
  assert (healthy_linux Sample.good) as Hw.
  { repeat split; try reflexivity.
    - exists Sample.header_4_1. split; reflexivity.
    - exists "3", "10", ["12"], 10%Z. split; reflexivity.
    - intros t url. eexists. reflexivity.
    - intros t path. exists 200000%Z. split; reflexivity.
    - intros t path. exists Sample.wheel_bytes. split; reflexivity.
    - intros t argv. exists "". reflexivity.
    - eexists. reflexivity.
    - eexists. reflexivity. }
  split; [exact Hw |].
  apply (healthy_linux_exits_0 Sample.good Sample.path_args Hw).
Defined.

(** *** What the script never does *)

Lemma prepares_no_spawn (e : event) :
  prepares e = true -> is_spawn e = false.
Proof. destruct e; cbn; intros; try reflexivity; discriminate. Qed.

Lemma prepares_no_network (e : event) :
  prepares e = true -> is_network e = false.
Proof. destruct e; cbn; intros; try reflexivity; discriminate. Qed.

Lemma installs_no_network (e : event) :
  installs e = true -> is_network e = false.
Proof. destruct e; cbn; intros; try reflexivity; discriminate. Qed.

(** When the validation does not say yes, [install] makes no call of
    [subprocess]. *)
Lemma install_unvalidated (w : World) (args : Args) (s : State) :
  fst (check_valid_file w (whl_file s) s) <> Ok true ->
  exists l,
    log (snd (install w args s)) = (log s ++ l)%list
    /\ existsb is_spawn l = false.
Proof.
  intros Hno. unfold install. cbv beta iota delta [bind get].
  destruct (stat_st_size w (clock s) (whl_file s)) as [f | n] eqn:Hs.
  - destruct (isinstance (fault_exn f) FileNotFoundError) eqn:Hf.
    + rewrite (check_valid_file_missing _ _ _ _ Hs Hf). unfold print. mrun.
      eexists. split; reflexivity.
    + rewrite (check_valid_file_raises _ _ _ _ Hs Hf).
      eexists. split; reflexivity.
  - rewrite (check_valid_file_sized _ _ _ _ Hs) in *. cbn [fst] in Hno.
    match type of Hno with
    | Ok ?b <> _ => destruct b
    end; [contradiction Hno; reflexivity |].
    unfold print. mrun. eexists. split; reflexivity.
Qed.

(** A call of [subprocess] by the script comes after the validation. *)
Lemma subprocess_needs_validation (w : World) (args : Args) :
  existsb is_spawn (log (snd (run w args))) = true ->
  let s := before_install w args in
  fst ((prepare w args ;; download w args) (initial_state w)) = Ok tt
  /\ fst (check_valid_file w (whl_file s) s) = Ok true.
Proof.
  unfold run, before_install. rewrite script_prepare.
  cbv beta iota zeta delta [bind]. intros H.
  assert (tame prepares [1%Z] (prepare w args)) as Hp
    by (apply tame_prepare; cbn; auto).
  destruct (Hp (initial_state w)) as [(l1 & Hl1 & Hal1) _].
  destruct (prepare w args (initial_state w)) as [[[] | e] s1];
    cbn [fst snd] in *.
  2: { exfalso. rewrite Hl1 in H. cbn [initial_state log app] in H.
       rewrite (existsb_filter _ _
                  (filter_none _ _ _ prepares_no_spawn Hal1)) in H.
       discriminate. }
  destruct (download_never_repairs w args s1) as (l2 & Hl2 & Hal2 & _).
  destruct (download w args s1) as [[[] | e] s2]; cbn [fst snd] in *.
  2: { exfalso. rewrite Hl2, Hl1 in H. cbn [initial_state log app] in H.
       rewrite existsb_app, Hal2 in H.
       rewrite (existsb_filter _ _
                  (filter_none _ _ _ prepares_no_spawn Hal1)) in H.
       discriminate. }
  split; [reflexivity |].
  destruct (fst (check_valid_file w (whl_file s2) s2)) as [[|] | e] eqn:Hv;
    [reflexivity | exfalso | exfalso].
  all: destruct (install_unvalidated w args s2) as (l3 & Hl3 & Hal3);
    [rewrite Hv; discriminate |].
  all: rewrite Hl3, Hl2, Hl1 in H; cbn [initial_state log app] in H.
  all: rewrite !existsb_app, Hal2, Hal3 in H.
  all: rewrite (existsb_filter _ _
                  (filter_none _ _ _ prepares_no_spawn Hal1)) in H.
  all: discriminate.
Qed.

Lemma is_pip_is_spawn (l : list event) :
  existsb is_pip l = true -> existsb is_spawn l = true.
Proof.
  intros H. apply existsb_exists in H as (e & Hin & He).
  apply existsb_exists. exists e. split; [exact Hin |].
  destruct e; try discriminate. reflexivity.
Qed.

(** X24: pip is not run for a download that was not validated.  In every
    world and whatever [parser.parse_args()] returned, if the script runs
    pip, then the stages before the validation ended normally and
    [check_valid_file] accepted the file at the destination. *)
Theorem pip_needs_validation (w : World) (args : Args) :
  existsb is_pip (log (snd (run w args))) = true ->
  let s := before_install w args in
  fst ((prepare w args ;; download w args) (initial_state w)) = Ok tt
  /\ fst (check_valid_file w (whl_file s) s) = Ok true.
Proof.
  intros H. apply subprocess_needs_validation, is_pip_is_spawn, H.
Qed.

Lemma pip_needs_validation_witness :
  existsb is_pip (log (snd (run Sample.good Sample.no_args))) = true
  /\ let s := before_install Sample.good Sample.no_args in
     fst ((prepare Sample.good Sample.no_args
           ;; download Sample.good Sample.no_args)
            (initial_state Sample.good)) = Ok tt
     /\ fst (check_valid_file Sample.good (whl_file s) s) = Ok true.
Proof.
  split; [reflexivity |].
  apply (pip_needs_validation Sample.good Sample.no_args).
  reflexivity.
Defined.

(** Where the validation says no, pip is not run: the error page of a
    server that answers 404 is written and left alone. *)
Example error_page_is_not_installed :
  existsb is_pip (log (snd (run Sample.big_html Sample.no_args))) = false
  /\ exit_status (fst (run Sample.big_html Sample.no_args)) = 1%Z.
Proof. split; reflexivity. Qed.

(** X25: off Windows the script makes at most one network request.  The
    stages before the download make none, the download makes one, and the
    installation, which downloads the OpenGL wheels on Windows only, makes
    none. *)
Theorem one_request_off_windows (w : World) (args : Args) :
  String.eqb (sys_platform w) "win32" = false ->
  (List.length (filter is_network (log (snd (run w args)))) <= 1)%nat.
Proof.
  intros Hwin. unfold run. rewrite script_prepare.
  cbv beta iota zeta delta [bind].
  assert (tame prepares [1%Z] (prepare w args)) as Hp
    by (apply tame_prepare; cbn; auto).
  destruct (Hp (initial_state w)) as [(l1 & Hl1 & Hal1) _].
  pose proof (filter_none _ _ _ prepares_no_network Hal1) as Hn1.
  destruct (prepare w args (initial_state w)) as [[[] | e] s1];
    cbn [fst snd] in *.
  2: { rewrite Hl1. cbn [initial_state log app]. rewrite Hn1. cbn. lia. }
  destruct (download_never_repairs w args s1) as (l2 & Hl2 & _ & Hn2).
  destruct (download w args s1) as [[[] | e] s2]; cbn [fst snd] in *.
  2: { rewrite Hl2, Hl1. cbn [initial_state log app].
       rewrite filter_app, Hn1, length_app, Hn2. cbn. lia. }
  assert (tame installs [0%Z; 1%Z] (install w args)) as Hi.
  { apply tame_install; cbn; auto. rewrite Hwin. discriminate. }
  destruct (Hi s2) as [(l3 & Hl3 & Hal3) _].
  rewrite Hl3, Hl2, Hl1. cbn [initial_state log app].
  rewrite !filter_app, !length_app, Hn1, Hn2.
  rewrite (filter_none _ _ _ installs_no_network Hal3). cbn. lia.
Qed.

Lemma one_request_off_windows_witness :
  (List.length
     (filter is_network (log (snd (run Sample.good Sample.no_args))))
   <= 1)%nat.
Proof.
  apply (one_request_off_windows Sample.good Sample.no_args).
  reflexivity.
Defined.

(** On Windows the installation asks for two more wheels. *)
Example three_requests_on_windows :
  filter is_network
    (log (snd (run Cases.windows_without_pip_show Sample.no_args)))
  = [HttpGet "https://download.stereolabs.com/zedsdk/4.1/whl/win_x86_64/pyzed-4.1-cp310-cp310-win_x86_64.whl";
     HttpGet "https://download.stereolabs.com/py/PyOpenGL-3.1.6-cp310-cp310-win_amd64.whl";
     HttpGet "https://download.stereolabs.com/py/PyOpenGL_accelerate-3.1.6-cp310-cp310-win_amd64.whl"].
Proof. reflexivity. Qed.

Lemma prepare_is_quiet_witness :
  fst (prepare Sample.narrow Sample.no_args (initial_state Sample.narrow))
  = Err (Exn SystemExit 1 "")
  /\ exit_status (Err (Exn SystemExit 1 "")) = 1%Z.
Proof.
  split; [reflexivity |].
  apply (proj2 (prepare_is_quiet Sample.narrow Sample.no_args
                  (initial_state Sample.narrow))).
  reflexivity.
Defined.

(** A run on Windows where [pip show] cannot be run: the wheel is
    installed, the exit status is 0, and the two libraries are at the
    root of the file system. *)
Example dlls_land_at_the_root :
  let r := run Cases.windows_without_pip_show Sample.no_args in
  exit_status (fst r) = 0%Z
  /\ filter (fun e => match e with Copy _ _ _ => true | _ => false end)
       (log (snd r))
     = [Copy "C:/ZED/bin/sl_ai64.dll" "/sl_ai64.dll" true;
        Copy "C:/ZED/bin/sl_zed64.dll" "/sl_zed64.dll" true].
Proof. split; reflexivity. Qed.
